(** * rastrear_saojoao: the resolution engine, embedded and verified

    A shallow embedding of [rastrear_saojoao.py]: the text utilities, the
    field extractors, the match scorer [_best_match], the fallback chain
    [_consultar] and the batch loop [processar_dataframe].

    Python values decoded from the catalog's JSON keep their dynamic types
    (an ill-typed field raises [AttributeError] or [TypeError] exactly where
    the interpreter would); the network and the clock are an explicit world
    state threaded through a small state-and-exception monad that also
    records which searches were invoked and when the loop slept. *)

From Stdlib Require Import ZArith NArith List String Ascii Bool Lia.
From Stdlib Require Import SpecFloat.
From stdpp Require Import base option list gmap.

Open Scope Z_scope.

(** ** Python strings

    A [str] is a sequence of Unicode code points: [len] counts code points,
    not bytes, which matters for the tie-break of the scorer. *)

Module Str.

Definition pystr := list N.

(** Decoding of the UTF-8 bytes of a literal of this file into code points. *)
Fixpoint utf8_dec (bs : list N) : pystr :=
  match bs with
  | [] => []
  | b :: r =>
    if (b <? 128)%N then b :: utf8_dec r
    else match r with
    | [] => [b]
    | b1 :: r1 =>
      if (b <? 224)%N
      then (N.lor (N.shiftl (N.land b 31) 6) (N.land b1 63)) :: utf8_dec r1
      else match r1 with
      | [] => [b]
      | b2 :: r2 =>
        if (b <? 240)%N
        then (N.lor (N.shiftl (N.land b 15) 12)
               (N.lor (N.shiftl (N.land b1 63) 6) (N.land b2 63))) :: utf8_dec r2
        else match r2 with
        | [] => [b]
        | b3 :: r3 =>
          (N.lor (N.shiftl (N.land b 7) 18)
            (N.lor (N.shiftl (N.land b1 63) 12)
              (N.lor (N.shiftl (N.land b2 63) 6) (N.land b3 63)))) :: utf8_dec r3
        end
      end
    end
  end.

(** [u "texto"] is the Python string written "texto" in the source. *)
Definition u (s : string) : pystr :=
  utf8_dec (map N_of_ascii (list_ascii_of_string s)).

Definition eqb (a b : pystr) : bool := bool_decide (a = b).

Definition len (s : pystr) : Z := Z.of_nat (length s).

(** [Py_UNICODE_ISSPACE]: the characters [str.strip()] removes and the
    regular-expression class [\s] matches on [str] patterns. *)
Definition isspace (c : N) : bool :=
  ((9 <=? c) && (c <=? 13) || (28 <=? c) && (c <=? 32) || (c =? 133)
   || (c =? 160) || (c =? 5760) || (8192 <=? c) && (c <=? 8202)
   || (c =? 8232) || (c =? 8233) || (c =? 8239) || (c =? 8287)
   || (c =? 12288))%N.

Fixpoint lstrip_by (p : N -> bool) (s : pystr) : pystr :=
  match s with
  | c :: r => if p c then lstrip_by p r else s
  | [] => []
  end.

Definition rstrip_by (p : N -> bool) (s : pystr) : pystr :=
  rev (lstrip_by p (rev s)).

Definition strip_by (p : N -> bool) (s : pystr) : pystr :=
  rstrip_by p (lstrip_by p s).

(** [s.strip()] *)
Definition strip (s : pystr) : pystr := strip_by isspace s.

(** [s.strip(chars)] *)
Definition strip_chars (chars s : pystr) : pystr :=
  strip_by (fun c => bool_decide (c ∈ chars)) s.

(** [s.replace(old, new)] for a one-character [old]. *)
Definition replace1 (old : N) (new : pystr) (s : pystr) : pystr :=
  concat (map (fun c => if (c =? old)%N then new else [c]) s).

(** [s.split(sep)] for a one-character [sep]: empty pieces are kept. *)
Fixpoint split1 (sep : N) (s : pystr) : list pystr :=
  match s with
  | [] => [[]]
  | c :: r =>
    if (c =? sep)%N then [] :: split1 sep r
    else match split1 sep r with
         | p :: ps => (c :: p) :: ps
         | [] => [[c]]
         end
  end.

(** [sep.join(parts)] *)
Fixpoint join (sep : pystr) (parts : list pystr) : pystr :=
  match parts with
  | [] => []
  | [p] => p
  | p :: ps => p ++ sep ++ join sep ps
  end.

Fixpoint is_prefix (t s : pystr) : bool :=
  match t, s with
  | [], _ => true
  | _ :: _, [] => false
  | a :: t', b :: s' => (a =? b)%N && is_prefix t' s'
  end.

(** [t in s] *)
Fixpoint contains (t s : pystr) : bool :=
  is_prefix t s ||
  match s with
  | [] => false
  | _ :: s' => contains t s'
  end.

(** [re.split(r"\s+", s)]: the pieces between the maximal runs of
    white space, empty pieces at the ends included. *)
Fixpoint re_split_ws_aux (cur : pystr) (in_ws : bool) (s : pystr) : list pystr :=
  match s with
  | [] => [rev cur]
  | c :: r =>
    if isspace c
    then if in_ws then re_split_ws_aux cur true r
         else rev cur :: re_split_ws_aux [] true r
    else re_split_ws_aux (c :: cur) false r
  end.

Definition re_split_ws (s : pystr) : list pystr := re_split_ws_aux [] false s.

(** Decimal rendering of a natural number, as [str(n)] prints it. *)
Fixpoint digits_fuel (fuel : nat) (n : N) (acc : pystr) : pystr :=
  match fuel with
  | O => acc
  | S f =>
    let acc' := (48 + n mod 10)%N :: acc in
    if (n <? 10)%N then acc' else digits_fuel f (n / 10)%N acc'
  end.

Definition of_N (n : N) : pystr := digits_fuel (S (N.to_nat (N.log2 n))) n [].

End Str.

Import Str.

(** ** Python values and exceptions *)

(** What [Response.json()] decodes: [None], [bool], [int], [float], [str],
    [list] and [dict].  A [dict] is the list of its items in insertion
    order; its keys are pairwise distinct. *)
#[warnings="-register-all"]
Inductive json :=
| JNull
| JBool (b : bool)
| JInt (n : Z)
| JFloat (f : spec_float)
| JStr (s : pystr)
| JArr (l : list json)
| JObj (m : list (pystr * json)).

(** [type(v).__name__] *)
Definition type_name (v : json) : pystr :=
  match v with
  | JNull => u "NoneType"
  | JBool _ => u "bool"
  | JInt _ => u "int"
  | JFloat _ => u "float"
  | JStr _ => u "str"
  | JArr _ => u "list"
  | JObj _ => u "dict"
  end.

(** [bool(v)]: what [not v], [v or d] and [if v] test. *)
Definition truthy (v : json) : bool :=
  match v with
  | JNull => false
  | JBool b => b
  | JInt n => negb (n =? 0)
  | JFloat (S754_zero _) => false
  | JFloat _ => true
  | JStr s => negb (bool_decide (s = []))
  | JArr l => negb (bool_decide (length l = 0%nat))
  | JObj m => negb (bool_decide (length m = 0%nat))
  end.

(** [a or b] *)
Definition py_or (a b : json) : json := if truthy a then a else b.

Inductive exn_class :=
| AttributeError | TypeError | KeyError | IndexError | ValueError
| OverflowError | UnicodeEncodeError
| OtherException   (* any other subclass of [Exception] *)
| NonException.    (* [KeyboardInterrupt], [SystemExit]: not an [Exception] *)

(** An exception: its class and [str(e)]. *)
Record exn := Exn { exn_cls : exn_class; exn_msg : pystr }.

(** What [except Exception] catches. *)
Definition is_Exception (e : exn) : bool :=
  match exn_cls e with NonException => false | _ => true end.

Inductive outcome (A : Type) :=
| Ret (a : A)
| Raise (e : exn).
Arguments Ret {A} a.
Arguments Raise {A} e.

Definition obind {A B} (x : outcome A) (k : A -> outcome B) : outcome B :=
  match x with Ret a => k a | Raise e => Raise e end.

Notation "'let!' x ':=' c 'in' k" := (obind c (fun x => k))
  (at level 10, x name, c at level 100, k at level 200).

(** Evaluation of [f] over a list from left to right; the first exception
    stops it (a comprehension, or the key function of [sorted] and [max]). *)
Fixpoint omap {A B} (f : A -> outcome B) (l : list A) : outcome (list B) :=
  match l with
  | [] => Ret []
  | a :: r =>
    match f a with
    | Raise e => Raise e
    | Ret b => match omap f r with
               | Raise e => Raise e
               | Ret bs => Ret (b :: bs)
               end
    end
  end.

Definition no_attribute (v : json) (attr : string) : exn :=
  Exn AttributeError
      (u "'" ++ type_name v ++ u "' object has no attribute '" ++ u attr ++ u "'").

(** The receiver of a [str] method: [v.lower()], [v.strip()], ... on a
    value that is not a [str] raises [AttributeError]. *)
Definition str_method (attr : string) (v : json) : outcome pystr :=
  match v with
  | JStr s => Ret s
  | _ => Raise (no_attribute v attr)
  end.

Fixpoint dict_lookup (m : list (pystr * json)) (k : pystr) : option json :=
  match m with
  | [] => None
  | (k', v) :: r => if Str.eqb k k' then Some v else dict_lookup r k
  end.

(** [v.get(k, default)] *)
Definition py_get (v : json) (k : pystr) (default : json) : outcome json :=
  match v with
  | JObj m => Ret (from_option id default (dict_lookup m k))
  | _ => Raise (no_attribute v "get")
  end.

(** [len(v)] *)
Definition py_len (v : json) : outcome Z :=
  match v with
  | JStr s => Ret (Str.len s)
  | JArr l => Ret (Z.of_nat (length l))
  | JObj m => Ret (Z.of_nat (length m))
  | _ => Raise (Exn TypeError
                 (u "object of type '" ++ type_name v ++ u "' has no len()"))
  end.

(** The elements [for x in v] visits. *)
Definition py_iter (v : json) : outcome (list json) :=
  match v with
  | JArr l => Ret l
  | JStr s => Ret (map (fun c => JStr [c]) s)
  | JObj m => Ret (map (fun kv => JStr (fst kv)) m)
  | _ => Raise (Exn TypeError
                 (u "'" ++ type_name v ++ u "' object is not iterable"))
  end.

(** [v[0]] *)
Definition py_item0 (v : json) : outcome json :=
  match v with
  | JArr (x :: _) => Ret x
  | JArr [] => Raise (Exn IndexError (u "list index out of range"))
  | JStr (c :: _) => Ret (JStr [c])
  | JStr [] => Raise (Exn IndexError (u "string index out of range"))
  | JObj _ => Raise (Exn KeyError (u "0"))
  | _ => Raise (Exn TypeError
                 (u "'" ++ type_name v ++ u "' object is not subscriptable"))
  end.

(** [v[k]] for a [str] key [k] *)
Definition py_item (v : json) (k : string) : outcome json :=
  match v with
  | JObj m =>
    match dict_lookup m (u k) with
    | Some x => Ret x
    | None => Raise (Exn KeyError (u "'" ++ u k ++ u "'"))
    end
  | JArr _ =>
    Raise (Exn TypeError (u "list indices must be integers or slices, not str"))
  | JStr _ =>
    Raise (Exn TypeError (u "string indices must be integers, not 'str'"))
  | _ => Raise (Exn TypeError
                 (u "'" ++ type_name v ++ u "' object is not subscriptable"))
  end.

(** ** The interpreter's tables

    The Unicode character database behind [str.lower], [str.upper],
    [str.isdigit] and the classes [\d] and [\w], the [repr] of a value
    that is not a [str], the parser behind [float(str)] and the rendering
    of a pandas [Series] are not part of the repository: they are taken as
    given, and every general result below holds whatever they are. *)
Class Runtime := {
  uc_lower : pystr -> pystr;            (* [str.lower] *)
  uc_upper : pystr -> pystr;            (* [str.upper] *)
  uc_isdigit : N -> bool;               (* [Py_UNICODE_ISDIGIT], for [str.isdigit] *)
  uc_isdecimal : N -> bool;             (* [Py_UNICODE_ISDECIMAL], the class [\d] *)
  uc_isalnum : N -> bool;               (* [Py_UNICODE_ISALNUM]; [\w] adds [_] *)
  py_repr : json -> pystr;              (* [str(v)] of a value that is not a [str] *)
  float_of_str : pystr -> option spec_float;  (* [float(s)], [None] on [ValueError] *)
  series_str : list (option pystr) -> pystr   (* [str] of a [Series] of cells *)
}.

(** [try: ... except Exception: ...] around a computation without effects. *)
Definition try_except {A} (body : outcome A) (handler : exn -> outcome A)
  : outcome A :=
  match body with
  | Ret a => Ret a
  | Raise e => if is_Exception e then handler e else Raise e
  end.

(** ** Floats *)

Module Float.

Definition prec : Z := 53.
Definition emax : Z := 1024.

(** [float(n)] for an [int]: the nearest binary64, ties to even. *)
Definition of_Z (n : Z) : spec_float := binary_normalize prec emax n 0 false.

Definition zero : spec_float := S754_zero false.

(** Digits of the integer part in groups of three, [sep] between them. *)
Fixpoint group3 (sep : pystr) (digits_rev : pystr) : pystr :=
  match digits_rev with
  | a :: b :: c :: ((_ :: _) as r) => group3 sep r ++ sep ++ [c; b; a]
  | _ => rev digits_rev
  end.

(** The amount in hundredths nearest to [m * 2^e], ties to even: the
    correctly rounded decimal that the format [.2f] prints. *)
Definition hundredths (m : positive) (e : Z) : N :=
  let q := (100 * N.pos m)%N in
  if 0 <=? e then (q * 2 ^ Z.to_N e)%N
  else
    let d := (2 ^ Z.to_N (- e))%N in
    let c := (q / d)%N in
    let r := (q mod d)%N in
    match (2 * r ?= d)%N with
    | Lt => c
    | Gt => (c + 1)%N
    | Eq => if N.even c then c else (c + 1)%N
    end.

Definition two_digits (n : N) : pystr := [(48 + n / 10)%N; (48 + n mod 10)%N].

(** [f"{x:,.2f}"] *)
Definition format_comma_2f (x : spec_float) : pystr :=
  let sign (s : bool) := if s then u "-" else [] in
  match x with
  | S754_nan => u "nan"
  | S754_infinity s => sign s ++ u "inf"
  | S754_zero s => sign s ++ u "0.00"
  | S754_finite s m e =>
    let c := hundredths m e in
    sign s ++ group3 (u ",") (rev (Str.of_N (c / 100)%N)) ++ u "."
      ++ two_digits (c mod 100)%N
  end.

End Float.

(** [float(v)] *)
Definition py_float {rt : Runtime} (v : json) : outcome spec_float :=
  match v with
  | JFloat f => Ret f
  | JInt n =>
    match Float.of_Z n with
    | S754_infinity _ =>
      Raise (Exn OverflowError (u "int too large to convert to float"))
    | f => Ret f
    end
  | JBool b => Ret (Float.of_Z (if b then 1 else 0))
  | JStr s =>
    match float_of_str s with
    | Some f => Ret f
    | None =>
      Raise (Exn ValueError (u "could not convert string to float: " ++ py_repr v))
    end
  | _ =>
    Raise (Exn TypeError
      (u "float() argument must be a string or a real number, not '"
         ++ type_name v ++ u "'"))
  end.

(** [str(v)], what an f-string field prints. *)
Definition py_str {rt : Runtime} (v : json) : pystr :=
  match v with
  | JStr s => s
  | _ => py_repr v
  end.

(** ** [urllib.parse.quote] *)

Module Url.

Definition hex_digit (upper : bool) (d : N) : N :=
  if (d <? 10)%N then (48 + d)%N
  else if upper then (55 + d)%N else (87 + d)%N.

(** The maximal run of surrogates at the head of [s]. *)
Definition is_surrogate (c : N) : bool := ((55296 <=? c) && (c <=? 57343))%N.

Fixpoint surrogate_run (s : pystr) : nat :=
  match s with
  | c :: r => if is_surrogate c then S (surrogate_run r) else O
  | [] => O
  end.

(** [str(e)] of the [UnicodeEncodeError] of the strict UTF-8 codec. *)
Definition surrogate_error (pos : N) (c : N) (run : nat) : exn :=
  Exn UnicodeEncodeError
    (match run with
     | O =>
       u "'utf-8' codec can't encode character '\u"
         ++ [hex_digit false (c / 4096); hex_digit false ((c / 256) mod 16);
             hex_digit false ((c / 16) mod 16); hex_digit false (c mod 16)]%N
         ++ u "' in position " ++ Str.of_N pos ++ u ": surrogates not allowed"
     | S _ =>
       u "'utf-8' codec can't encode characters in position "
         ++ Str.of_N pos ++ u "-" ++ Str.of_N (pos + N.of_nat run)
         ++ u ": surrogates not allowed"
     end).

(** [s.encode('utf-8', 'strict')], the code point at the head being at
    index [pos] of the whole string. *)
Fixpoint utf8_enc (pos : N) (s : pystr) : outcome (list N) :=
  match s with
  | [] => Ret []
  | c :: r =>
    if is_surrogate c then Raise (surrogate_error pos c (surrogate_run r))
    else
      let bytes :=
        (if c <? 128 then [c]
         else if c <? 2048 then [192 + c / 64; 128 + c mod 64]
         else if c <? 65536
              then [224 + c / 4096; 128 + (c / 64) mod 64; 128 + c mod 64]
              else [240 + c / 262144; 128 + (c / 4096) mod 64;
                    128 + (c / 64) mod 64; 128 + c mod 64])%N in
      match utf8_enc (pos + 1) r with
      | Ret bs => Ret (bytes ++ bs)
      | Raise e => Raise e
      end
  end.

(** Letters, digits and [_.-~] are never quoted; [/] is the default [safe]. *)
Definition is_safe (b : N) : bool :=
  ((65 <=? b) && (b <=? 90) || (97 <=? b) && (b <=? 122)
   || (48 <=? b) && (b <=? 57)
   || (b =? 95) || (b =? 46) || (b =? 45) || (b =? 126) || (b =? 47))%N.

Definition quote_byte (b : N) : pystr :=
  if is_safe b then [b]
  else [37; hex_digit true (b / 16); hex_digit true (b mod 16)]%N.

(** [urllib.parse.quote(s)] *)
Definition quote (s : pystr) : outcome pystr :=
  let! bs := utf8_enc 0 s in
  Ret (concat (map quote_byte bs)).

End Url.

(** ** The module's constants *)

Definition BASE : pystr := u "https://www.saojoaofarmacias.com.br".

(** [PAUSA = 0.5] *)
Definition PAUSA : spec_float := S754_finite false 4503599627370496 (-53).

Definition NAO_ENCONTRADO : pystr := u "Produto não encontrado".
Definition TRAVESSAO : pystr := u "—".
Definition INICIO : pystr := u "início".

(** ** utils *)

Section Utils.
Context {rt : Runtime}.

(** A value read from a row of the spreadsheet is seen through [is None]
    and [str()] only: [None] is Python's [None], [Some s] a value whose
    [str()] is [s]. *)
Definition cell := option pystr.

(** [_limpa] *)
Definition _limpa (v : cell) : pystr :=
  match v with
  | None => []
  | Some sv =>
    let s := Str.strip sv in
    if bool_decide (uc_lower s ∈ [u "nan"; u "none"]) then [] else s
  end.

(** [_preco_br] *)
Definition _preco_br (v : json) : outcome pystr :=
  try_except
    (let! n := py_float v in
     Ret (u "R$ " ++
          Str.replace1 88 (u ".")
            (Str.replace1 46 (u ",")
               (Str.replace1 44 (u "X") (Float.format_comma_2f n)))))
    (fun _ => Ret NAO_ENCONTRADO).

(** The first element whose key is the greatest: [max(items, key=...)]. *)
Fixpoint first_max {A} (best : A * Z) (l : list (A * Z)) : A :=
  match l with
  | [] => fst best
  | x :: r => first_max (if snd best <? snd x then x else best) r
  end.

Definition py_max_by_len (v : json) : outcome json :=
  let! items := py_iter v in
  let! keys := omap py_len items in
  match zip items keys with
  | [] => Raise (Exn ValueError (u "max() arg is an empty sequence"))
  | x :: r => Ret (first_max x r)
  end.

Definition is_dict (v : json) : bool :=
  match v with JObj _ => true | _ => false end.

(** The [name] of a node of the category tree, [None] when the node is
    not a [dict]: what [n.get("name")] gives under the guard
    [isinstance(n, dict)]. *)
Definition node_name (n : json) : json :=
  match n with
  | JObj m => from_option id JNull (dict_lookup m (u "name"))
  | _ => JNull
  end.

(** [_breadcrumb] *)
Definition _breadcrumb (prod : json) : outcome pystr :=
  let! tree := py_get prod (u "categoryTree") JNull in
  let! from_tree :=
    match tree with
    | JArr ((_ :: _) as nodes) =>
      let nomes :=
        map node_name
            (List.filter (fun n => is_dict n && truthy (node_name n)) nodes) in
      let! kept :=
        omap (fun n =>
                let! s := str_method "strip" n in
                Ret (s, negb (Str.eqb (uc_lower (Str.strip s)) INICIO)))
             nomes in
      let nomes := map fst (List.filter snd kept) in
      Ret (match nomes with
           | [] => None
           | _ => Some (Str.join (u " > ") nomes)
           end)
    | _ => Ret None
    end in
  match from_tree with
  | Some r => Ret r
  | None =>
    let! c := py_get prod (u "categories") JNull in
    let cats := py_or c (JArr []) in
    if truthy cats then
      let! longest := py_max_by_len cats in
      let! l := str_method "strip" longest in
      let caminho := Str.strip_chars (u "/") l in
      let partes :=
        map (fun p => Str.strip (Str.replace1 45 (u " ") p))
            (List.filter (fun p => negb (Str.eqb (uc_lower p) INICIO))
                         (Str.split1 47 caminho)) in
      Ret (match partes with
           | [] => TRAVESSAO
           | _ => Str.join (u " > ") partes
           end)
    else Ret TRAVESSAO
  end.

(** [_price_from_product] *)
Definition _price_from_product (prod : json) : outcome spec_float :=
  try_except
    (let! items := py_item prod "items" in
     let! item := py_item0 items in
     let! sellers := py_item item "sellers" in
     let! seller := py_item0 sellers in
     let! offer := py_item seller "commertialOffer" in
     let! price := py_get offer (u "Price") JNull in
     py_float (py_or price (JInt 0)))
    (fun _ => Ret Float.zero).

(** [_link_from_product] *)
Definition _link_from_product (prod : json) : outcome pystr :=
  let! lt := py_get prod (u "linkText") JNull in
  let link_text := py_or lt (JStr []) in
  let! link_text :=
    if truthy link_text then Ret link_text
    else
      let! pn := py_get prod (u "productName") JNull in
      let! s := str_method "lower" (py_or pn (JStr [])) in
      let name := Str.replace1 32 (u "-") (Str.strip (uc_lower s)) in
      let! q := Url.quote name in
      Ret (JStr q) in
  Ret (BASE ++ u "/" ++ py_str link_text ++ u "/p").

(** *** The match scorer *)

(** The sort key of a candidate: minus the number of reference tokens found
    in its lower-cased name, then the length of its name. *)
Definition score (tokens : list pystr) (p : json) : outcome (Z * Z) :=
  let! hits :=
    omap (fun t =>
            let! v := py_get p (u "productName") (JStr []) in
            let! s := str_method "lower" (py_or v (JStr [])) in
            Ret (Str.contains t (uc_lower s)))
         tokens in
  let! v := py_get p (u "productName") (JStr []) in
  let! n := py_len v in
  Ret (- Z.of_nat (length (List.filter id hits)), n).

(** Tuples compare lexicographically. *)
Definition key_lt (a b : Z * Z) : bool :=
  (fst a <? fst b) || ((fst a =? fst b) && (snd a <? snd b)).

(** [sorted(l, key=...)]: a stable sort, an element staying before the
    later ones of the same key. *)
Fixpoint insert_by_key {A} (x : A * (Z * Z)) (l : list (A * (Z * Z)))
  : list (A * (Z * Z)) :=
  match l with
  | [] => [x]
  | y :: r => if key_lt (snd y) (snd x) then y :: insert_by_key x r
              else x :: l
  end.

Definition sorted_by_key {A} (l : list (A * (Z * Z))) : list (A * (Z * Z)) :=
  foldr insert_by_key [] l.

Definition tokens_of (termo_ref : pystr) : list pystr :=
  List.filter (fun t => negb (bool_decide (t = [])))
              (Str.re_split_ws (uc_lower termo_ref)).

(** [_best_match]; Python's [None] is [JNull]. *)
Definition _best_match (lista : json) (termo_ref : pystr) : outcome json :=
  if negb (truthy lista) then Ret JNull
  else
    let tokens := tokens_of termo_ref in
    let! items := py_iter lista in
    let! keys := omap (score tokens) items in
    match sorted_by_key (zip items keys) with
    | [] => Raise (Exn IndexError (u "list index out of range"))
    | x :: _ => Ret (fst x)
    end.

End Utils.

(** ** Regular expressions

    The fragment of [re] the module uses, with the matcher's semantics:
    leftmost match, alternatives tried in order, greedy repetition with
    backtracking. *)

Inductive regex :=
| RLit (l : pystr)        (* the characters of [l] *)
| RDigit                  (* [\d] *)
| RSpace                  (* [\s] *)
| RWordB                  (* [\b] *)
| RSeq (a b : regex)
| RAlt (a b : regex)
| ROpt (a : regex)        (* [a?] *)
| RPlus (a : regex).      (* [a+] *)

Section Regex.
Context {rt : Runtime}.

(** [\w] at a position; outside the string nothing is a word character. *)
Definition is_word (c : option N) : bool :=
  match c with
  | Some x => uc_isalnum x || (x =? 95)%N
  | None => false
  end.

(** A position is the character before it and the text from it on.
    [rmatch r prev s k]: the first way, in the matcher's order, of matching
    [r] at the position and then [k] at the position reached. *)
Fixpoint rmatch {R} (r : regex) (prev : option N) (s : pystr)
    (k : option N -> pystr -> option R) {struct r} : option R :=
  match r with
  | RLit l =>
    (fix lit (l : pystr) (prev : option N) (s : pystr) : option R :=
       match l with
       | [] => k prev s
       | c :: l' =>
         match s with
         | x :: s' => if (x =? c)%N then lit l' (Some x) s' else None
         | [] => None
         end
       end) l prev s
  | RDigit =>
    match s with
    | x :: s' => if uc_isdecimal x then k (Some x) s' else None
    | [] => None
    end
  | RSpace =>
    match s with
    | x :: s' => if Str.isspace x then k (Some x) s' else None
    | [] => None
    end
  | RWordB =>
    if xorb (is_word prev) (is_word (head s)) then k prev s else None
  | RSeq a b => rmatch a prev s (fun p s' => rmatch b p s' k)
  | RAlt a b =>
    match rmatch a prev s k with
    | Some x => Some x
    | None => rmatch b prev s k
    end
  | ROpt a =>
    match rmatch a prev s k with
    | Some x => Some x
    | None => k prev s
    end
  | RPlus a =>
    (fix plus (n : nat) (prev : option N) (s : pystr) : option R :=
       rmatch a prev s (fun p s' =>
         match match n with O => None | S n' => plus n' p s' end with
         | Some x => Some x
         | None => k p s'
         end)) (length s) prev s
  end.

(** [re.sub(r, repl, s)] for a pattern that matches no empty string (all
    three of the module start with [\d+] or [\s+]). *)
Fixpoint re_sub_from (r : regex) (repl : pystr) (fuel : nat)
    (prev : option N) (s : pystr) : pystr :=
  match fuel with
  | O => s
  | S f =>
    match rmatch r prev s (fun p s' => Some (p, s')) with
    | Some (p, s') =>
      if bool_decide (length s' < length s)%nat
      then repl ++ re_sub_from r repl f p s'
      else match s with
           | [] => []
           | c :: s'' => c :: re_sub_from r repl f (Some c) s''
           end
    | None =>
      match s with
      | [] => []
      | c :: s'' => c :: re_sub_from r repl f (Some c) s''
      end
    end
  end.

Definition re_sub (r : regex) (repl s : pystr) : pystr :=
  re_sub_from r repl (S (length s)) None s.

Definition alts (l : list regex) : regex :=
  match l with
  | [] => RLit []
  | a :: r => fold_left RAlt r a
  end.

(** [\b\d+\s?(mg|g|mcg|µg|ml|kg|l)\b]; the micro sign is U+00B5. *)
Definition re_dose : regex :=
  RSeq RWordB (RSeq (RPlus RDigit) (RSeq (ROpt RSpace)
    (RSeq (alts [RLit (u "mg"); RLit (u "g"); RLit (u "mcg");
                 RLit [181; 103]%N; RLit (u "ml"); RLit (u "kg");
                 RLit (u "l")])
          RWordB))).

(** [\b\d+\s?(comprimidos?|cp|caps?|tabletes?)\b] *)
Definition re_forma : regex :=
  RSeq RWordB (RSeq (RPlus RDigit) (RSeq (ROpt RSpace)
    (RSeq (alts [RSeq (RLit (u "comprimido")) (ROpt (RLit (u "s")));
                 RLit (u "cp");
                 RSeq (RLit (u "cap")) (ROpt (RLit (u "s")));
                 RSeq (RLit (u "tablete")) (ROpt (RLit (u "s")))])
          RWordB))).

(** [_term_simplify] *)
Definition _term_simplify (term : pystr) : pystr :=
  let t := uc_lower term in
  let t := re_sub re_dose (u " ") t in
  let t := re_sub re_forma (u " ") t in
  let r := Str.strip (re_sub (RPlus RSpace) (u " ") t) in
  match r with
  | [] => term
  | _ => r
  end.

(** [s.isdigit()] *)
Definition isdigit (s : pystr) : bool :=
  negb (bool_decide (s = [])) && forallb uc_isdigit s.

End Regex.

(** ** The world: the catalog and the clock

    [requests.get(url, headers=HEADERS, timeout=25).json()] is a step of an
    arbitrary state machine: it answers with a decoded body or raises, and
    may answer differently the next time.  The trace records, in order, the
    searches invoked, each with what it returned or raised, and the pauses
    taken. *)

Inductive event :=
| EvSearchTerm (term : pystr) (_from _to : Z) (answer : outcome json)
| EvSearchEan (ean : pystr) (answer : outcome json)
| EvSleep (secs : spec_float).

Class Catalog (W : Type) := {
  http_get_json : pystr -> W -> outcome json * W
}.

Section Engine.
Context {rt : Runtime} {W : Type} {C : Catalog W}.

Definition state : Type := W * list event.

(** Computations with effects: the state is kept when an exception is
    raised. *)
Definition M (A : Type) : Type := state -> outcome A * state.

Definition ret {A} (a : A) : M A := fun st => (Ret a, st).
Definition raise {A} (e : exn) : M A := fun st => (Raise e, st).

Definition bind {A B} (c : M A) (k : A -> M B) : M B :=
  fun st =>
    match c st with
    | (Ret a, st') => k a st'
    | (Raise e, st') => (Raise e, st')
    end.

Definition lift {A} (o : outcome A) : M A := fun st => (o, st).

Definition emit (ev : event) : M unit :=
  fun st => (Ret tt, (fst st, snd st ++ [ev])).

(** A call whose outcome is recorded in the trace when it ends. *)
Definition traced {A} (ev : outcome A -> event) (c : M A) : M A :=
  fun st =>
    let (r, st') := c st in (r, (fst st', snd st' ++ [ev r])).

Definition request (url : pystr) : M json :=
  fun st => let (r, w) := http_get_json url (fst st) in (r, (w, snd st)).

(** [try: ... except: ...], which catches everything. *)
Definition try_bare {A} (body : M A) (handler : M A) : M A :=
  fun st =>
    match body st with
    | (Ret a, st') => (Ret a, st')
    | (Raise _, st') => handler st'
    end.

(** [try: ... except Exception as e: ...] *)
Definition try_Exception {A} (body : M A) (handler : exn -> M A) : M A :=
  fun st =>
    match body st with
    | (Ret a, st') => (Ret a, st')
    | (Raise e, st') =>
      if is_Exception e then handler e st' else (Raise e, st')
    end.

Notation "'do!' x ':=' c 'in' k" := (bind c (fun x => k))
  (at level 10, x name, c at level 100, k at level 200).
Notation "c ';;' k" := (bind c (fun _ => k))
  (at level 100, k at level 200, right associativity).

(** *** consultas *)

Definition SEARCH : pystr := BASE ++ u "/api/catalog_system/pub/products/search/".

(** [str(n)] of an [int] *)
Definition str_of_Z (n : Z) : pystr :=
  (if n <? 0 then u "-" else []) ++ Str.of_N (Z.abs_N n).

(** [_search_ean] *)
Definition _search_ean (ean : pystr) : M json :=
  traced (EvSearchEan ean)
    (do! q := lift (Url.quote ean) in
     request (SEARCH ++ u "?fq=alternateIds_Ean:" ++ q)).

(** [_search_term] *)
Definition _search_term (term : pystr) (_from _to : Z) : M json :=
  traced (EvSearchTerm term _from _to)
    (do! q := lift (Url.quote term) in
     request (SEARCH ++ u "?ft=" ++ q ++ u "&_from=" ++ str_of_Z _from
                ++ u "&_to=" ++ str_of_Z _to)).

(** A [Dict[str, str]] of the module, as a finite map; the values keep
    their dynamic type. *)
Definition dict (l : list (pystr * pystr)) : gmap pystr json :=
  list_to_map (map (fun kv => (fst kv, JStr (snd kv))) l).

Definition nao_encontrado (observacao : pystr) : gmap pystr json :=
  dict [(u "Preco", NAO_ENCONTRADO); (u "Link", []);
        (u "Classificacao", TRAVESSAO); (u "Observacao", observacao)].

(** [_consultar] *)
Definition _consultar (termo nome_ref : pystr) : M (gmap pystr json) :=
  let t := Str.strip termo in
  (* tenta termo primeiro *)
  do! produtos := try_bare (_search_term t 0 19) (ret (JArr [])) in
  (* fallback: EAN *)
  do! produtos :=
    if negb (truthy produtos) && isdigit t && (8 <=? Str.len t)
    then try_bare (_search_ean t) (ret (JArr []))
    else ret produtos in
  do! produtos :=
    if negb (truthy produtos) then
      let t2 := _term_simplify t in
      if negb (Str.eqb t2 t)
      then try_bare (_search_term t2 0 19) (ret (JArr []))
      else ret produtos
    else ret produtos in
  if negb (truthy produtos) then ret (nao_encontrado (u "Sem resultados"))
  else
    do! prod := lift (_best_match produtos
                        (if bool_decide (nome_ref = []) then t else nome_ref)) in
    if negb (truthy prod) then ret (nao_encontrado (u "Sem match"))
    else
      do! price := lift (_price_from_product prod) in
      do! preco := lift (_preco_br (JFloat price)) in
      do! link := lift (_link_from_product prod) in
      do! classificacao := lift (_breadcrumb prod) in
      ret (dict [(u "Preco", preco); (u "Link", link);
                 (u "Classificacao", classificacao); (u "Observacao", TRAVESSAO)]).

End Engine.

Arguments state W : clear implicits.
Arguments M W A : clear implicits.

(** ** público *)

(** The spreadsheet after [pd.read_excel]: the column labels and, for each
    row that [iterrows] yields, its values in the order of the columns. *)
Record frame := Frame {
  columns : list pystr;
  rows : list (list cell)
}.

(** The result of [pd.DataFrame(saida, columns=...)]: a value per column
    for each record, [None] (shown as NaN) where the record lacks the key. *)
Record out_frame := OutFrame {
  out_columns : list pystr;
  out_rows : list (list (option json))
}.

Definition COLUNAS : list pystr :=
  [u "EAN"; u "NOME"; u "Preco"; u "Link"; u "Classificacao"; u "Observacao"].

Definition DataFrame (saida : list (gmap pystr json)) (cols : list pystr)
  : out_frame :=
  OutFrame cols (map (fun d => map (fun c => d !! c) cols) saida).

Section Publico.
Context {rt : Runtime} {W : Type} {C : Catalog W}.

Notation "'do!' x ':=' c 'in' k" := (bind c (fun x => k))
  (at level 10, x name, c at level 100, k at level 200).
Notation "c ';;' k" := (bind c (fun _ => k))
  (at level 100, k at level 200, right associativity).

(** [row.get(key, default)] on the row [Series]: the value under the
    label, the default when no column has it, the sub-[Series] when
    several have. *)
Definition row_get (cols : list pystr) (row : list cell) (key : pystr)
    (default : cell) : cell :=
  match List.filter (fun cv => Str.eqb (fst cv) key) (zip cols row) with
  | [] => default
  | [cv] => snd cv
  | l => Some (series_str (map snd l))
  end.

Definition str_or (a b : pystr) : pystr :=
  if bool_decide (a = []) then b else a.

(** [bool(d)] of a [dict] *)
Definition dict_truthy (d : gmap pystr json) : bool :=
  negb (bool_decide (size d = 0%nat)).

(** [d.get(k) == s] for a [str] [s] *)
Definition get_is (d : gmap pystr json) (k s : pystr) : bool :=
  match d !! k with
  | Some (JStr x) => Str.eqb x s
  | _ => false
  end.

(** [buscar_item] *)
Definition buscar_item (q : pystr) : M W (list (gmap pystr json)) :=
  do! dados := _consultar q q in
  let get (k d : pystr) := from_option id (JStr d) (dados !! k) in
  ret [ {[ u "EAN" := JStr (if isdigit q then q else []);
           u "NOME" := JStr q;
           u "Preco" := get (u "Preco") NAO_ENCONTRADO;
           u "Link" := get (u "Link") [];
           u "Classificacao" := get (u "Classificacao") TRAVESSAO;
           u "Observacao" := get (u "Observacao") TRAVESSAO ]} ].

(** [except Exception as e: dados = {..., "Observacao": f"Erro: {e}"}] *)
Definition erro (e : exn) : M W (gmap pystr json) :=
  ret (nao_encontrado (u "Erro: " ++ exn_msg e)).

(** The body of the loop of [processar_dataframe]: the record appended to
    [saida] for one row. *)
Definition processar_linha (cols : list pystr) (row : list cell)
  : M W (gmap pystr json) :=
  let ean := _limpa (row_get cols row (u "EAN") (Some [])) in
  let nome := _limpa (row_get cols row (u "NOME") (Some [])) in
  let termo := str_or ean nome in
  if bool_decide (termo = []) then
    ret (dict [(u "EAN", ean); (u "NOME", nome);
               (u "Preco", NAO_ENCONTRADO); (u "Link", []);
               (u "Classificacao", TRAVESSAO); (u "Observacao", u "Linha vazia")])
  else
    (* 1) tenta pelo EAN se houver *)
    do! dados :=
      if negb (bool_decide (ean = []))
      then try_Exception (_consultar ean (str_or nome ean)) erro
      else ret ∅ in
    (* 2) fallback: se falhou com EAN, tenta pelo NOME *)
    do! dados :=
      if negb (dict_truthy dados) || get_is dados (u "Preco") NAO_ENCONTRADO
      then
        if negb (bool_decide (nome = []))
        then try_Exception (_consultar nome nome) erro
        else if negb (dict_truthy dados)
             then ret (nao_encontrado (u "Sem resultados"))
             else ret dados
      else ret dados in
    let linha := dados ∪ dict [(u "EAN", ean); (u "NOME", str_or nome termo)] in
    emit (EvSleep PAUSA) ;;
    ret linha.

(** [for _, row in df.iterrows(): ...] *)
Fixpoint linhas (cols : list pystr) (rs : list (list cell))
  : M W (list (gmap pystr json)) :=
  match rs with
  | [] => ret []
  | row :: rest =>
    do! linha := processar_linha cols row in
    do! saida := linhas cols rest in
    ret (linha :: saida)
  end.

(** [df.columns = [c.upper().strip() for c in df.columns]] and the check
    that follows it. *)
Definition colunas (df_in : frame) : outcome (list pystr) :=
  let cols := map (fun c => Str.strip (uc_upper c)) (columns df_in) in
  if negb (bool_decide (u "EAN" ∈ cols)) && negb (bool_decide (u "NOME" ∈ cols))
  then
    (* aceita NOME ou EAN; se só tiver 1 coluna, assume NOME *)
    if bool_decide (length cols = 1%nat) then Ret [u "NOME"]
    else Raise (Exn ValueError
                 (u "A planilha precisa ter ao menos a coluna NOME ou EAN."))
  else Ret cols.

(** [processar_dataframe] *)
Definition processar_dataframe (df_in : frame) : M W out_frame :=
  do! cols := lift (colunas df_in) in
  do! saida := linhas cols (rows df_in) in
  ret (DataFrame saida COLUNAS).

End Publico.

(** ** The Unicode tables on Basic Latin and Latin-1

    What [str.lower], [str.upper], [str.isdigit], [\d] and [\w] do on the
    code points below 256, and the runtimes that agree with them there. *)

Module L1.

Definition lower_char (c : N) : N :=
  if ((65 <=? c) && (c <=? 90) || (192 <=? c) && (c <=? 222) && negb (c =? 215))%N
  then (c + 32)%N else c.

Definition upper_char (c : N) : pystr :=
  if ((97 <=? c) && (c <=? 122) || (224 <=? c) && (c <=? 254) && negb (c =? 247))%N
  then [(c - 32)%N]
  else if (c =? 181)%N then [924%N]
  else if (c =? 223)%N then [83; 83]%N
  else if (c =? 255)%N then [376%N]
  else [c].

Definition lower (s : pystr) : pystr := map lower_char s.
Definition upper (s : pystr) : pystr := concat (map upper_char s).

Definition isdecimal (c : N) : bool := ((48 <=? c) && (c <=? 57))%N.

Definition isdigit (c : N) : bool :=
  (isdecimal c || (c =? 178) || (c =? 179) || (c =? 185))%N.

Definition isalnum (c : N) : bool :=
  (isdigit c || (65 <=? c) && (c <=? 90) || (97 <=? c) && (c <=? 122)
   || (c =? 170) || (c =? 181) || (c =? 186) || (188 <=? c) && (c <=? 190)
   || (192 <=? c) && (c <=? 255) && negb (c =? 215) && negb (c =? 247))%N.

Definition in_range (s : pystr) : Prop := Forall (fun c => (c < 256)%N) s.

End L1.

Class Latin1 (rt : Runtime) : Prop := {
  latin1_lower : forall s, L1.in_range s -> uc_lower s = L1.lower s;
  latin1_upper : forall s, L1.in_range s -> uc_upper s = L1.upper s;
  latin1_isdigit : forall c, (c < 256)%N -> uc_isdigit c = L1.isdigit c;
  latin1_isdecimal : forall c, (c < 256)%N -> uc_isdecimal c = L1.isdecimal c;
  latin1_isalnum : forall c, (c < 256)%N -> uc_isalnum c = L1.isalnum c
}.

(** A runtime for the examples: the tables above, left unchanged beyond
    Latin-1.  Its [repr], [float] parser and [Series] rendering are
    placeholders that no example evaluates. *)
Definition latin1_runtime : Runtime := {|
  uc_lower := L1.lower;
  uc_upper := L1.upper;
  uc_isdigit := L1.isdigit;
  uc_isdecimal := L1.isdecimal;
  uc_isalnum := L1.isalnum;
  py_repr := fun _ => [];
  float_of_str := fun _ => None;
  series_str := fun _ => []
|}.

(** ** Catalogs for the examples *)

(** A catalog that answers the requests, whatever they are, with the
    outcomes of a script, one after the other; it fails when the script
    is over. *)
Definition scripted : Catalog (list (outcome json)) := {|
  http_get_json _ w :=
    match w with
    | [] => (Raise (Exn OtherException (u "connection refused")), [])
    | r :: w' => (r, w')
    end
|}.

(** A catalog without state, the answer being a function of the URL. *)
Definition by_url : Catalog (pystr -> outcome json) := {|
  http_get_json url w := (w url, w)
|}.

(** ** Vocabulary of the properties *)

(** The candidates a search yields: those it returns, none when it fails. *)
Definition candidates (r : outcome json) : json :=
  match r with
  | Ret v => v
  | Raise _ => JArr []
  end.

(** A search that yielded zero candidates, or failed. *)
Definition no_candidates (r : outcome json) : bool :=
  negb (truthy (candidates r)).

(** The outcome a search event records. *)
Definition answer_of (ev : event) : option (outcome json) :=
  match ev with
  | EvSearchTerm _ _ _ r | EvSearchEan _ r => Some r
  | EvSleep _ => None
  end.

(** The catalog that answers with the empty list wherever [C] fails. *)
Definition quiet {W} (C : Catalog W) : Catalog W := {|
  http_get_json url w :=
    match @http_get_json W C url w with
    | (Ret v, w') => (Ret v, w')
    | (Raise _, w') => (Ret (JArr []), w')
    end
|}.

(** The four fields of a result. *)
Definition CAMPOS : list pystr :=
  [u "Preco"; u "Link"; u "Classificacao"; u "Observacao"].

(** A well-formed result: exactly the four fields, each a [str]. *)
Definition result_shape (d : gmap pystr json) : Prop :=
  dom d = list_to_set CAMPOS /\
  forall k, k ∈ CAMPOS -> exists s, d !! k = Some (JStr s).

(** Exceptions of the computations without effects are all instances of
    [Exception]. *)
Definition ordinary {A} (o : outcome A) : Prop :=
  forall e, o = Raise e -> is_Exception e = true.

Section Vocabulary.
Context {rt : Runtime} {W : Type} {C : Catalog W}.

(** What a search answers in the world [w], and the world it leaves. *)
Definition term_answer (term : pystr) (_from _to : Z) (w : W)
  : outcome json * W :=
  let (r, st) := _search_term term _from _to (w, []) in (r, fst st).

Definition ean_answer (ean : pystr) (w : W) : outcome json * W :=
  let (r, st) := _search_ean ean (w, []) in (r, fst st).

(** From the candidates to the result: the end of [_consultar], which has
    no effect. *)
Definition extrair (produtos : json) (ref : pystr)
  : outcome (gmap pystr json) :=
  if negb (truthy produtos) then Ret (nao_encontrado (u "Sem resultados"))
  else
    let! prod := _best_match produtos ref in
    if negb (truthy prod) then Ret (nao_encontrado (u "Sem match"))
    else
      let! price := _price_from_product prod in
      let! preco := _preco_br (JFloat price) in
      let! link := _link_from_product prod in
      let! classificacao := _breadcrumb prod in
      Ret (dict [(u "Preco", preco); (u "Link", link);
                 (u "Classificacao", classificacao);
                 (u "Observacao", TRAVESSAO)]).

(** The events a computation adds to the trace. *)
Definition added {A} (c : M W A) (st : state W) : list event :=
  drop (length (snd st)) (snd (snd (c st))).

End Vocabulary.

(** *** The match scorer, in the words of its description *)

Section ScorerVocabulary.
Context {rt : Runtime}.

(** A candidate: a record whose display name, when present, is a [str]. *)
Definition is_candidate (p : json) : bool :=
  match p with
  | JObj m =>
    match dict_lookup m (u "productName") with
    | None | Some (JStr _) => true
    | Some _ => false
    end
  | _ => false
  end.

Definition candidate (p : json) : Prop := is_candidate p = true.

(** The display name of a candidate, empty when absent. *)
Definition display_name (p : json) : pystr :=
  match p with
  | JObj m =>
    match dict_lookup m (u "productName") with
    | Some (JStr s) => s
    | _ => []
    end
  | _ => []
  end.

(** The maximal runs of characters that are not white space. *)
Fixpoint words_from (cur : pystr) (s : pystr) : list pystr :=
  match s with
  | [] => match cur with [] => [] | _ => [rev cur] end
  | c :: r =>
    if Str.isspace c
    then match cur with
         | [] => words_from [] r
         | _ => rev cur :: words_from [] r
         end
    else words_from (c :: cur) r
  end.

(** The whitespace-separated, lower-cased tokens of the reference term. *)
Definition reference_tokens (termo_ref : pystr) : list pystr :=
  words_from [] (uc_lower termo_ref).

(** How many of them occur in the lower-cased display name. *)
Definition hits (termo_ref : pystr) (p : json) : nat :=
  length (List.filter
            (fun t => Str.contains t (uc_lower (display_name p)))
            (reference_tokens termo_ref)).

(** [p], at index [i], is at least as good as [q], at index [j]: more
    tokens found, or as many and a shorter name, or as many, a name as
    long, and an earlier place in the list. *)
Definition beats (termo_ref : pystr) (i : nat) (p : json) (j : nat) (q : json)
  : Prop :=
  (hits termo_ref q < hits termo_ref p)%nat \/
  (hits termo_ref q = hits termo_ref p /\
   ((length (display_name p) < length (display_name q))%nat \/
    (length (display_name p) = length (display_name q) /\ (i <= j)%nat))).

(** The first element with the least key, from the right: the head that
    the stable sort produces. *)
Fixpoint least_key {A} (l : list (A * (Z * Z))) : option (A * (Z * Z)) :=
  match l with
  | [] => None
  | x :: r =>
    match least_key r with
    | None => Some x
    | Some y => if key_lt (snd y) (snd x) then Some y else Some x
    end
  end.

End ScorerVocabulary.

Definition named (name : string) : json := JObj [(u "productName", JStr (u name))].

(** *** The batch, row by row *)

Section BatchVocabulary.
Context {rt : Runtime} {W : Type} {C : Catalog W}.

(** The cleaned Code and Name of a row. *)
Definition row_ean (cols : list pystr) (row : list cell) : pystr :=
  _limpa (row_get cols row (u "EAN") (Some [])).

Definition row_nome (cols : list pystr) (row : list cell) : pystr :=
  _limpa (row_get cols row (u "NOME") (Some [])).

(** The result of an attempt under [except Exception as e]. *)
Definition contido (r : outcome (gmap pystr json)) : gmap pystr json :=
  match r with
  | Ret d => d
  | Raise e => nao_encontrado (u "Erro: " ++ exn_msg e)
  end.

(** The Code attempt of a row: its contained result, empty when the row
    has no Code, and the state it leaves. *)
Definition pelo_ean (ean nome : pystr) (st : state W)
  : gmap pystr json * state W :=
  if bool_decide (ean = []) then (∅, st)
  else (contido (fst (_consultar ean (str_or nome ean) st)),
        snd (_consultar ean (str_or nome ean) st)).

(** Whether the Name attempt follows: nothing was computed, or no price
    was found. *)
Definition retenta (dados : gmap pystr json) : bool :=
  negb (dict_truthy dados) || get_is dados (u "Preco") NAO_ENCONTRADO.

(** An output record. *)
Definition registro (ean nome preco link classificacao observacao : pystr)
  : gmap pystr json :=
  {[ u "EAN" := JStr ean; u "NOME" := JStr nome; u "Preco" := JStr preco;
     u "Link" := JStr link; u "Classificacao" := JStr classificacao;
     u "Observacao" := JStr observacao ]}.

(** The columns after normalization have neither [EAN] nor [NOME]. *)
Definition sem_colunas (df : frame) : Prop :=
  (u "EAN" ∉ map (fun c => Str.strip (uc_upper c)) (columns df)) /\
  (u "NOME" ∉ map (fun c => Str.strip (uc_upper c)) (columns df)).

(** The call fails before any row is processed: it raises and leaves the
    world and the trace as they were. *)
Definition fails_fast (df : frame) (st : state W) : Prop :=
  exists e, processar_dataframe df st = (Raise e, st).

End BatchVocabulary.

(** ** Data of the examples *)

(** The binary64 nearest to 16.31. *)
Definition preco_16_31 : spec_float :=
  SFdiv Float.prec Float.emax (Float.of_Z 1631) (Float.of_Z 100).

Definition oferta (price : json) : pystr * json :=
  (u "items",
   JArr [JObj [(u "sellers",
                JArr [JObj [(u "commertialOffer",
                             JObj [(u "Price", price)])]])]]).

Definition no (name : string) : json := JObj [(u "name", JStr (u name))].

(** A product as the catalog returns it. *)
Definition analgesico : json :=
  JObj [(u "productName", JStr (u "Dipirona Sódica 1g"));
        (u "linkText", JStr (u "dipirona-sodica-1g"));
        oferta (JFloat preco_16_31);
        (u "categoryTree",
         JArr [no "Início"; no "Medicamentos"; no "Analgésicos"])].

(** A record whose display name is [null]. *)
Definition sem_nome : json := JObj [(u "productName", JNull)].

Definition planilha_ean_nome : list pystr := [u "EAN"; u "NOME"].

(** [prod["items"][0]["sellers"][0]["commertialOffer"].get("Price")]: the
    price the catalog gives for a product. *)
Definition preco_no_catalogo (prod : json) : outcome json :=
  let! items := py_item prod "items" in
  let! item := py_item0 items in
  let! sellers := py_item item "sellers" in
  let! seller := py_item0 sellers in
  let! offer := py_item seller "commertialOffer" in
  py_get offer (u "Price") JNull.

(** The nodes of a category tree bear the given names, in order. *)
Definition nos_com_nomes (nodes : list json) (names : list pystr) : Prop :=
  Forall2 (fun node n => is_dict node = true /\ node_name node = JStr n)
          nodes names.


Definition CODIGO : pystr := u "7891058014684".

(** The claim that every exception of the Code attempt of a row ends as
    the row's error note. *)
Definition toda_excecao_vira_erro {rt : Runtime} {W : Type} {C : Catalog W}
    (cols : list pystr) (row : list cell) (st : state W) : Prop :=
  forall e,
    row_ean cols row <> [] ->
    fst (_consultar (row_ean cols row)
                    (str_or (row_nome cols row) (row_ean cols row)) st) = Raise e ->
    exists d st',
      processar_linha cols row st = (Ret d, st') /\
      d !! u "Observacao" = Some (JStr (u "Erro: " ++ exn_msg e)).

(** A catalog that has nothing. *)
Definition vazio : state (list (outcome json)) := ([Ret (JArr [])], []).

(** A catalog that finds nothing by term and one product by code. *)
Definition acha_pelo_codigo : state (list (outcome json)) :=
  ([Ret (JArr []); Ret (JArr [analgesico])], []).

(** A catalog whose first answer is a record without a name, and whose
    second is a product. *)
Definition responde_sem_nome : state (list (outcome json)) :=
  ([Ret (JArr [sem_nome]); Ret (JArr [analgesico])], []).

Definition acha_pelo_nome : state (list (outcome json)) :=
  ([Ret (JArr [analgesico])], []).

Definition planilha_codigos : frame :=
  Frame [u "ean"; u "nome"]
        [[Some (u "7891058014684"); None]; [None; Some (u " nan ")]].

Definition planilha_uma_coluna : frame :=
  Frame [u "produto"] [[Some (u "dipirona")]].

Definition planilha_sem_colunas : frame :=
  Frame [u "produto"; u "marca"] [[Some (u "dipirona"); Some (u "x")]].

Definition LINK_ANALGESICO : pystr :=
  u "https://www.saojoaofarmacias.com.br/dipirona-sodica-1g/p".

Definition SEM_LEN : exn :=
  Exn TypeError (u "object of type 'NoneType' has no len()").

(** ** Vocabulary of the further properties *)

(** A result that carries a product: a price in reais, a link under the
    shop's address and the neutral note. *)
Definition achado (d : gmap pystr json) : Prop :=
  exists valor slug classificacao,
    d = dict [(u "Preco", u "R$ " ++ valor);
              (u "Link", BASE ++ u "/" ++ slug ++ u "/p");
              (u "Classificacao", classificacao);
              (u "Observacao", TRAVESSAO)].

Definition is_search (ev : event) : bool :=
  match ev with
  | EvSearchTerm _ _ _ _ | EvSearchEan _ _ => true
  | EvSleep _ => false
  end.

Definition is_sleep (ev : event) : bool :=
  match ev with
  | EvSleep _ => true
  | _ => false
  end.

(** The catalog [C] with a counter of the requests it has served. *)
Definition counting {W} (C : Catalog W) : Catalog (W * nat) := {|
  http_get_json url w :=
    let (r, w') := @http_get_json W C url (fst w) in (r, (w', S (snd w)))
|}.

(** The rows of a batch that have a Code or a Name. *)
Definition linhas_com_termo {rt : Runtime} (cols : list pystr)
    (rs : list (list cell)) : list (list cell) :=
  List.filter
    (fun row => negb (bool_decide
                        (str_or (row_ean cols row) (row_nome cols row) = [])))
    rs.

(** The amount as it is written in Brazil: a point between the groups of
    three digits, a comma before the two decimals. *)
Definition formato_br (x : spec_float) : pystr :=
  let sign (s : bool) := if s then u "-" else [] in
  match x with
  | S754_nan => u "nan"
  | S754_infinity s => sign s ++ u "inf"
  | S754_zero s => sign s ++ u "0,00"
  | S754_finite s m e =>
    let c := Float.hundredths m e in
    sign s ++ Float.group3 (u ".") (rev (Str.of_N (c / 100)%N)) ++ u ","
      ++ Float.two_digits (c mod 100)%N
  end.

Definition is_digit_char (c : N) : Prop := (48 <= c <= 57)%N.

(** The three replacements of [_preco_br], in their order. *)
Definition troca (s : pystr) : pystr :=
  Str.replace1 88 (u ".") (Str.replace1 46 (u ",") (Str.replace1 44 (u "X") s)).



(** A record whose display name is [null]. *)
Definition nome_nulo (p : json) : Prop :=
  exists m, p = JObj m /\ dict_lookup m (u "productName") = Some JNull.

(** ** The web application: [main.py]

    The helpers of the application that stand between the routes and the
    module: the resolution of the module's functions by name, the
    normalisation of what they return, and the price cell of the
    spreadsheet. *)

(** [HTTPException(status_code=500, detail=...)], an [Exception]. *)
Definition HTTP_500 (detail : pystr) : exn :=
  Exn OtherException (u "500: " ++ detail).

Section Resolver.
Context {rt : Runtime} {O : Type}.

(** [callable(obj)] *)
Variable callable : O -> bool.

(** The inner loop of the first step, over [vars(modulo).items()], the
    attributes of the module in the order of their definition: the first
    callable attribute whose name is [nome], case apart. *)
Fixpoint por_nome (attrs : list (pystr * O)) (nome : pystr) : option O :=
  match attrs with
  | [] => None
  | (attr_name, obj) :: r =>
    if negb (callable obj) then por_nome r nome
    else if Str.eqb (uc_lower attr_name) (uc_lower nome) then Some obj
    else por_nome r nome
  end.

(** 1) tentativas por nome exato (case-insensitive) *)
Fixpoint por_candidatos (attrs : list (pystr * O)) (candidatos : list pystr)
  : option O :=
  match candidatos with
  | [] => None
  | nome :: r =>
    match por_nome attrs nome with
    | Some obj => Some obj
    | None => por_candidatos attrs r
    end
  end.

(** 2) heurística por substrings *)
Fixpoint por_heuristica (attrs : list (pystr * O)) (subs : list pystr)
  : option O :=
  match attrs with
  | [] => None
  | (attr_name, obj) :: r =>
    if negb (callable obj) then por_heuristica r subs
    else if existsb (fun sub => Str.contains sub (uc_lower attr_name)) subs
         then Some obj
         else por_heuristica r subs
  end.

(** [_resolver_funcao]; the [ImportError] it raises is an [Exception]. *)
Definition _resolver_funcao (modulo : list (pystr * O))
    (candidatos : list pystr) (papel : pystr)
    (heuristica_substrings : option (list pystr)) : outcome O :=
  match por_candidatos modulo candidatos with
  | Some obj => Ret obj
  | None =>
    match
      match heuristica_substrings with
      | Some ((_ :: _) as subs) => por_heuristica modulo subs
      | _ => None
      end
    with
    | Some obj => Ret obj
    | None =>
      Raise (Exn OtherException
               (u "Não encontrei função para " ++ papel
                  ++ u " em rastrear_saojoao.py. Tentei: "
                  ++ Str.join (u ", ") candidatos))
    end
  end.

End Resolver.

(** What a function of the module may return to the application. *)
#[warnings="-register-all"]
Inductive pyobj :=
| PDict (d : gmap pystr json)
| PList (l : list pyobj)
| PTuple (l : list pyobj)
| PFrame (f : out_frame)
| POther.

(** [_is_list_of_dicts] *)
Definition _is_list_of_dicts (x : pyobj) : bool :=
  match x with
  | PList [] => true
  | PList (PDict _ :: _) => true
  | _ => false
  end.

(** [df.to_dict(orient="records")] for a frame whose labels are distinct:
    a record per row, NaN where the row has no value. *)
Definition to_dict_records (f : out_frame) : list pyobj :=
  map (fun row =>
         PDict (list_to_map
                  (zip (out_columns f)
                       (map (from_option id (JFloat S754_nan)) row))))
      (out_rows f).

(** The loop of [_normalize_result] over the items of a list or tuple. *)
Fixpoint primeiro_convertivel (items : list pyobj) : option (list pyobj) :=
  match items with
  | [] => None
  | item :: r =>
    match item with
    | PList l => if _is_list_of_dicts item then Some l
                 else primeiro_convertivel r
    | PDict _ => Some [item]
    | PFrame f => Some (to_dict_records f)
    | _ => primeiro_convertivel r
    end
  end.

(** [_normalize_result] *)
Definition _normalize_result (obj : pyobj) : outcome (list pyobj) :=
  let falha :=
    Raise (HTTP_500 (u "A função de busca deve retornar dados convertíveis em lista de dicionários.")) in
  match obj with
  | PDict _ => Ret [obj]
  | PFrame f => Ret (to_dict_records f)
  | PList l =>
    if _is_list_of_dicts obj then Ret l
    else match primeiro_convertivel l with
         | Some r => Ret r
         | None => falha
         end
  | PTuple l =>
    match primeiro_convertivel l with
    | Some r => Ret r
    | None => falha
    end
  | POther => falha
  end.

(** The double quote of the formula. *)
Definition ASPAS : pystr := [34%N].

(** [f'=HYPERLINK("{link}","{preco}")'] *)
Definition HYPERLINK (link preco : pystr) : pystr :=
  u "=HYPERLINK(" ++ ASPAS ++ link ++ ASPAS ++ u "," ++ ASPAS ++ preco
    ++ ASPAS ++ u ")".

(** [_mk], the price cell of a row of the spreadsheet; the row is a
    [Series], a value for each label. *)
Definition _mk {rt : Runtime} (row : gmap pystr json) : pystr :=
  let link := py_str (from_option id (JStr []) (row !! u "Link")) in
  let preco := py_str (from_option id (JStr []) (row !! u "Preco")) in
  if negb (bool_decide (link = [])) then HYPERLINK link preco else preco.

(** An attribute that [nome] names: a callable whose name is [nome],
    case apart. *)
Definition nomeia {rt : Runtime} {O : Type} (callable : O -> bool)
    (nome : pystr) (attr : pystr * O) : Prop :=
  callable (snd attr) = true /\ uc_lower (fst attr) = uc_lower nome.

(** An attribute that the heuristic accepts: a callable whose lower-cased
    name contains one of the substrings. *)
Definition sugere {rt : Runtime} {O : Type} (callable : O -> bool)
    (subs : list pystr) (attr : pystr * O) : Prop :=
  callable (snd attr) = true /\
  exists sub, In sub subs /\ Str.contains sub (uc_lower (fst attr)) = true.

(** An object of a module, seen through [callable]: a callable, known by
    the name it was defined with, or anything else. *)
Inductive objeto :=
| Chamavel (nome : pystr)
| Outro.

Definition chamavel (o : objeto) : bool :=
  match o with Chamavel _ => true | Outro => false end.

(** The attributes of the module [rastrear_saojoao] after its import, in
    the order of [vars]: those every module has, the imports (the aliases
    of [typing] are callable), the constants and the functions. *)
Definition MODULO : list (pystr * objeto) :=
  map (fun n => (u n, Outro))
      ["__name__"; "__doc__"; "__package__"; "__loader__"; "__spec__";
       "__file__"; "__cached__"; "__builtins__"; "annotations"; "time";
       "re"; "urllib"]%string
  ++ map (fun n => (u n, Chamavel (u n))) ["Dict"; "List"; "Optional"]%string
  ++ map (fun n => (u n, Outro))
       ["pd"; "requests"; "BASE"; "HEADERS"; "PAUSA"]%string
  ++ map (fun n => (u n, Chamavel (u n)))
       ["_limpa"; "_preco_br"; "_breadcrumb"; "_price_from_product";
        "_link_from_product"; "_best_match"; "_search_ean"; "_search_term";
        "_term_simplify"; "_consultar"; "buscar_item";
        "processar_dataframe"]%string.

(** The two resolutions of [main.py]. *)
Definition CANDIDATOS_BUSCA : list pystr :=
  [u "buscar_item"; u "_consultar"; u "_search_term"; u "_search_ean"].

Definition HEURISTICA_BUSCA : list pystr :=
  [u "busc"; u "consult"; u "search"; u "ean"; u "term"].

Definition HEURISTICA_PLANILHA : list pystr :=
  [u "process"; u "planilh"; u "datafram"; u "excel"].

(** * Properties *)

(** ** Exceptions raised without effects *)

Lemma ordinary_Ret {A} (a : A) : ordinary (Ret a).
Proof. intros e He. discriminate. Qed.

Lemma ordinary_Raise {A} c m : c <> NonException -> ordinary (@Raise A (Exn c m)).
Proof. intros Hc e He. injection He as <-. by destruct c. Qed.

Lemma ordinary_obind {A B} (x : outcome A) (k : A -> outcome B) :
  ordinary x -> (forall a, ordinary (k a)) -> ordinary (obind x k).
Proof.
  intros Hx Hk e. destruct x as [a|e']; simpl.
  - apply Hk.
  - intros He. apply Hx. congruence.
Qed.

Lemma ordinary_omap {A B} (f : A -> outcome B) l :
  (forall a, ordinary (f a)) -> ordinary (omap f l).
Proof.
  intros Hf. induction l as [|a l IH]; simpl.
  - apply ordinary_Ret.
  - intros e. specialize (Hf a). destruct (f a) as [b|e'].
    + destruct (omap f l) as [bs|e'']; [discriminate|].
      intros He. apply IH. congruence.
    + intros He. apply Hf. congruence.
Qed.

Lemma try_except_total {A} (x : outcome A) (a : A) :
  ordinary x -> exists r, try_except x (fun _ => Ret a) = Ret r.
Proof.
  intros Hx. destruct x as [r|e]; simpl; [by eexists|].
  rewrite (Hx e eq_refl). by eexists.
Qed.

Ltac ordinary_step :=
  first
    [ apply ordinary_Ret
    | apply ordinary_Raise; discriminate
    | apply ordinary_obind; [|intros ?]
    | apply ordinary_omap; intros ? ].

Ltac ordinary_cases v := destruct v; simpl; repeat ordinary_step.

Lemma ordinary_str_method attr v : ordinary (str_method attr v).
Proof. ordinary_cases v. Qed.

Lemma ordinary_py_get v k d : ordinary (py_get v k d).
Proof. ordinary_cases v. Qed.

Lemma ordinary_py_len v : ordinary (py_len v).
Proof. ordinary_cases v. Qed.

Lemma ordinary_py_iter v : ordinary (py_iter v).
Proof. ordinary_cases v. Qed.

Lemma ordinary_py_item0 v : ordinary (py_item0 v).
Proof. destruct v as [| | | |[|]|[|]|]; simpl; repeat ordinary_step. Qed.

Lemma ordinary_py_item v k : ordinary (py_item v k).
Proof.
  destruct v; simpl; repeat ordinary_step.
  destruct (dict_lookup _ _); repeat ordinary_step.
Qed.

Lemma ordinary_utf8_enc pos s : ordinary (Url.utf8_enc pos s).
Proof.
  revert pos. induction s as [|c s IH]; intros pos; simpl.
  - ordinary_step.
  - destruct (Url.is_surrogate c).
    + unfold Url.surrogate_error. ordinary_step.
    + specialize (IH (pos + 1)%N).
      destruct (Url.utf8_enc (pos + 1) s); [ordinary_step|exact IH].
Qed.

Lemma ordinary_quote s : ordinary (Url.quote s).
Proof. unfold Url.quote. ordinary_step. apply ordinary_utf8_enc. ordinary_step. Qed.

Section PureFacts.
Context {rt : Runtime}.

Lemma ordinary_py_float v : ordinary (py_float v).
Proof.
  destruct v; simpl; repeat ordinary_step.
  - destruct (Float.of_Z n); repeat ordinary_step.
  - destruct (float_of_str s); repeat ordinary_step.
Qed.

Lemma preco_br_total v : exists s, _preco_br v = Ret s.
Proof.
  unfold _preco_br. apply try_except_total.
  ordinary_step. apply ordinary_py_float. ordinary_step.
Qed.

Lemma price_from_product_total p : exists f, _price_from_product p = Ret f.
Proof.
  unfold _price_from_product. apply try_except_total.
  repeat first [ apply ordinary_py_item | apply ordinary_py_item0
               | apply ordinary_py_get | apply ordinary_py_float
               | ordinary_step ].
Qed.

Lemma ordinary_py_max_by_len v : ordinary (py_max_by_len v).
Proof.
  unfold py_max_by_len.
  ordinary_step; [apply ordinary_py_iter|].
  ordinary_step; [ordinary_step; apply ordinary_py_len|].
  destruct (zip _ _); repeat ordinary_step.
Qed.

Lemma ordinary_breadcrumb p : ordinary (_breadcrumb p).
Proof.
  unfold _breadcrumb.
  ordinary_step; [apply ordinary_py_get|].
  ordinary_step.
  - destruct a as [| | | |?|[|]|]; repeat ordinary_step.
    apply ordinary_str_method.
  - destruct a0; [ordinary_step|].
    ordinary_step; [apply ordinary_py_get|].
    destruct (truthy _); [|ordinary_step].
    ordinary_step; [apply ordinary_py_max_by_len|].
    ordinary_step; [apply ordinary_str_method|ordinary_step].
Qed.

Lemma ordinary_link_from_product p : ordinary (_link_from_product p).
Proof.
  unfold _link_from_product.
  ordinary_step; [apply ordinary_py_get|].
  ordinary_step; [|ordinary_step].
  destruct (truthy _); [ordinary_step|].
  ordinary_step; [apply ordinary_py_get|].
  ordinary_step; [apply ordinary_str_method|].
  ordinary_step; [apply ordinary_quote|ordinary_step].
Qed.

Lemma ordinary_score tokens p : ordinary (score tokens p).
Proof.
  unfold score.
  ordinary_step.
  - ordinary_step. ordinary_step; [apply ordinary_py_get|].
    ordinary_step; [apply ordinary_str_method|ordinary_step].
  - ordinary_step; [apply ordinary_py_get|].
    ordinary_step; [apply ordinary_py_len|ordinary_step].
Qed.

Lemma ordinary_best_match lista ref : ordinary (_best_match lista ref).
Proof.
  unfold _best_match. destruct (negb _); [ordinary_step|].
  ordinary_step; [apply ordinary_py_iter|].
  ordinary_step; [ordinary_step; apply ordinary_score|].
  destruct (sorted_by_key _); repeat ordinary_step.
Qed.

End PureFacts.

(** ** The searches and the fallback chain *)

Section EngineFacts.
Context {rt : Runtime} {W : Type} {C : Catalog W}.

Lemma search_term_run term a b w tr :
  _search_term term a b (w, tr) =
  (fst (term_answer term a b w),
   (snd (term_answer term a b w),
    tr ++ [EvSearchTerm term a b (fst (term_answer term a b w))])).
Proof.
  unfold term_answer, _search_term, traced, bind, lift, request.
  destruct (Url.quote term) as [q|e]; simpl; [|done].
  destruct (http_get_json _ w) as [r w']; done.
Qed.

Lemma search_ean_run ean w tr :
  _search_ean ean (w, tr) =
  (fst (ean_answer ean w),
   (snd (ean_answer ean w),
    tr ++ [EvSearchEan ean (fst (ean_answer ean w))])).
Proof.
  unfold ean_answer, _search_ean, traced, bind, lift, request.
  destruct (Url.quote ean) as [q|e]; simpl; [|done].
  destruct (http_get_json _ w) as [r w']; done.
Qed.

Lemma try_bare_candidates (c : M W json) st :
  try_bare c (ret (JArr [])) st = (Ret (candidates (fst (c st))), snd (c st)).
Proof. unfold try_bare, ret. by destruct (c st) as [[v|e] st']. Qed.

(** [_consultar] spelled out: the answers of the three searches decide the
    candidates, the world and the trace; the result is extracted from the
    candidates without further effect. *)
Lemma consultar_run termo nome_ref w tr :
  let t := Str.strip termo in
  let t2 := _term_simplify t in
  let a1 := term_answer t 0 19 w in
  let code := no_candidates (fst a1) && isdigit t && (8 <=? Str.len t) in
  let a2 := ean_answer t (snd a1) in
  let p2 := if code then candidates (fst a2) else candidates (fst a1) in
  let w2 := if code then snd a2 else snd a1 in
  let simp := negb (truthy p2) && negb (Str.eqb t2 t) in
  let a3 := term_answer t2 0 19 w2 in
  let p3 := if simp then candidates (fst a3) else p2 in
  let w3 := if simp then snd a3 else w2 in
  _consultar termo nome_ref (w, tr) =
  (extrair p3 (if bool_decide (nome_ref = []) then t else nome_ref),
   (w3, tr ++ [EvSearchTerm t 0 19 (fst a1)]
           ++ (if code then [EvSearchEan t (fst a2)] else [])
           ++ (if simp then [EvSearchTerm t2 0 19 (fst a3)] else []))).
Proof.
  intros t t2 a1 code a2 p2 w2 simp a3 p3 w3.
  unfold _consultar. fold t. fold t2.
  unfold bind at 1. rewrite try_bare_candidates, search_term_run. simpl.
  fold a1. unfold no_candidates in code. fold code.
  unfold bind at 1.
  assert (Hstep2 :
    (if code then try_bare (_search_ean t) (ret (JArr []))
     else ret (candidates (fst a1)))
      (snd a1, tr ++ [EvSearchTerm t 0 19 (fst a1)]) =
    (Ret p2, (w2, tr ++ [EvSearchTerm t 0 19 (fst a1)]
                     ++ (if code then [EvSearchEan t (fst a2)] else [])))).
  { unfold p2, w2. destruct code.
    - rewrite try_bare_candidates, search_ean_run. simpl. by rewrite <- app_assoc.
    - unfold ret. by rewrite app_nil_r. }
  rewrite Hstep2. clear Hstep2.
  unfold bind at 1.
  assert (Hstep3 :
    (if negb (truthy p2)
     then if negb (Str.eqb t2 t)
          then try_bare (_search_term t2 0 19) (ret (JArr []))
          else ret p2
     else ret p2)
      (w2, tr ++ [EvSearchTerm t 0 19 (fst a1)]
              ++ (if code then [EvSearchEan t (fst a2)] else [])) =
    (Ret p3, (w3, tr ++ [EvSearchTerm t 0 19 (fst a1)]
                     ++ (if code then [EvSearchEan t (fst a2)] else [])
                     ++ (if simp then [EvSearchTerm t2 0 19 (fst a3)] else [])))).
  { unfold p3, w3, simp.
    destruct (negb (truthy p2)); simpl; [|unfold ret; by rewrite !app_nil_r].
    destruct (negb (Str.eqb t2 t)); simpl; [|unfold ret; by rewrite !app_nil_r].
    rewrite try_bare_candidates, search_term_run. simpl.
    by rewrite <- !app_assoc. }
  rewrite Hstep3. clear Hstep3.
  unfold extrair, obind.
  destruct (negb (truthy p3)); [reflexivity|].
  unfold bind, lift, ret. cbv beta iota.
  destruct (_best_match _ _) as [prod|e]; cbv beta iota; [|reflexivity].
  destruct (negb (truthy prod)); [reflexivity|].
  destruct (_price_from_product prod) as [price|e]; cbv beta iota; [|reflexivity].
  destruct (_preco_br (JFloat price)) as [preco|e]; cbv beta iota; [|reflexivity].
  destruct (_link_from_product prod) as [link|e]; cbv beta iota; [|reflexivity].
  destruct (_breadcrumb prod) as [cl|e]; reflexivity.
Qed.

End EngineFacts.

(** ** Results *)

Lemma nao_encontrado_eq obs :
  nao_encontrado obs =
  {[ u "Preco" := JStr (u "Produto não encontrado"); u "Link" := JStr [];
     u "Classificacao" := JStr (u "—"); u "Observacao" := JStr obs ]}.
Proof. reflexivity. Qed.

Lemma shape_dict4 a b c d :
  result_shape (dict [(u "Preco", a); (u "Link", b); (u "Classificacao", c);
                      (u "Observacao", d)]).
Proof.
  split.
  - vm_compute. reflexivity.
  - intros k Hk. unfold CAMPOS in Hk.
    repeat (apply elem_of_cons in Hk as [->|Hk]); [..|by apply elem_of_nil in Hk];
      eexists; vm_compute; reflexivity.
Qed.

Section ResultFacts.
Context {rt : Runtime} {W : Type} {C : Catalog W}.

Lemma ordinary_extrair p ref : ordinary (extrair p ref).
Proof.
  unfold extrair. destruct (negb (truthy p)); [ordinary_step|].
  ordinary_step; [apply ordinary_best_match|].
  destruct (negb (truthy a)); [ordinary_step|].
  ordinary_step.
  { destruct (price_from_product_total a) as [f ->]. ordinary_step. }
  ordinary_step.
  { destruct (preco_br_total (JFloat a0)) as [s ->]. ordinary_step. }
  ordinary_step; [apply ordinary_link_from_product|].
  ordinary_step; [apply ordinary_breadcrumb|ordinary_step].
Qed.

Lemma extrair_shape p ref d : extrair p ref = Ret d -> result_shape d.
Proof.
  unfold extrair, obind.
  destruct (negb (truthy p)).
  { intros [= <-]. apply shape_dict4. }
  destruct (_best_match p ref) as [prod|e]; [|discriminate].
  destruct (negb (truthy prod)).
  { intros [= <-]. apply shape_dict4. }
  destruct (_price_from_product prod) as [price|e]; [|discriminate].
  destruct (_preco_br (JFloat price)) as [preco|e]; [|discriminate].
  destruct (_link_from_product prod) as [link|e]; [|discriminate].
  destruct (_breadcrumb prod) as [cl|e]; [|discriminate].
  intros [= <-]. apply shape_dict4.
Qed.

(** Whatever [_consultar] raises is an [Exception], so that the handlers
    of the batch loop catch it. *)
Lemma ordinary_consultar termo nome_ref (st : state W) :
  ordinary (fst (_consultar termo nome_ref st)).
Proof.
  destruct st as [w tr]. rewrite consultar_run. cbv zeta. simpl fst.
  apply ordinary_extrair.
Qed.

Lemma quiet_term_answer term a b w :
  candidates (fst (term_answer (C:=quiet C) term a b w)) =
    candidates (fst (term_answer (C:=C) term a b w)) /\
  snd (term_answer (C:=quiet C) term a b w) =
    snd (term_answer (C:=C) term a b w).
Proof.
  unfold term_answer, _search_term, traced, bind, lift, request. simpl.
  destruct (Url.quote term) as [q|e]; simpl; [|done].
  by destruct (http_get_json _ w) as [[v|e] w'].
Qed.

Lemma quiet_ean_answer ean w :
  candidates (fst (ean_answer (C:=quiet C) ean w)) =
    candidates (fst (ean_answer (C:=C) ean w)) /\
  snd (ean_answer (C:=quiet C) ean w) = snd (ean_answer (C:=C) ean w).
Proof.
  unfold ean_answer, _search_ean, traced, bind, lift, request. simpl.
  destruct (Url.quote ean) as [q|e]; simpl; [|done].
  by destruct (http_get_json _ w) as [[v|e] w'].
Qed.

Lemma consultar_quiet termo nome_ref (st : state W) :
  fst (_consultar (C:=quiet C) termo nome_ref st) =
    fst (_consultar (C:=C) termo nome_ref st) /\
  fst (snd (_consultar (C:=quiet C) termo nome_ref st)) =
    fst (snd (_consultar (C:=C) termo nome_ref st)).
Proof.
  destruct st as [w tr].
  rewrite (consultar_run (C:=C)), (consultar_run (C:=quiet C)). cbv zeta.
  unfold no_candidates. simpl fst. simpl snd.
  destruct (quiet_term_answer (Str.strip termo) 0 19 w) as [-> ->].
  set (a1 := term_answer (Str.strip termo) 0 19 w).
  destruct (quiet_ean_answer (Str.strip termo) (snd a1)) as [-> ->].
  set (a2 := ean_answer (Str.strip termo) (snd a1)).
  set (code := negb (truthy (candidates (fst a1))) && _ && _).
  set (w2 := if code then snd a2 else snd a1).
  destruct (quiet_term_answer (_term_simplify (Str.strip termo)) 0 19 w2)
    as [-> ->].
  done.
Qed.

Lemma simp_cond (r1 r2 : outcome json) (d1 d2 ne : bool) :
  let code := no_candidates r1 && d1 && d2 in
  negb (truthy (if code then candidates r2 else candidates r1)) && ne =
  no_candidates r1 && (negb code || no_candidates r2) && ne.
Proof.
  unfold no_candidates. cbv zeta.
  destruct (truthy (candidates r1)) eqn:E1, d1, d2; simpl; rewrite ?E1;
    destruct (truthy (candidates r2)), ne; reflexivity.
Qed.

(** C1. For every catalog, [_consultar] searches in the order term, code,
    simplified term.  The trace it adds is the term search, then the code
    search exactly when the term search yielded no candidates (or failed)
    and the term is all digits and at least 8 long, then the search of the
    simplified term exactly when the attempts before it yielded none and
    the simplified term differs from the term.  If the term search yields a
    candidate it is the only search.  A search that raises counts as one
    without candidates: result and world are those of the catalog that
    answers with the empty list instead of failing. *)
Theorem consultar_fallback_order termo nome_ref (st : state W) :
  let t := Str.strip termo in
  let t2 := _term_simplify t in
  exists r1 r2 r3 : outcome json,
    let code := no_candidates r1 && isdigit t && (8 <=? Str.len t) in
    let simp := no_candidates r1 && (negb code || no_candidates r2)
                && negb (Str.eqb t2 t) in
    snd (snd (_consultar termo nome_ref st)) =
      snd st ++ [EvSearchTerm t 0 19 r1]
             ++ (if code then [EvSearchEan t r2] else [])
             ++ (if simp then [EvSearchTerm t2 0 19 r3] else [])
    /\ (no_candidates r1 = false ->
        snd (snd (_consultar termo nome_ref st)) =
          snd st ++ [EvSearchTerm t 0 19 r1])
    /\ fst (_consultar (C:=quiet C) termo nome_ref st) =
         fst (_consultar (C:=C) termo nome_ref st)
    /\ fst (snd (_consultar (C:=quiet C) termo nome_ref st)) =
         fst (snd (_consultar (C:=C) termo nome_ref st)).
Proof.
  intros t t2. destruct st as [w tr].
  pose proof (consultar_run termo nome_ref w tr) as Hrun.
  cbv zeta in Hrun. fold t in Hrun. fold t2 in Hrun.
  set (a1 := term_answer t 0 19 w) in *.
  set (code := no_candidates (fst a1) && isdigit t && (8 <=? Str.len t)) in *.
  set (a2 := ean_answer t (snd a1)) in *.
  set (w2 := if code then snd a2 else snd a1) in *.
  set (a3 := term_answer t2 0 19 w2) in *.
  exists (fst a1), (fst a2), (fst a3). cbv zeta. fold code.
  assert (Hsimp :
    negb (truthy (if code then candidates (fst a2) else candidates (fst a1)))
      && negb (Str.eqb t2 t) =
    no_candidates (fst a1) && (negb code || no_candidates (fst a2))
      && negb (Str.eqb t2 t)) by apply simp_cond.
  rewrite Hsimp in Hrun.
  split; [|split; [|apply consultar_quiet]].
  - rewrite Hrun. reflexivity.
  - intros Hno. rewrite Hrun. simpl snd. unfold code. rewrite Hno. reflexivity.
Qed.

(** C5. If every search that [_consultar] attempts yields no candidates,
    it returns, without raising, the result whose price is the sentinel,
    whose link is empty, whose classification is the dash and whose note
    is "Sem resultados". *)
Theorem consultar_sem_resultados termo nome_ref (st : state W) :
  forallb (fun ev => from_option no_candidates true (answer_of ev))
          (added (_consultar termo nome_ref) st) = true ->
  fst (_consultar termo nome_ref st) =
    Ret {[ u "Preco" := JStr (u "Produto não encontrado");
           u "Link" := JStr [];
           u "Classificacao" := JStr (u "—");
           u "Observacao" := JStr (u "Sem resultados") ]}.
Proof.
  destruct st as [w tr]. unfold added.
  rewrite consultar_run. cbv zeta. simpl fst. simpl snd.
  rewrite drop_app_length.
  set (t := Str.strip termo). set (t2 := _term_simplify t).
  set (a1 := term_answer t 0 19 w).
  set (code := no_candidates (fst a1) && isdigit t && (8 <=? Str.len t)).
  set (a2 := ean_answer t (snd a1)).
  set (p2 := if code then candidates (fst a2) else candidates (fst a1)).
  set (w2 := if code then snd a2 else snd a1).
  set (simp := negb (truthy p2) && negb (Str.eqb t2 t)).
  set (a3 := term_answer t2 0 19 w2).
  intros Hall. cbn [app forallb] in Hall. rewrite forallb_app in Hall.
  apply andb_prop in Hall as [H1 Hall]. cbn [answer_of from_option] in H1.
  apply andb_prop in Hall as [H2 H3].
  assert (Hp2 : truthy p2 = false).
  { unfold p2. destruct code; cbn [forallb answer_of from_option] in H2.
    - rewrite andb_true_r in H2. unfold no_candidates in H2.
      by apply negb_true_iff in H2.
    - unfold no_candidates in H1. by apply negb_true_iff in H1. }
  assert (Hp3 : truthy (if simp then candidates (fst a3) else p2) = false).
  { destruct simp; cbn [forallb answer_of from_option] in H3; [|exact Hp2].
    rewrite andb_true_r in H3. unfold no_candidates in H3.
    by apply negb_true_iff in H3. }
  unfold extrair. rewrite Hp3. reflexivity.
Qed.

(** Every result that [_consultar] produces is well formed. *)
Lemma consultar_shape termo nome_ref (st : state W) d :
  fst (_consultar termo nome_ref st) = Ret d -> result_shape d.
Proof.
  destruct st as [w tr]. rewrite consultar_run. cbv zeta. simpl fst.
  apply extrair_shape.
Qed.

End ResultFacts.

(** ** The match scorer *)

Lemma latin1_runtime_ok : Latin1 latin1_runtime.
Proof. by split. Qed.

Lemma key_lt_spec a b :
  key_lt a b = true <->
  fst a < fst b \/ (fst a = fst b /\ snd a < snd b).
Proof.
  unfold key_lt. rewrite orb_true_iff, andb_true_iff.
  rewrite !Z.ltb_lt, Z.eqb_eq. tauto.
Qed.

Lemma head_insert_by_key {A} (x : A * (Z * Z)) l :
  head (insert_by_key x l) =
  Some (match head l with
        | None => x
        | Some y => if key_lt (snd y) (snd x) then y else x
        end).
Proof. destruct l as [|y r]; simpl; [done|]. by destruct (key_lt _ _). Qed.

Lemma head_sorted_by_key {A} (l : list (A * (Z * Z))) :
  head (sorted_by_key l) = least_key l.
Proof.
  induction l as [|x r IH]; simpl; [done|].
  rewrite head_insert_by_key. fold (sorted_by_key r). rewrite IH.
  destruct (least_key r) as [y|]; [|done]. by destruct (key_lt _ _).
Qed.

(** The head of the sorted list is the first element of least key. *)
Lemma least_key_spec {A} (l : list (A * (Z * Z))) b :
  least_key l = Some b ->
  exists i, l !! i = Some b /\
    forall j y, l !! j = Some y ->
      ((j < i)%nat -> key_lt (snd b) (snd y) = true) /\
      ((i <= j)%nat -> key_lt (snd y) (snd b) = false).
Proof.
  revert b. induction l as [|x r IH]; intros b; simpl; [discriminate|].
  destruct (least_key r) as [y|] eqn:Er.
  - destruct (IH y eq_refl) as (i & Hi & Hmin).
    destruct (key_lt (snd y) (snd x)) eqn:Eyx; intros [= <-].
    + exists (S i). split; [done|]. intros [|j] z Hz; simpl in Hz.
      * injection Hz as <-. split; [done|lia].
      * destruct (Hmin j z Hz) as [H1 H2]. split; intros; [apply H1|apply H2]; lia.
    + exists 0%nat. split; [done|]. intros [|j] z Hz; simpl in Hz.
      * injection Hz as <-. split; [lia|]. intros _.
        apply not_true_is_false. rewrite key_lt_spec. lia.
      * split; [lia|]. intros _.
        destruct (Hmin j z Hz) as [H1 H2].
        apply not_true_is_false. intros Hzx.
        apply not_true_iff_false in Eyx. rewrite key_lt_spec in Eyx, Hzx.
        destruct (decide (j < i)%nat) as [Hlt|Hge].
        -- specialize (H1 Hlt). rewrite key_lt_spec in H1. lia.
        -- assert (Hf : key_lt (snd z) (snd y) = false) by (apply H2; lia).
           apply not_true_iff_false in Hf. rewrite key_lt_spec in Hf. lia.
  - intros [= <-]. exists 0%nat. split; [done|].
    destruct r as [|z r]; [|simpl in Er; destruct (least_key r) as [?|];
                            [destruct (key_lt _ _)|]; discriminate].
    intros [|j] y Hy; simpl in Hy; [|discriminate].
    injection Hy as <-. split; [lia|]. intros _.
    apply not_true_is_false. rewrite key_lt_spec. lia.
Qed.

Lemma words_from_split cur in_ws s :
  (in_ws = true -> cur = []) ->
  List.filter (fun t => negb (bool_decide (t = [])))
              (Str.re_split_ws_aux cur in_ws s) =
  words_from cur s.
Proof.
  revert cur in_ws. induction s as [|c r IH]; intros cur in_ws Hws; simpl.
  - destruct cur as [|x cur]; [done|].
    rewrite bool_decide_eq_false_2; [done|].
    simpl. by destruct (rev cur).
  - destruct (Str.isspace c).
    + destruct in_ws.
      * rewrite (Hws eq_refl). by apply IH.
      * simpl. rewrite (IH [] true) by done.
        destruct cur as [|x cur]; [done|].
        rewrite bool_decide_eq_false_2; [done|].
        simpl. by destruct (rev cur).
    + by apply IH.
Qed.

Section ScorerFacts.
Context {rt : Runtime}.

(** The tokens the code computes with [re.split] are the words of the
    lower-cased reference. *)
Lemma tokens_of_reference ref : tokens_of ref = reference_tokens ref.
Proof. unfold tokens_of, Str.re_split_ws. by apply words_from_split. Qed.

Lemma omap_Ret {A B} (f : A -> B) (l : list A) :
  omap (fun a => Ret (f a)) l = Ret (map f l).
Proof. induction l as [|a l IH]; simpl; [done|]. by rewrite IH. Qed.

Lemma omap_ext {A B} (f g : A -> outcome B) l :
  Forall (fun a => f a = g a) l -> omap f l = omap g l.
Proof.
  induction 1 as [|a l Ha _ IH]; simpl; [done|]. by rewrite Ha, IH.
Qed.

Lemma length_filter_map {A} (f : A -> bool) l :
  length (List.filter id (map f l)) = length (List.filter f l).
Proof.
  induction l as [|a l IH]; simpl; [done|].
  change (id (f a)) with (f a). destruct (f a); simpl; by rewrite IH.
Qed.

(** The key of a candidate. *)
Lemma score_candidate ref p :
  candidate p ->
  score (tokens_of ref) p =
    Ret (- Z.of_nat (hits ref p), Z.of_nat (length (display_name p))).
Proof.
  unfold candidate, hits. rewrite <- tokens_of_reference.
  destruct p as [| | | | | |m]; try discriminate. simpl.
  unfold score, py_get, display_name.
  destruct (dict_lookup m (u "productName")) as [[| | | |s| |]|];
    try discriminate; intros _; cbn [from_option id].
  - assert (Hor : py_or (JStr s) (JStr []) = JStr s).
    { unfold py_or. simpl. by destruct s. }
    cbn [obind]. rewrite Hor. cbn [str_method obind].
    rewrite omap_Ret. cbn [obind py_len Str.len].
    by rewrite length_filter_map.
  - assert (Hor : py_or (JStr []) (JStr []) = JStr []) by reflexivity.
    cbn [obind]. rewrite Hor. cbn [str_method obind].
    rewrite omap_Ret. cbn [obind py_len Str.len].
    by rewrite length_filter_map.
Qed.

Lemma best_match_candidates (l : list json) (ref : pystr) :
  Forall candidate l ->
  l <> [] ->
  exists i p,
    l !! i = Some p /\ _best_match (JArr l) ref = Ret p /\
    forall j q, l !! j = Some q -> beats ref i p j q.
Proof.
  intros Hl Hne.
  set (key := fun p => (- Z.of_nat (hits ref p),
                        Z.of_nat (length (display_name p)))).
  assert (Hkeys : omap (score (tokens_of ref)) l = Ret (map key l)).
  { rewrite <- omap_Ret. apply omap_ext.
    eapply Forall_impl; [exact Hl|]. intros p Hp. by apply score_candidate. }
  unfold _best_match. cbn [truthy].
  rewrite bool_decide_eq_false_2 by (destruct l; [done|discriminate]).
  cbn [negb py_iter obind]. rewrite Hkeys. cbn [obind].
  pose proof (head_sorted_by_key (zip l (map key l))) as Hhead.
  destruct (least_key (zip l (map key l))) as [b|] eqn:Eb.
  - destruct (least_key_spec _ _ Eb) as (i & Hi & Hmin).
    destruct (sorted_by_key (zip l (map key l))) as [|x r]; [discriminate|].
    injection Hhead as ->.
    assert (Hzip : forall j y, zip l (map key l) !! j = Some y <->
                               exists q, l !! j = Some q /\ y = (q, key q)).
    { intros j y. rewrite lookup_zip_with_Some. split.
      - intros (q & k & -> & Hq & Hk). exists q. split; [done|].
        rewrite list_lookup_fmap, Hq in Hk. by injection Hk as <-.
      - intros (q & Hq & ->). exists q, (key q). split; [done|].
        split; [done|]. by rewrite list_lookup_fmap, Hq. }
    apply Hzip in Hi as (p & Hp & ->).
    exists i, p. split; [done|]. split; [done|].
    intros j q Hq.
    destruct (Hmin j (q, key q)) as [H1 H2]; [apply Hzip; eauto|].
    unfold beats. cbn [fst snd] in H1, H2.
    destruct (decide (j < i)%nat) as [Hlt|Hge].
    + specialize (H1 Hlt). apply key_lt_spec in H1. unfold key in H1.
      cbn [fst snd] in H1. lia.
    + assert (Hf : key_lt (key q) (key p) = false) by (apply H2; lia).
      apply not_true_iff_false in Hf. rewrite key_lt_spec in Hf.
      unfold key in Hf. cbn [fst snd] in Hf. lia.
  - destruct l as [|p l]; [done|]. simpl in Eb.
    destruct (least_key _) as [y|]; [destruct (key_lt _ _)|]; discriminate.
Qed.

End ScorerFacts.

Ltac in_range := by (apply (bool_decide_unpack _); vm_compute).

Section ScorerTransfer.

(** The scorer depends on the runtime only through the lower-casing of
    the reference and of the display names. *)
Lemma best_match_ext (rt rt' : Runtime) (l : list json) (ref : pystr) :
  @uc_lower rt ref = @uc_lower rt' ref ->
  Forall (fun p => candidate p /\
                   @uc_lower rt (display_name p) = @uc_lower rt' (display_name p)) l ->
  @_best_match rt (JArr l) ref = @_best_match rt' (JArr l) ref.
Proof.
  intros Href Hl.
  assert (Hkeys : omap (@score rt (@tokens_of rt ref)) l =
                  omap (@score rt' (@tokens_of rt' ref)) l).
  { apply omap_ext. eapply Forall_impl; [exact Hl|].
    intros p [Hp Hlow]. rewrite !score_candidate by done.
    unfold hits, reference_tokens. by rewrite Href, Hlow. }
  unfold _best_match. destruct (negb (truthy (JArr l))); [done|].
  cbn [py_iter obind]. by rewrite Hkeys.
Qed.

End ScorerTransfer.

(** C2. On a list of candidates [_best_match] returns none exactly when
    the list is empty; otherwise it returns the candidate in whose
    lower-cased display name the most lower-cased, whitespace-separated
    tokens of the reference occur, the shorter display name winning among
    equals and the earlier candidate among those.  Of "Paracetamol 750mg
    Extra Forte" and "Paracetamol 750mg", with the reference "paracetamol
    750mg", it selects "Paracetamol 750mg". *)
Theorem best_match_spec (rt : Runtime) (L : Latin1 rt)
    (l : list json) (ref : pystr) :
  Forall candidate l ->
  (_best_match (JArr l) ref = Ret JNull <-> l = []) /\
  (l <> [] ->
   exists i p,
     l !! i = Some p /\ _best_match (JArr l) ref = Ret p /\
     forall j q, l !! j = Some q -> beats ref i p j q) /\
  _best_match
    (JArr [named "Paracetamol 750mg Extra Forte"; named "Paracetamol 750mg"])
    (u "paracetamol 750mg") = Ret (named "Paracetamol 750mg").
Proof.
  intros Hl. split; [|split].
  - split.
    + intros Hnone. destruct l as [|p0 l0]; [done|]. exfalso.
      destruct (best_match_candidates (p0 :: l0) ref Hl) as (i & p & Hi & Hp & _);
        [done|].
      rewrite Hp in Hnone. injection Hnone as ->.
      rewrite Forall_forall in Hl.
      assert (Hc : candidate JNull).
      { apply Hl. apply list_elem_of_lookup. eauto. }
      discriminate.
    + by intros ->.
  - by apply best_match_candidates.
  - rewrite (best_match_ext rt latin1_runtime).
    + by vm_compute.
    + apply latin1_lower. in_range.
    + repeat constructor; apply latin1_lower; in_range.
Qed.

Lemma best_match_spec_witness :
  Latin1 latin1_runtime /\
  Forall candidate [named "Dipirona 1g"; named "Dipirona"] /\
  (exists i p,
     [named "Dipirona 1g"; named "Dipirona"] !! i = Some p /\
     @_best_match latin1_runtime
       (JArr [named "Dipirona 1g"; named "Dipirona"]) (u "dipirona") = Ret p /\
     forall j q, [named "Dipirona 1g"; named "Dipirona"] !! j = Some q ->
                 @beats latin1_runtime (u "dipirona") i p j q).
Proof.
  assert (Hl : Forall candidate [named "Dipirona 1g"; named "Dipirona"])
    by (repeat constructor).
  split; [exact latin1_runtime_ok|]. split; [exact Hl|].
  apply (best_match_spec latin1_runtime latin1_runtime_ok
           [named "Dipirona 1g"; named "Dipirona"] (u "dipirona") Hl).
  discriminate.
Defined.

(** ** The batch loop *)

Section BatchFacts.
Context {rt : Runtime} {W : Type} {C : Catalog W}.

Lemma try_consultar termo nome_ref (st : state W) :
  try_Exception (_consultar termo nome_ref) erro st =
  (Ret (contido (fst (_consultar termo nome_ref st))),
   snd (_consultar termo nome_ref st)).
Proof.
  unfold try_Exception.
  pose proof (ordinary_consultar termo nome_ref st) as Hord.
  destruct (_consultar termo nome_ref st) as [[d|e] st']; [done|].
  simpl in *. by rewrite (Hord e eq_refl).
Qed.

(** The body of the loop spelled out. *)
Lemma linha_run cols row (st : state W) :
  let ean := row_ean cols row in
  let nome := row_nome cols row in
  let termo := str_or ean nome in
  let a1 := pelo_ean ean nome st in
  let a2 :=
    if retenta (fst a1) then
      if negb (bool_decide (nome = []))
      then (contido (fst (_consultar nome nome (snd a1))),
            snd (_consultar nome nome (snd a1)))
      else if negb (dict_truthy (fst a1))
           then (nao_encontrado (u "Sem resultados"), snd a1)
           else a1
    else a1 in
  processar_linha cols row st =
  if bool_decide (termo = [])
  then (Ret (registro ean nome NAO_ENCONTRADO [] TRAVESSAO (u "Linha vazia")), st)
  else (Ret (fst a2 ∪ dict [(u "EAN", ean); (u "NOME", str_or nome termo)]),
        (fst (snd a2), snd (snd a2) ++ [EvSleep PAUSA])).
Proof.
  intros ean nome termo a1 a2.
  unfold processar_linha. fold (row_ean cols row) (row_nome cols row).
  fold ean nome. fold termo.
  destruct (bool_decide (termo = [])); [reflexivity|].
  unfold bind at 1.
  assert (H1 :
    (if negb (bool_decide (ean = []))
     then try_Exception (_consultar ean (str_or nome ean)) erro
     else ret ∅) st = (Ret (fst a1), snd a1)).
  { unfold a1, pelo_ean. destruct (bool_decide (ean = [])); simpl; [done|].
    apply try_consultar. }
  rewrite H1. clear H1.
  unfold bind at 1. fold (retenta (fst a1)).
  assert (H2 :
    (if retenta (fst a1)
     then if negb (bool_decide (nome = []))
          then try_Exception (_consultar nome nome) erro
          else if negb (dict_truthy (fst a1))
               then ret (nao_encontrado (u "Sem resultados"))
               else ret (fst a1)
     else ret (fst a1)) (snd a1) = (Ret (fst a2), snd a2)).
  { unfold a2. destruct (retenta (fst a1)); [|by destruct a1].
    destruct (negb (bool_decide (nome = []))); [apply try_consultar|].
    destruct (negb (dict_truthy (fst a1))); [done|by destruct a1]. }
  rewrite H2. clear H2.
  unfold bind, emit, ret. reflexivity.
Qed.

End BatchFacts.

Lemma shape_is_dict4 (d : gmap pystr json) :
  result_shape d ->
  exists p l c o,
    d = dict [(u "Preco", p); (u "Link", l); (u "Classificacao", c);
              (u "Observacao", o)].
Proof.
  intros [Hdom Hget].
  destruct (Hget (u "Preco")) as [p Hp]; [by repeat constructor|].
  destruct (Hget (u "Link")) as [l Hl]; [by repeat constructor|].
  destruct (Hget (u "Classificacao")) as [c Hc]; [by repeat constructor|].
  destruct (Hget (u "Observacao")) as [o Ho]; [by repeat constructor|].
  exists p, l, c, o. apply map_eq. intros k.
  destruct (decide (k ∈ CAMPOS)) as [Hk|Hk].
  - unfold CAMPOS in Hk.
    repeat (apply elem_of_cons in Hk as [->|Hk]);
      [rewrite Hp|rewrite Hl|rewrite Hc|rewrite Ho|by apply elem_of_nil in Hk];
      vm_compute; reflexivity.
  - transitivity (@None json).
    + apply not_elem_of_dom. rewrite Hdom. by rewrite elem_of_list_to_set.
    + symmetry. apply not_elem_of_dom.
      destruct (shape_dict4 p l c o) as [-> _]. by rewrite elem_of_list_to_set.
Qed.

Lemma registro_union ean nome p l c o :
  dict [(u "Preco", p); (u "Link", l); (u "Classificacao", c);
        (u "Observacao", o)]
    ∪ dict [(u "EAN", ean); (u "NOME", nome)] =
  registro ean nome p l c o.
Proof. vm_compute. reflexivity. Qed.

Lemma registro_cells ean nome p l c o :
  map (fun k => registro ean nome p l c o !! k) COLUNAS =
  [Some (JStr ean); Some (JStr nome); Some (JStr p); Some (JStr l);
   Some (JStr c); Some (JStr o)].
Proof. vm_compute. reflexivity. Qed.

Lemma dict4_truthy p l c o :
  dict_truthy (dict [(u "Preco", p); (u "Link", l); (u "Classificacao", c);
                     (u "Observacao", o)]) = true.
Proof. vm_compute. reflexivity. Qed.

Lemma str_or_nil a b : str_or a b = [] <-> a = [] /\ b = [].
Proof.
  unfold str_or. destruct (bool_decide (a = [])) eqn:E.
  - apply bool_decide_eq_true in E. split; [by intros ->|by intros [_ ->]].
  - apply bool_decide_eq_false in E. split; [done|by intros [? _]].
Qed.

Lemma str_or_nil_l b : str_or [] b = b.
Proof. reflexivity. Qed.

Lemma str_or_nil_r a : str_or a [] = a.
Proof. unfold str_or. case_bool_decide; congruence. Qed.

Section BatchShape.
Context {rt : Runtime} {W : Type} {C : Catalog W}.

Lemma contido_consultar_shape termo nome_ref (st : state W) :
  result_shape (contido (fst (_consultar termo nome_ref st))).
Proof.
  destruct (fst (_consultar termo nome_ref st)) as [d|e] eqn:E; simpl.
  - by eapply consultar_shape.
  - apply shape_dict4.
Qed.

(** Every row yields a record: the six columns, each a [str], with the
    cleaned Code under [EAN] and the Name, or the term in its absence,
    under [NOME]. *)
Lemma linha_registro cols row (st : state W) :
  exists p l c o st',
    processar_linha cols row st =
    (Ret (registro (row_ean cols row)
                   (str_or (row_nome cols row)
                           (str_or (row_ean cols row) (row_nome cols row)))
                   p l c o), st').
Proof.
  rewrite linha_run. cbv zeta.
  set (ean := row_ean cols row). set (nome := row_nome cols row).
  destruct (bool_decide (str_or ean nome = [])) eqn:Et.
  { apply bool_decide_eq_true in Et. rewrite Et.
    apply str_or_nil in Et as [_ ->]. rewrite str_or_nil_l.
    by eexists _, _, _, _, _. }
  apply bool_decide_eq_false in Et.
  set (a1 := pelo_ean ean nome st).
  match goal with |- context [Ret (fst ?a ∪ _)] => set (a2 := a) end.
  assert (Hshape : result_shape (fst a2)).
  { unfold a2, a1, pelo_ean, retenta.
    destruct (bool_decide (ean = [])) eqn:Ee; cbn [fst snd].
    - apply bool_decide_eq_true in Ee.
      assert (Hn : nome <> []).
      { intros Hn. apply Et. by apply str_or_nil. }
      change (dict_truthy ∅) with false. cbn [negb orb].
      rewrite bool_decide_eq_false_2 by done. cbn [negb fst].
      apply contido_consultar_shape.
    - pose proof (contido_consultar_shape ean (str_or nome ean) st) as Hs1.
      set (d1 := contido (fst (_consultar ean (str_or nome ean) st))) in *.
      clearbody d1.
      destruct (shape_is_dict4 d1 Hs1) as (p & l & c & o & ->).
      rewrite dict4_truthy. cbn [negb orb].
      destruct (get_is _ _ _); [|exact Hs1].
      destruct (negb (bool_decide (nome = []))); cbn [fst]; [|exact Hs1].
      apply contido_consultar_shape. }
  destruct (shape_is_dict4 _ Hshape) as (p & l & c & o & ->).
  rewrite registro_union. by eexists _, _, _, _, _.
Qed.

Lemma linhas_run cols (rs : list (list cell)) (st : state W) :
  exists ds st',
    linhas cols rs st = (Ret ds, st') /\
    Forall2 (fun row d => exists st0 st1,
               processar_linha cols row st0 = (Ret d, st1)) rs ds.
Proof.
  revert st. induction rs as [|row rs IH]; intros st; simpl.
  - exists [], st. split; [done|constructor].
  - destruct (linha_registro cols row st) as (p & l & c & o & st1 & Hrow).
    destruct (IH st1) as (ds & st2 & Hds & Hall).
    unfold bind. rewrite Hrow, Hds. eexists _, _. split; [reflexivity|].
    constructor; [eauto|done].
Qed.

End BatchShape.

Section BatchClaims.
Context {rt : Runtime} {W : Type} {C : Catalog W}.

Lemma processar_dataframe_run df cols (st : state W) :
  colunas df = Ret cols ->
  exists ds st',
    processar_dataframe df st = (Ret (DataFrame ds COLUNAS), st') /\
    Forall2 (fun row d => exists st0 st1,
               processar_linha cols row st0 = (Ret d, st1)) (rows df) ds.
Proof.
  intros Hcols. unfold processar_dataframe, bind, lift, ret. rewrite Hcols.
  destruct (linhas_run cols (rows df) st) as (ds & st' & -> & Hall).
  by exists ds, st'.
Qed.

(** C3. A batch of N rows whose columns are accepted yields N rows, the
    i-th computed from the i-th input row; every output row has the six
    columns [EAN], [NOME], [Preco], [Link], [Classificacao], [Observacao],
    each holding a [str], with the cleaned Code under [EAN] and, under
    [NOME], the Name or, when it is blank, the term that was resolved. *)
Theorem processar_dataframe_linhas df cols (st : state W) :
  colunas df = Ret cols ->
  exists out st',
    processar_dataframe df st = (Ret out, st') /\
    out_columns out = COLUNAS /\
    length (out_rows out) = length (rows df) /\
    Forall2
      (fun row orow =>
         (exists st0 st1 d,
            processar_linha cols row st0 = (Ret d, st1) /\
            orow = map (fun k => d !! k) COLUNAS) /\
         (exists preco link classificacao observacao,
            orow =
              [Some (JStr (row_ean cols row));
               Some (JStr (str_or (row_nome cols row)
                                  (str_or (row_ean cols row) (row_nome cols row))));
               Some (JStr preco); Some (JStr link);
               Some (JStr classificacao); Some (JStr observacao)]))
      (rows df) (out_rows out).
Proof.
  intros Hcols.
  destruct (processar_dataframe_run df cols st Hcols) as (ds & st' & Hrun & Hall).
  exists (DataFrame ds COLUNAS), st'. split; [exact Hrun|]. split; [done|].
  assert (Hrows :
    Forall2
      (fun row orow =>
         (exists st0 st1 d,
            processar_linha cols row st0 = (Ret d, st1) /\
            orow = map (fun k => d !! k) COLUNAS) /\
         (exists preco link classificacao observacao,
            orow =
              [Some (JStr (row_ean cols row));
               Some (JStr (str_or (row_nome cols row)
                                  (str_or (row_ean cols row) (row_nome cols row))));
               Some (JStr preco); Some (JStr link);
               Some (JStr classificacao); Some (JStr observacao)]))
      (rows df) (out_rows (DataFrame ds COLUNAS))).
  { simpl. apply Forall2_fmap_r. eapply Forall2_impl; [exact Hall|].
    intros row d (st0 & st1 & Hd). split; [by eauto|].
    destruct (linha_registro cols row st0) as (p & l & c & o & st1' & Hreg).
    rewrite Hreg in Hd. injection Hd as <- _.
    exists p, l, c, o. apply registro_cells. }
  split; [|exact Hrows].
  symmetry. by eapply Forall2_length.
Qed.

(** C6. Every result of the resolution strategy has exactly the four
    fields [Preco], [Link], [Classificacao] and [Observacao], each holding
    a [str]: the result [_consultar] returns (candidate found, no
    candidates, no match), the result that stands for an exception it
    raised, and the fields of every record of the batch, the one of an
    empty row included. *)
Theorem resultado_completo :
  (forall termo nome_ref (st : state W) d,
     fst (_consultar termo nome_ref st) = Ret d -> result_shape d) /\
  (forall e, result_shape (contido (Raise e))) /\
  (forall cols row (st : state W),
     exists d st',
       processar_linha cols row st = (Ret d, st') /\
       forall k, k ∈ CAMPOS -> exists s, d !! k = Some (JStr s)).
Proof.
  split; [|split].
  - intros termo nome_ref st d. apply consultar_shape.
  - intros e. apply shape_dict4.
  - intros cols row st.
    destruct (linha_registro cols row st) as (p & l & c & o & st' & Hreg).
    eexists _, _. split; [exact Hreg|].
    intros k Hk. unfold CAMPOS in Hk.
    repeat (apply elem_of_cons in Hk as [->|Hk]); [..|by apply elem_of_nil in Hk];
      eexists; vm_compute; reflexivity.
Qed.

End BatchClaims.

Section EmptyRow.
Context {rt : Runtime}.

(** C7. A row whose cleaned Code and Name are both empty yields the record
    with the not-found price, the empty link, the dash and the note "Linha
    vazia", whatever the catalog: the row is the same for any two
    catalogs and any two states, no search is made and the loop does not
    pause (world and trace are left as they were); in a batch, the output
    row at its index is that record. *)
Theorem linha_vazia_independente cols row :
  row_ean cols row = [] ->
  row_nome cols row = [] ->
  (forall W (C : Catalog W) (st : state W),
     processar_linha cols row st =
     (Ret (registro [] [] (u "Produto não encontrado") [] (u "—")
                    (u "Linha vazia")), st)) /\
  (forall W1 (C1 : Catalog W1) (st1 : state W1)
          W2 (C2 : Catalog W2) (st2 : state W2),
     fst (processar_linha cols row st1) = fst (processar_linha cols row st2)) /\
  (forall W (C : Catalog W) (st : state W) df i,
     colunas df = Ret cols ->
     rows df !! i = Some row ->
     exists out st',
       processar_dataframe df st = (Ret out, st') /\
       out_rows out !! i =
         Some [Some (JStr []); Some (JStr []);
               Some (JStr (u "Produto não encontrado")); Some (JStr []);
               Some (JStr (u "—")); Some (JStr (u "Linha vazia"))]).
Proof.
  intros Hean Hnome.
  assert (Hrow : forall W (C : Catalog W) (st : state W),
     processar_linha cols row st =
     (Ret (registro [] [] (u "Produto não encontrado") [] (u "—")
                    (u "Linha vazia")), st)).
  { intros W C st. rewrite linha_run. cbv zeta. by rewrite Hean, Hnome. }
  split; [exact Hrow|]. split.
  - intros W1 C1 st1 W2 C2 st2. by rewrite !Hrow.
  - intros W C st df i Hcols Hi.
    destruct (processar_dataframe_run df cols st Hcols) as (ds & st' & Hrun & Hall).
    exists (DataFrame ds COLUNAS), st'. split; [exact Hrun|].
    destruct (Forall2_lookup_l _ _ _ _ _ Hall Hi) as (d & Hd & st0 & st1 & Hlin).
    rewrite Hrow in Hlin. injection Hlin as <- _.
    simpl. rewrite list_lookup_fmap, Hd. simpl. f_equal.
Qed.

End EmptyRow.

Section Containment.
Context {rt : Runtime} {W : Type} {C : Catalog W}.

Lemma linha_total cols row (st : state W) :
  exists d st', processar_linha cols row st = (Ret d, st').
Proof.
  destruct (linha_registro cols row st) as (p & l & c & o & st' & Hreg).
  by eexists _, _.
Qed.

Lemma get_is_erro obs :
  get_is (nao_encontrado obs) (u "Preco") NAO_ENCONTRADO = true.
Proof. vm_compute. reflexivity. Qed.

Lemma nao_encontrado_truthy obs : dict_truthy (nao_encontrado obs) = true.
Proof. vm_compute. reflexivity. Qed.

Lemma nao_encontrado_registro ean nome obs :
  nao_encontrado obs ∪ dict [(u "EAN", ean); (u "NOME", nome)] =
  registro ean nome (u "Produto não encontrado") [] (u "—") obs.
Proof. vm_compute. reflexivity. Qed.

(** C4, as the code has it.  No exception of the resolution strategy
    leaves the loop: every row yields a record and the batch yields one
    record per row, each that of its own row.  When the attempt that
    raises is the last one made for the row (the Code attempt of a row
    without Name, or the Name attempt, made when the row has no Code or
    its Code attempt found no price), the record has the not-found price,
    the empty link, the dash and the note "Erro: " followed by the
    message. *)
Theorem linha_contem_excecao cols row (st : state W) e :
  let ean := row_ean cols row in
  let nome := row_nome cols row in
  (nome = [] /\ ean <> [] /\ fst (_consultar ean ean st) = Raise e) \/
  (nome <> [] /\ retenta (fst (pelo_ean ean nome st)) = true /\
   fst (_consultar nome nome (snd (pelo_ean ean nome st))) = Raise e) ->
  (exists st',
     processar_linha cols row st =
     (Ret (registro ean (str_or nome ean) (u "Produto não encontrado") []
                    (u "—") (u "Erro: " ++ exn_msg e)), st')) /\
  (forall cols' row' (st0 : state W),
     exists d st1, processar_linha cols' row' st0 = (Ret d, st1)) /\
  (forall cols' rs (st0 : state W),
     exists ds st1,
       linhas cols' rs st0 = (Ret ds, st1) /\
       length ds = length rs /\
       Forall2 (fun row' d => exists sta stb,
                  processar_linha cols' row' sta = (Ret d, stb)) rs ds).
Proof.
  intros ean nome Hlast. split; [|split].
  - rewrite linha_run. cbv zeta. fold ean nome.
    destruct Hlast as [(Hn & He & Hraise)|(Hn & Hret & Hraise)].
    + rewrite Hn, str_or_nil_r. rewrite bool_decide_eq_false_2 by done.
      unfold pelo_ean. rewrite bool_decide_eq_false_2 by done.
      rewrite str_or_nil_l, Hraise. cbn [fst snd contido].
      unfold retenta. rewrite get_is_erro, nao_encontrado_truthy.
      cbn [negb orb]. rewrite bool_decide_eq_true_2 by done. cbn [negb fst snd].
      rewrite nao_encontrado_registro. by eexists.
    + rewrite bool_decide_eq_false_2.
      2:{ intros Ht. apply str_or_nil in Ht as [_ ?]. done. }
      rewrite Hret. rewrite bool_decide_eq_false_2 by done. cbn [negb fst snd].
      rewrite Hraise. cbn [contido].
      assert (Hnome : str_or nome (str_or ean nome) = str_or nome ean).
      { unfold str_or at 1 3. by rewrite bool_decide_eq_false_2. }
      rewrite Hnome, nao_encontrado_registro. by eexists.
  - intros cols' row' st0. apply linha_total.
  - intros cols' rs st0.
    destruct (linhas_run cols' rs st0) as (ds & st1 & Hds & Hall).
    exists ds, st1. split; [done|]. split; [|done].
    symmetry. by eapply Forall2_length.
Qed.

Lemma colunas_acceptance df :
  (sem_colunas df /\ length (columns df) = 1%nat /\
   colunas df = Ret [u "NOME"]) \/
  (sem_colunas df /\ length (columns df) <> 1%nat /\
   colunas df =
     Raise (Exn ValueError
              (u "A planilha precisa ter ao menos a coluna NOME ou EAN."))) \/
  (~ sem_colunas df /\ exists cols, colunas df = Ret cols).
Proof.
  unfold colunas, sem_colunas.
  set (cols := map (fun c => Str.strip (uc_upper c)) (columns df)).
  assert (Hlen : length cols = length (columns df)) by apply length_map.
  rewrite <- Hlen.
  destruct (decide (u "EAN" ∈ cols)) as [He|He].
  { right. right. rewrite (bool_decide_eq_true_2 _ He). cbn [negb andb].
    split; [tauto|by eexists]. }
  destruct (decide (u "NOME" ∈ cols)) as [Hn|Hn].
  { right. right. rewrite (bool_decide_eq_true_2 _ Hn).
    rewrite andb_false_r. split; [tauto|by eexists]. }
  rewrite (bool_decide_eq_false_2 _ He), (bool_decide_eq_false_2 _ Hn).
  cbn [negb andb].
  destruct (decide (length cols = 1%nat)) as [Hl|Hl].
  - left. by rewrite (bool_decide_eq_true_2 _ Hl).
  - right. left. by rewrite (bool_decide_eq_false_2 _ Hl).
Qed.

Lemma processar_dataframe_raise df e (st : state W) :
  colunas df = Raise e -> processar_dataframe df st = (Raise e, st).
Proof. intros Hc. unfold processar_dataframe, bind, lift. by rewrite Hc. Qed.

(** C9, as the code has it.  A batch whose normalized columns have neither
    [EAN] nor [NOME] and whose number of columns is not one fails before
    any row is processed: [processar_dataframe] raises [ValueError] and
    leaves the world and the trace untouched. *)
Theorem sem_colunas_falha df (st : state W) :
  sem_colunas df ->
  length (columns df) <> 1%nat ->
  processar_dataframe df st =
  (Raise (Exn ValueError
            (u "A planilha precisa ter ao menos a coluna NOME ou EAN.")), st).
Proof.
  intros Hsem Hlen. apply processar_dataframe_raise.
  destruct (colunas_acceptance df) as [(_ & Hl & _)|[(_ & _ & Hc)|(Hn & _)]];
    [done|exact Hc|done].
Qed.



End Containment.

(** ** The bar-code scenario *)

Section Scenario.
Context {rt : Runtime} {L : Latin1 rt}.

Lemma price_from_product_path prod :
  _price_from_product prod =
  try_except
    (let! price := preco_no_catalogo prod in py_float (py_or price (JInt 0)))
    (fun _ => Ret Float.zero).
Proof.
  unfold _price_from_product, preco_no_catalogo, obind.
  destruct (py_item prod "items"); [|done].
  destruct (py_item0 _); [|done].
  destruct (py_item _ "sellers"); [|done].
  destruct (py_item0 _); [|done].
  destruct (py_item _ "commertialOffer"); [|done].
  done.
Qed.











Lemma dict4_eq a b c d :
  dict [(u "Preco", a); (u "Link", b); (u "Classificacao", c);
        (u "Observacao", d)] =
  {[ u "Preco" := JStr a; u "Link" := JStr b; u "Classificacao" := JStr c;
     u "Observacao" := JStr d ]}.
Proof. reflexivity. Qed.



End Scenario.

(** ** The properties on concrete runs *)

Lemma processar_dataframe_linhas_witness :
  colunas (rt:=latin1_runtime) planilha_codigos = Ret planilha_ean_nome /\
  exists out st',
    processar_dataframe (rt:=latin1_runtime) (C:=scripted)
      planilha_codigos acha_pelo_codigo = (Ret out, st') /\
    out_columns out = COLUNAS /\
    length (out_rows out) = 2%nat.
Proof.
  assert (Hc : colunas (rt:=latin1_runtime) planilha_codigos =
               Ret planilha_ean_nome) by (vm_compute; reflexivity).
  split; [exact Hc|].
  destruct (processar_dataframe_linhas (rt:=latin1_runtime) (C:=scripted)
              planilha_codigos planilha_ean_nome acha_pelo_codigo Hc)
    as (out & st' & Hrun & Hcols & Hlen & _).
  exists out, st'. split; [exact Hrun|]. split; [exact Hcols|exact Hlen].
Defined.

Lemma consultar_sem_resultados_witness :
  forallb (fun ev => from_option no_candidates true (answer_of ev))
          (added (_consultar (rt:=latin1_runtime) (C:=scripted)
                    (u "xyzyx-nonexistent-item") []) vazio) = true /\
  fst (_consultar (rt:=latin1_runtime) (C:=scripted)
         (u "xyzyx-nonexistent-item") [] vazio) =
    Ret {[ u "Preco" := JStr (u "Produto não encontrado");
           u "Link" := JStr [];
           u "Classificacao" := JStr (u "—");
           u "Observacao" := JStr (u "Sem resultados") ]}.
Proof.
  assert (Hall :
    forallb (fun ev => from_option no_candidates true (answer_of ev))
            (added (_consultar (rt:=latin1_runtime) (C:=scripted)
                      (u "xyzyx-nonexistent-item") []) vazio) = true)
    by (vm_compute; reflexivity).
  split; [exact Hall|].
  exact (consultar_sem_resultados (rt:=latin1_runtime) (C:=scripted)
           (u "xyzyx-nonexistent-item") [] vazio Hall).
Defined.

Lemma resultado_completo_witness :
  fst (_consultar (rt:=latin1_runtime) (C:=scripted) CODIGO CODIGO
         acha_pelo_codigo) =
    Ret (dict [(u "Preco", u "R$ 16,31"); (u "Link", LINK_ANALGESICO);
               (u "Classificacao", u "Medicamentos > Analgésicos");
               (u "Observacao", u "—")]) /\
  result_shape
    (dict [(u "Preco", u "R$ 16,31"); (u "Link", LINK_ANALGESICO);
           (u "Classificacao", u "Medicamentos > Analgésicos");
           (u "Observacao", u "—")]).
Proof.
  assert (Hr :
    fst (_consultar (rt:=latin1_runtime) (C:=scripted) CODIGO CODIGO
           acha_pelo_codigo) =
      Ret (dict [(u "Preco", u "R$ 16,31"); (u "Link", LINK_ANALGESICO);
                 (u "Classificacao", u "Medicamentos > Analgésicos");
                 (u "Observacao", u "—")]))
    by (vm_compute; reflexivity).
  split; [exact Hr|].
  exact (proj1 (resultado_completo (rt:=latin1_runtime) (C:=scripted))
           CODIGO CODIGO acha_pelo_codigo _ Hr).
Defined.

Lemma linha_vazia_independente_witness :
  row_ean (rt:=latin1_runtime) planilha_ean_nome [None; Some (u " nan ")] = [] /\
  row_nome (rt:=latin1_runtime) planilha_ean_nome [None; Some (u " nan ")] = [] /\
  processar_linha (rt:=latin1_runtime) (C:=scripted)
    planilha_ean_nome [None; Some (u " nan ")] acha_pelo_codigo =
  (Ret (registro [] [] (u "Produto não encontrado") [] (u "—")
                 (u "Linha vazia")), acha_pelo_codigo).
Proof.
  assert (He : row_ean (rt:=latin1_runtime) planilha_ean_nome
                 [None; Some (u " nan ")] = []) by (vm_compute; reflexivity).
  assert (Hn : row_nome (rt:=latin1_runtime) planilha_ean_nome
                 [None; Some (u " nan ")] = []) by (vm_compute; reflexivity).
  split; [exact He|]. split; [exact Hn|].
  apply (linha_vazia_independente (rt:=latin1_runtime) _ _ He Hn).
Defined.


(** The Code attempt of the row raises, the Name attempt that follows
    finds the product, and the row carries the product, not the error. *)
Lemma linha_contem_excecao_counterexample :
  fst (_consultar (rt:=latin1_runtime) (C:=scripted) (u "123") (u "dipirona")
         responde_sem_nome) = Raise SEM_LEN /\
  fst (processar_linha (rt:=latin1_runtime) (C:=scripted) planilha_ean_nome
         [Some (u "123"); Some (u "dipirona")] responde_sem_nome) =
    Ret (registro (u "123") (u "dipirona") (u "R$ 16,31") LINK_ANALGESICO
                  (u "Medicamentos > Analgésicos") (u "—")) /\
  ~ toda_excecao_vira_erro (rt:=latin1_runtime) (C:=scripted) planilha_ean_nome
      [Some (u "123"); Some (u "dipirona")] responde_sem_nome.
Proof.
  assert (Hrow :
    fst (processar_linha (rt:=latin1_runtime) (C:=scripted) planilha_ean_nome
           [Some (u "123"); Some (u "dipirona")] responde_sem_nome) =
      Ret (registro (u "123") (u "dipirona") (u "R$ 16,31") LINK_ANALGESICO
                    (u "Medicamentos > Analgésicos") (u "—")))
    by (vm_compute; reflexivity).
  split; [vm_compute; reflexivity|]. split; [exact Hrow|].
  intros Hall.
  destruct (Hall SEM_LEN) as (d & st' & Hd & Hobs).
  - vm_compute. discriminate.
  - vm_compute. reflexivity.
  - apply (f_equal fst) in Hd. cbn [fst] in Hd.
    rewrite Hrow in Hd. injection Hd as <-.
    vm_compute in Hobs. discriminate.
Qed.

Lemma linha_contem_excecao_witness :
  (row_nome (rt:=latin1_runtime) planilha_ean_nome [Some (u "123"); None] = [] /\
   row_ean (rt:=latin1_runtime) planilha_ean_nome [Some (u "123"); None] <> [] /\
   fst (_consultar (rt:=latin1_runtime) (C:=scripted) (u "123") (u "123")
          responde_sem_nome) = Raise SEM_LEN) /\
  exists st',
    processar_linha (rt:=latin1_runtime) (C:=scripted) planilha_ean_nome
      [Some (u "123"); None] responde_sem_nome =
    (Ret (registro (u "123") (u "123") (u "Produto não encontrado") []
                   (u "—") (u "Erro: " ++ exn_msg SEM_LEN)), st').
Proof.
  assert (Hn : row_nome (rt:=latin1_runtime) planilha_ean_nome
                 [Some (u "123"); None] = []) by (vm_compute; reflexivity).
  assert (He : row_ean (rt:=latin1_runtime) planilha_ean_nome
                 [Some (u "123"); None] = u "123") by (vm_compute; reflexivity).
  assert (Hr : fst (_consultar (rt:=latin1_runtime) (C:=scripted) (u "123")
                      (u "123") responde_sem_nome) = Raise SEM_LEN)
    by (vm_compute; reflexivity).
  split.
  { split; [exact Hn|]. split; [rewrite He; discriminate|exact Hr]. }
  destruct (linha_contem_excecao (rt:=latin1_runtime) (C:=scripted)
              planilha_ean_nome [Some (u "123"); None] responde_sem_nome SEM_LEN)
    as [[st' Hrow] _].
  { left. split; [exact Hn|]. split; [rewrite He; discriminate|].
    rewrite He. exact Hr. }
  exists st'. rewrite He, Hn in Hrow. exact Hrow.
Defined.

(** One column that is neither [EAN] nor [NOME]: the call returns. *)
Lemma sem_colunas_falha_counterexample :
  sem_colunas (rt:=latin1_runtime) planilha_uma_coluna /\
  ~ fails_fast (rt:=latin1_runtime) (C:=scripted) planilha_uma_coluna
      acha_pelo_nome.
Proof.
  split.
  - split; by (apply (bool_decide_unpack _); vm_compute).
  - intros [e He]. vm_compute in He. discriminate.
Qed.

Lemma sem_colunas_falha_witness :
  sem_colunas (rt:=latin1_runtime) planilha_sem_colunas /\
  length (columns planilha_sem_colunas) <> 1%nat /\
  processar_dataframe (rt:=latin1_runtime) (C:=scripted) planilha_sem_colunas
    acha_pelo_nome =
  (Raise (Exn ValueError
            (u "A planilha precisa ter ao menos a coluna NOME ou EAN.")),
   acha_pelo_nome).
Proof.
  assert (Hs : sem_colunas (rt:=latin1_runtime) planilha_sem_colunas)
    by (split; by (apply (bool_decide_unpack _); vm_compute)).
  assert (Hl : length (columns planilha_sem_colunas) <> 1%nat) by discriminate.
  split; [exact Hs|]. split; [exact Hl|].
  exact (sem_colunas_falha (rt:=latin1_runtime) (C:=scripted)
           planilha_sem_colunas acha_pelo_nome Hs Hl).
Defined.


(** * Further properties *)

(** ** What a result can be *)

Section Resultados.
Context {rt : Runtime} {W : Type} {C : Catalog W}.

Lemma preco_br_float f :
  exists valor, _preco_br (JFloat f) = Ret (u "R$ " ++ valor).
Proof. unfold _preco_br. cbn [py_float obind try_except]. by eexists. Qed.

Lemma link_from_product_shape p link :
  _link_from_product p = Ret link ->
  exists slug, link = BASE ++ u "/" ++ slug ++ u "/p".
Proof.
  unfold _link_from_product, obind.
  destruct (py_get p (u "linkText") JNull) as [lt|e]; [|discriminate].
  destruct (if truthy (py_or lt (JStr [])) then _ else _) as [lk|e];
    [|discriminate].
  intros [= <-]. by eexists.
Qed.

Lemma extrair_cases p ref d :
  extrair p ref = Ret d ->
  d = nao_encontrado (u "Sem resultados") \/
  d = nao_encontrado (u "Sem match") \/
  achado d.
Proof.
  unfold extrair, obind.
  destruct (negb (truthy p)); [intros [= <-]; by left|].
  destruct (_best_match p ref) as [prod|e]; [|discriminate].
  destruct (negb (truthy prod)); [intros [= <-]; right; by left|].
  destruct (_price_from_product prod) as [price|e]; [|discriminate].
  destruct (preco_br_float price) as [valor ->].
  destruct (_link_from_product prod) as [link|e] eqn:El; [|discriminate].
  destruct (link_from_product_shape _ _ El) as [slug ->].
  destruct (_breadcrumb prod) as [cl|e]; [|discriminate].
  intros [= <-]. right. right. by exists valor, slug, cl.
Qed.

Lemma achado_campos d :
  achado d ->
  get_is d (u "Preco") NAO_ENCONTRADO = false /\
  get_is d (u "Link") [] = false /\
  get_is d (u "Observacao") TRAVESSAO = true /\
  dict_truthy d = true.
Proof. intros (valor & slug & cl & ->). by vm_compute. Qed.

Lemma nao_encontrado_campos obs :
  get_is (nao_encontrado obs) (u "Preco") NAO_ENCONTRADO = true /\
  get_is (nao_encontrado obs) (u "Link") [] = true.
Proof. by vm_compute. Qed.

Lemma consultar_casos termo nome_ref (st : state W) d :
  fst (_consultar termo nome_ref st) = Ret d ->
  d = nao_encontrado (u "Sem resultados") \/
  d = nao_encontrado (u "Sem match") \/
  achado d.
Proof.
  destruct st as [w tr]. rewrite consultar_run. cbv zeta. cbn [fst].
  apply extrair_cases.
Qed.

(** X1. A result that [_consultar] returns is one of three: the "Sem
    resultados" result, the "Sem match" result, or a product, with a
    price that starts with "R$ ", a link of the form BASE/slug/p and the
    neutral note.  Hence the link is empty exactly when the price is the
    not-found sentinel. *)
Theorem consultar_resultados termo nome_ref (st : state W) d :
  fst (_consultar termo nome_ref st) = Ret d ->
  (d = nao_encontrado (u "Sem resultados") \/
   d = nao_encontrado (u "Sem match") \/
   achado d) /\
  get_is d (u "Link") [] = get_is d (u "Preco") NAO_ENCONTRADO.
Proof.
  intros Hd. apply consultar_casos in Hd. split; [exact Hd|].
  destruct Hd as [->|[->|Ha]].
  - by vm_compute.
  - by vm_compute.
  - destruct (achado_campos d Ha) as (-> & -> & _). done.
Qed.

End Resultados.

(** ** The attempts of a row and the pace of the batch *)

Section Tentativas.
Context {rt : Runtime} {W : Type} {C : Catalog W}.

Lemma consultar_trace termo nome_ref (st : state W) :
  exists ss,
    snd (snd (_consultar termo nome_ref st)) = snd st ++ ss /\
    forallb is_search ss = true /\
    (1 <= length ss <= 3)%nat.
Proof.
  destruct st as [w tr]. rewrite consultar_run. cbv zeta. cbn [snd].
  eexists. split; [reflexivity|].
  split.
  - repeat match goal with |- context [if ?b then _ else _] => destruct b end;
      reflexivity.
  - repeat match goal with |- context [if ?b then _ else _] => destruct b end;
      simpl; lia.
Qed.

Lemma retenta_achado d : achado d -> retenta d = false.
Proof.
  intros Ha. destruct (achado_campos d Ha) as (Hp & _ & _ & Ht).
  unfold retenta. by rewrite Hp, Ht.
Qed.

Lemma retenta_nao_encontrado obs : retenta (nao_encontrado obs) = true.
Proof. by vm_compute. Qed.

Lemma retenta_contido (r : outcome (gmap pystr json)) termo nome_ref (st : state W) :
  r = fst (_consultar termo nome_ref st) ->
  retenta (contido r) = true <->
  (exists e, r = Raise e) \/
  r = Ret (nao_encontrado (u "Sem resultados")) \/
  r = Ret (nao_encontrado (u "Sem match")).
Proof.
  intros ->. destruct (fst (_consultar termo nome_ref st)) as [d|e] eqn:Er.
  - destruct (consultar_casos _ _ _ _ Er) as [->|[->|Ha]]; cbn [contido].
    + rewrite retenta_nao_encontrado. split; [by intros _; right; left|done].
    + rewrite retenta_nao_encontrado. split; [by intros _; right; right|done].
    + rewrite (retenta_achado d Ha). split; [done|].
      destruct (achado_campos d Ha) as (Hp & _).
      intros [[e ?]|[[= ->]|[= ->]]]; [done|by vm_compute in Hp..].
  - cbn [contido]. rewrite retenta_nao_encontrado.
    split; [intros _; left; by eexists|done].
Qed.

(** X2. A row that has a Code and a Name is searched by Name exactly when
    the Code attempt raised or found nothing ("Sem resultados" or "Sem
    match").  When the Code attempt finds a product, the row is that
    product, the catalog is left as the Code attempt left it and the only
    event after the attempt is the pause; otherwise the row is the outcome
    of the Name attempt, even when the Code attempt had raised. *)
Theorem linha_segunda_tentativa cols row (st : state W) :
  let ean := row_ean cols row in
  let nome := row_nome cols row in
  let r1 := _consultar ean nome st in
  ean <> [] ->
  nome <> [] ->
  (forall d,
     fst r1 = Ret d -> achado d ->
     processar_linha cols row st =
     (Ret (d ∪ dict [(u "EAN", ean); (u "NOME", nome)]),
      (fst (snd r1), snd (snd r1) ++ [EvSleep PAUSA]))) /\
  ((exists e, fst r1 = Raise e) \/
   fst r1 = Ret (nao_encontrado (u "Sem resultados")) \/
   fst r1 = Ret (nao_encontrado (u "Sem match")) ->
   processar_linha cols row st =
   (Ret (contido (fst (_consultar nome nome (snd r1)))
           ∪ dict [(u "EAN", ean); (u "NOME", nome)]),
    (fst (snd (_consultar nome nome (snd r1))),
     snd (snd (_consultar nome nome (snd r1))) ++ [EvSleep PAUSA]))).
Proof.
  intros ean nome r1 He Hn.
  assert (Hrun := linha_run cols row st). cbv zeta in Hrun.
  fold ean nome in Hrun.
  assert (Ht : str_or ean nome = ean).
  { unfold str_or. by rewrite bool_decide_eq_false_2. }
  assert (Hnn : str_or nome ean = nome).
  { unfold str_or. by rewrite bool_decide_eq_false_2. }
  rewrite Ht, Hnn in Hrun.
  rewrite (bool_decide_eq_false_2 (ean = [])) in Hrun by done.
  unfold pelo_ean in Hrun.
  rewrite (bool_decide_eq_false_2 (ean = [])) in Hrun by done.
  rewrite Hnn in Hrun. fold r1 in Hrun. cbn [fst snd] in Hrun.
  rewrite (bool_decide_eq_false_2 (nome = [])) in Hrun by done.
  cbn [negb] in Hrun.
  split.
  - intros d Hd Ha. rewrite Hrun, Hd. cbn [contido].
    by rewrite (retenta_achado d Ha).
  - intros Hfail. rewrite Hrun.
    assert (Hret : retenta (contido (fst r1)) = true).
    { by apply (retenta_contido (fst r1) ean nome st). }
    by rewrite Hret.
Qed.

Lemma linha_trace cols row (st : state W) :
  exists evs,
    snd (snd (processar_linha cols row st)) = snd st ++ evs /\
    (str_or (row_ean cols row) (row_nome cols row) = [] -> evs = []) /\
    (str_or (row_ean cols row) (row_nome cols row) <> [] ->
     exists ss,
       evs = ss ++ [EvSleep PAUSA] /\
       forallb is_search ss = true /\
       (1 <= length ss <= 6)%nat).
Proof.
  rewrite linha_run. cbv zeta.
  set (ean := row_ean cols row). set (nome := row_nome cols row).
  destruct (bool_decide (str_or ean nome = [])) eqn:Et.
  { apply bool_decide_eq_true in Et. exists []. cbn [snd].
    split; [by rewrite app_nil_r|]. split; [done|]. by intros []. }
  apply bool_decide_eq_false in Et. cbn [snd].
  unfold pelo_ean.
  destruct (bool_decide (ean = [])) eqn:Ee.
  - apply bool_decide_eq_true in Ee.
    assert (Hn : nome <> []).
    { intros Hn. apply Et. by apply str_or_nil. }
    cbn [fst snd]. change (retenta ∅) with true. cbv iota.
    rewrite (bool_decide_eq_false_2 (nome = [])) by done. cbn [negb fst snd].
    destruct (consultar_trace nome nome st) as (ss & -> & Hs & Hl).
    exists (ss ++ [EvSleep PAUSA]). split; [by rewrite app_assoc|].
    split; [done|]. intros _. exists ss. split; [done|]. split; [done|lia].
  - cbn [fst snd].
    destruct (consultar_trace ean (str_or nome ean) st) as (ss1 & Hs1 & Hf1 & Hl1).
    destruct (retenta _).
    + destruct (negb (bool_decide (nome = []))).
      * cbn [fst snd].
        destruct (consultar_trace nome nome
                    (snd (_consultar ean (str_or nome ean) st)))
          as (ss2 & -> & Hf2 & Hl2).
        rewrite Hs1.
        exists ((ss1 ++ ss2) ++ [EvSleep PAUSA]).
        split; [by rewrite !app_assoc|]. split; [done|]. intros _.
        exists (ss1 ++ ss2). split; [done|].
        split; [by rewrite forallb_app, Hf1, Hf2|rewrite length_app; lia].
      * destruct (negb (dict_truthy _)); cbn [fst snd]; rewrite Hs1;
          (exists (ss1 ++ [EvSleep PAUSA]); split; [by rewrite app_assoc|];
           split; [done|]; intros _; exists ss1; split; [done|];
           split; [done|lia]).
    + cbn [fst snd]. rewrite Hs1.
      exists (ss1 ++ [EvSleep PAUSA]). split; [by rewrite app_assoc|].
      split; [done|]. intros _. exists ss1. split; [done|]. split; [done|lia].
Qed.

End Tentativas.

Lemma filter_searches_only ss :
  forallb is_search ss = true ->
  List.filter is_sleep ss = [] /\ List.filter is_search ss = ss.
Proof.
  induction ss as [|ev ss IH]; simpl; [done|].
  intros Hs. apply andb_prop in Hs as [Hev Hs]. destruct (IH Hs) as [-> ->].
  rewrite Hev. by destruct ev.
Qed.

Section Ritmo.
Context {rt : Runtime} {W : Type} {C : Catalog W}.

Lemma linhas_trace cols (rs : list (list cell)) (st : state W) :
  exists evs,
    snd (snd (linhas cols rs st)) = snd st ++ evs /\
    List.filter is_sleep evs =
      map (fun _ => EvSleep PAUSA) (linhas_com_termo cols rs) /\
    (length (linhas_com_termo cols rs)
       <= length (List.filter is_search evs)
       <= 6 * length (linhas_com_termo cols rs))%nat.
Proof.
  revert st. induction rs as [|row rs IH]; intros st.
  - exists []. simpl. split; [by rewrite app_nil_r|]. split; [done|lia].
  - cbn [linhas]. unfold bind at 1.
    destruct (linha_total cols row st) as (d & st1 & Hrow).
    destruct (linha_trace cols row st) as (evs1 & Ht1 & Hvazia & Hcheia).
    rewrite Hrow in Ht1 |- *. cbn [snd] in Ht1.
    destruct (IH st1) as (evs2 & Ht2 & Hsl2 & Hse2).
    unfold bind at 1.
    destruct (linhas_run cols rs st1) as (ds & st2 & Hds & _).
    rewrite Hds in Ht2 |- *. cbn [snd] in Ht2. unfold ret. cbn [snd].
    exists (evs1 ++ evs2). rewrite Ht2, Ht1, app_assoc. split; [done|].
    rewrite !List.filter_app, length_app.
    unfold linhas_com_termo in *. cbn [List.filter].
    destruct (bool_decide (str_or (row_ean cols row) (row_nome cols row) = []))
      eqn:Et; cbn [negb].
    + apply bool_decide_eq_true in Et. rewrite (Hvazia Et). simpl.
      split; [done|lia].
    + apply bool_decide_eq_false in Et.
      destruct (Hcheia Et) as (ss & -> & Hss & Hlen).
      destruct (filter_searches_only ss Hss) as [Hf1 Hf2].
      rewrite !List.filter_app, Hf1, Hf2. cbn [List.filter is_sleep is_search].
      rewrite app_nil_r. cbn [app map length]. split; [by rewrite Hsl2|].
      rewrite ?length_app. cbn [length]. lia.
Qed.

(** X3. The pace of a batch.  [processar_dataframe] pauses once, for
    [PAUSA], after each row that has a Code or a Name, and never after a
    row that has neither; for each such row it makes at least one search
    and at most six. *)
Theorem ritmo_do_lote df cols (st : state W) :
  colunas df = Ret cols ->
  List.filter is_sleep (added (processar_dataframe df) st) =
    map (fun _ => EvSleep PAUSA) (linhas_com_termo cols (rows df)) /\
  (length (linhas_com_termo cols (rows df))
     <= length (List.filter is_search (added (processar_dataframe df) st))
     <= 6 * length (linhas_com_termo cols (rows df)))%nat.
Proof.
  intros Hc. unfold added, processar_dataframe, bind, lift. rewrite Hc.
  destruct (linhas_trace cols (rows df) st) as (evs & Ht & Hsl & Hse).
  destruct (linhas_run cols (rows df) st) as (ds & st' & Hds & _).
  rewrite Hds in Ht |- *. cbn [snd] in Ht. unfold ret. cbn [snd].
  rewrite Ht, drop_app_length. by split.
Qed.

End Ritmo.

(** ** Requests *)

Section Pedidos.
Context {rt : Runtime} {W : Type} {C : Catalog W}.

Lemma counting_term_answer term a b (w : W) (n : nat) :
  exists k, (k <= 1)%nat /\
    term_answer (C:=counting C) term a b (w, n) =
    (fst (term_answer (C:=C) term a b w),
     (snd (term_answer (C:=C) term a b w), (n + k)%nat)).
Proof.
  unfold term_answer, _search_term, traced, bind, lift, request.
  destruct (Url.quote term) as [q|e]; cbn [fst snd].
  - exists 1%nat. split; [lia|].
    cbn [http_get_json counting fst snd].
    destruct (http_get_json _ w) as [r w']. cbn [fst snd]. do 3 f_equal. lia.
  - exists 0%nat. split; [lia|]. cbn [fst snd]. do 3 f_equal. lia.
Qed.

Lemma counting_ean_answer ean (w : W) (n : nat) :
  exists k, (k <= 1)%nat /\
    ean_answer (C:=counting C) ean (w, n) =
    (fst (ean_answer (C:=C) ean w),
     (snd (ean_answer (C:=C) ean w), (n + k)%nat)).
Proof.
  unfold ean_answer, _search_ean, traced, bind, lift, request.
  destruct (Url.quote ean) as [q|e]; cbn [fst snd].
  - exists 1%nat. split; [lia|].
    cbn [http_get_json counting fst snd].
    destruct (http_get_json _ w) as [r w']. cbn [fst snd]. do 3 f_equal. lia.
  - exists 0%nat. split; [lia|]. cbn [fst snd]. do 3 f_equal. lia.
Qed.

(** X4. Requests of one resolution.  Counting the requests that the
    catalog serves changes nothing else: result, world and trace are
    those of the catalog without the counter; and [_consultar] makes at
    most three requests. *)
Theorem consultar_pedidos termo nome_ref (w : W) (n : nat) tr :
  let r := _consultar (C:=counting C) termo nome_ref ((w, n), tr) in
  let r0 := _consultar (C:=C) termo nome_ref (w, tr) in
  fst r = fst r0 /\
  fst (fst (snd r)) = fst (snd r0) /\
  snd (snd r) = snd (snd r0) /\
  (n <= snd (fst (snd r)) <= n + 3)%nat.
Proof.
  cbv zeta.
  rewrite (consultar_run (C:=C)), (consultar_run (C:=counting C)). cbv zeta.
  set (t := Str.strip termo). set (t2 := _term_simplify t).
  destruct (counting_term_answer t 0 19 w n) as (k1 & Hk1 & ->).
  cbn [fst snd].
  set (a1 := term_answer t 0 19 w).
  destruct (counting_ean_answer t (snd a1) (n + k1)) as (k2 & Hk2 & ->).
  cbn [fst snd].
  set (a2 := ean_answer t (snd a1)).
  set (code := no_candidates (fst a1) && isdigit t && (8 <=? Str.len t)).
  destruct code.
  - destruct (counting_term_answer t2 0 19 (snd a2) (n + k1 + k2))
      as (k3 & Hk3 & ->).
    cbn [fst snd].
    destruct (negb (truthy (candidates (fst a2))) && negb (Str.eqb t2 t));
      cbn [fst snd]; repeat split; lia.
  - destruct (counting_term_answer t2 0 19 (snd a1) (n + k1))
      as (k3 & Hk3 & ->).
    cbn [fst snd].
    destruct (negb (truthy (candidates (fst a1))) && negb (Str.eqb t2 t));
      cbn [fst snd]; repeat split; lia.
Qed.

End Pedidos.

(** ** The single lookup *)

Section Busca.
Context {rt : Runtime} {W : Type} {C : Catalog W}.

Lemma buscar_registro (q p l c o : pystr) :
  let dados := dict [(u "Preco", p); (u "Link", l); (u "Classificacao", c);
                     (u "Observacao", o)] in
  ({[ u "EAN" := JStr (if isdigit q then q else []);
      u "NOME" := JStr q;
      u "Preco" := from_option id (JStr NAO_ENCONTRADO) (dados !! u "Preco");
      u "Link" := from_option id (JStr []) (dados !! u "Link");
      u "Classificacao" :=
        from_option id (JStr TRAVESSAO) (dados !! u "Classificacao");
      u "Observacao" :=
        from_option id (JStr TRAVESSAO) (dados !! u "Observacao") ]}
   : gmap pystr json) =
  registro (if isdigit q then q else []) q p l c o.
Proof. cbv zeta. generalize (if isdigit q then q else []). intros e. by vm_compute. Qed.

(** X5. The single lookup.  [buscar_item] resolves the query as it is
    given, as term and as reference, and always searches, whatever the
    query.  An exception of the resolution is not contained: it is raised
    to the caller.  Otherwise the answer is one record: the four fields of
    the result, [NOME] the query itself, and [EAN] the query when it is all
    digits, empty otherwise. *)
Theorem buscar_item_spec q (st : state W) :
  snd (buscar_item q st) = snd (_consultar q q st) /\
  (exists ss, snd (snd (buscar_item q st)) = snd st ++ ss /\
              (1 <= length ss)%nat) /\
  (forall e, fst (_consultar q q st) = Raise e -> fst (buscar_item q st) = Raise e) /\
  (forall d, fst (_consultar q q st) = Ret d ->
     exists p l c o,
       d = dict [(u "Preco", p); (u "Link", l); (u "Classificacao", c);
                 (u "Observacao", o)] /\
       fst (buscar_item q st) =
         Ret [registro (if isdigit q then q else []) q p l c o]).
Proof.
  assert (Hst : snd (buscar_item q st) = snd (_consultar q q st)).
  { unfold buscar_item, bind, ret.
    by destruct (_consultar q q st) as [[d|e] st']. }
  split; [exact Hst|]. split; [|split].
  - rewrite Hst. destruct (consultar_trace q q st) as (ss & Hs & _ & Hl).
    exists ss. split; [done|lia].
  - intros e He. unfold buscar_item, bind.
    destruct (_consultar q q st) as [[d|e'] st']; cbn [fst] in *; congruence.
  - intros d Hd.
    destruct (shape_is_dict4 d (consultar_shape _ _ _ _ Hd)) as (p & l & c & o & ->).
    exists p, l, c, o. split; [done|].
    unfold buscar_item, bind, ret.
    destruct (_consultar q q st) as [[d'|e'] st']; cbn [fst] in *; [|done].
    injection Hd as ->. by rewrite buscar_registro.
Qed.

End Busca.

(** ** Extraction of the price *)

Lemma ordinary_preco_no_catalogo p : ordinary (preco_no_catalogo p).
Proof.
  unfold preco_no_catalogo.
  repeat first [ apply ordinary_py_item | apply ordinary_py_item0
               | apply ordinary_py_get | ordinary_step ].
Qed.

Section Preco.
Context {rt : Runtime}.

(** X6. [_price_from_product] never raises.  It gives 0.0 when the path
    items[0].sellers[0].commertialOffer.Price cannot be followed (a key
    is missing, a list is empty, a value has the wrong type) and when the
    price is null or zero; it gives the price when the catalog has a float
    that is not zero. *)
Theorem price_from_product_cases p :
  (exists f, _price_from_product p = Ret f) /\
  (forall e, preco_no_catalogo p = Raise e ->
             _price_from_product p = Ret Float.zero) /\
  (forall v, preco_no_catalogo p = Ret v -> truthy v = false ->
             _price_from_product p = Ret Float.zero) /\
  (forall f, preco_no_catalogo p = Ret (JFloat f) ->
             truthy (JFloat f) = true ->
             _price_from_product p = Ret f).
Proof.
  split; [apply price_from_product_total|].
  rewrite price_from_product_path. split; [|split].
  - intros e He. rewrite He. cbn [obind try_except].
    by rewrite (ordinary_preco_no_catalogo p e He).
  - intros v Hv Hf. rewrite Hv. cbn [obind]. unfold py_or. rewrite Hf.
    reflexivity.
  - intros f Hv Ht. rewrite Hv. cbn [obind]. unfold py_or. rewrite Ht.
    reflexivity.
Qed.

End Preco.

(** ** The price in reais *)

Lemma replace1_app old new a b :
  Str.replace1 old new (a ++ b) = Str.replace1 old new a ++ Str.replace1 old new b.
Proof. unfold Str.replace1. by rewrite map_app, concat_app. Qed.

Lemma replace1_absent old new s :
  Forall (fun c => c <> old) s -> Str.replace1 old new s = s.
Proof.
  unfold Str.replace1. induction 1 as [|c s Hc _ IH]; simpl; [done|].
  apply N.eqb_neq in Hc. rewrite Hc. simpl. by rewrite IH.
Qed.

Lemma troca_app a b : troca (a ++ b) = troca a ++ troca b.
Proof. unfold troca. by rewrite !replace1_app. Qed.

Lemma troca_livre s :
  Forall (fun c => c <> 44 /\ c <> 46 /\ c <> 88)%N s -> troca s = s.
Proof.
  intros Hs. unfold troca.
  rewrite (replace1_absent 44 _ s), (replace1_absent 46 _ s),
    (replace1_absent 88 _ s); [done|..];
    (eapply Forall_impl; [exact Hs|]; intros c (? & ? & ?); done).
Qed.

Lemma troca_digits s : Forall is_digit_char s -> troca s = s.
Proof.
  intros Hs. apply troca_livre. eapply Forall_impl; [exact Hs|].
  unfold is_digit_char. intros c Hc. lia.
Qed.

Lemma digits_fuel_digits fuel n acc :
  Forall is_digit_char acc -> Forall is_digit_char (Str.digits_fuel fuel n acc).
Proof.
  revert n acc. induction fuel as [|f IH]; intros n acc Hacc; simpl; [done|].
  assert (Hd : is_digit_char (48 + n mod 10)%N).
  { unfold is_digit_char. pose proof (N.mod_upper_bound n 10 ltac:(lia)).
    set (x := (n mod 10)%N) in *. clearbody x. lia. }
  destruct (n <? 10)%N; [by constructor|]. apply IH. by constructor.
Qed.

Lemma of_N_digits n : Forall is_digit_char (Str.of_N n).
Proof. apply digits_fuel_digits. constructor. Qed.

Lemma two_digits_digits n : (n < 100)%N -> Forall is_digit_char (Float.two_digits n).
Proof.
  intros Hn. unfold Float.two_digits, is_digit_char.
  pose proof (N.mod_upper_bound n 10 ltac:(lia)).
  assert (n / 10 < 10)%N by (apply N.Div0.div_lt_upper_bound; lia).
  set (x := (n mod 10)%N) in *. set (y := (n / 10)%N) in *. clearbody x y.
  repeat constructor; lia.
Qed.

Lemma troca_group3 ds :
  Forall is_digit_char ds ->
  troca (Float.group3 (u ",") ds) = Float.group3 (u ".") ds.
Proof.
  remember (length ds) as n eqn:Hn. revert ds Hn.
  induction n as [n IH] using lt_wf_ind. intros ds Hn Hds.
  destruct ds as [|a [|b [|c [|d r]]]];
    [ exact (troca_digits (rev []) (Forall_rev Hds))
    | exact (troca_digits (rev [a]) (Forall_rev Hds))
    | exact (troca_digits (rev [a; b]) (Forall_rev Hds))
    | exact (troca_digits (rev [a; b; c]) (Forall_rev Hds))
    | ].
  change (Float.group3 (u ",") (a :: b :: c :: d :: r))
    with (Float.group3 (u ",") (d :: r) ++ u "," ++ [c; b; a]).
  change (Float.group3 (u ".") (a :: b :: c :: d :: r))
    with (Float.group3 (u ".") (d :: r) ++ u "." ++ [c; b; a]).
  rewrite !troca_app.
  inversion Hds as [|? ? Ha H1]; subst. inversion H1 as [|? ? Hb H2]; subst.
  inversion H2 as [|? ? Hc H3]; subst.
  rewrite (IH (length (d :: r))); [|simpl; lia|done|done].
  rewrite (troca_digits [c; b; a])
    by (repeat (constructor; [assumption|]); constructor).
  reflexivity.
Qed.

Lemma troca_formato x : troca (Float.format_comma_2f x) = formato_br x.
Proof.
  destruct x as [s|s| |s m e]; cbn [Float.format_comma_2f formato_br].
  - destruct s; by vm_compute.
  - destruct s; by vm_compute.
  - by vm_compute.
  - rewrite !troca_app.
    rewrite troca_group3 by (apply Forall_rev, of_N_digits).
    rewrite (troca_digits (Float.two_digits _))
      by (apply two_digits_digits, N.mod_upper_bound; lia).
    destruct s; reflexivity.
Qed.

Lemma hundredths_nearest m e :
  let c := Z.of_N (Float.hundredths m e) in
  (0 <= e -> c = 100 * Z.pos m * 2 ^ e) /\
  (e < 0 ->
   Z.abs (2 * (100 * Z.pos m - c * 2 ^ (- e))) <= 2 ^ (- e) /\
   (Z.abs (2 * (100 * Z.pos m - c * 2 ^ (- e))) = 2 ^ (- e) -> Z.even c = true)).
Proof.
  cbv zeta. unfold Float.hundredths. split.
  - intros He. apply Z.leb_le in He as He'. rewrite He'.
    rewrite !N2Z.inj_mul, N2Z.inj_pow, Z2N.id by done. reflexivity.
  - intros He. assert (He' : (0 <=? e) = false) by (apply Z.leb_gt; lia).
    rewrite He'.
    set (q := (100 * N.pos m)%N). set (d := (2 ^ Z.to_N (- e))%N).
    assert (Hd : (0 < d)%N).
    { unfold d. apply N.neq_0_lt_0. by apply N.pow_nonzero. }
    assert (HdZ : Z.of_N d = 2 ^ (- e)).
    { unfold d. rewrite N2Z.inj_pow, Z2N.id by lia. reflexivity. }
    assert (HqZ : Z.of_N q = 100 * Z.pos m) by (unfold q; lia).
    pose proof (N.div_mod q d ltac:(lia)) as Hdm.
    pose proof (N.mod_upper_bound q d ltac:(lia)) as Hr.
    rewrite <- HdZ, <- HqZ.
    set (c0 := (q / d)%N) in *. set (r := (q mod d)%N) in *.
    clearbody c0 r. clearbody q d.
    assert (Hq : Z.of_N q = Z.of_N d * Z.of_N c0 + Z.of_N r) by lia.
    assert (Hlow : 2 * (Z.of_N q - Z.of_N c0 * Z.of_N d) = 2 * Z.of_N r) by lia.
    assert (Hhigh : 2 * (Z.of_N q - Z.of_N (c0 + 1) * Z.of_N d) =
                    - (2 * Z.of_N d - 2 * Z.of_N r)) by lia.
    assert (Hodd : N.even c0 = false -> Z.even (Z.of_N (c0 + 1)) = true).
    { intros Hev. destruct c0 as [|p]; [done|]. by destruct p. }
    assert (Heven : N.even c0 = true -> Z.even (Z.of_N c0) = true).
    { intros Hev. destruct c0 as [|p]; [done|]. by destruct p. }
    destruct (N.compare_spec (2 * r) d) as [Hcmp|Hcmp|Hcmp].
    + destruct (N.even c0) eqn:Hev.
      * rewrite Hlow, Z.abs_eq by lia. split; [lia|]. intros _. by apply Heven.
      * rewrite Hhigh, Z.abs_opp, Z.abs_eq by lia. split; [lia|].
        intros _. by apply Hodd.
    + rewrite Hlow, Z.abs_eq by lia. split; [lia | intros ?; exfalso; lia].
    + rewrite Hhigh, Z.abs_opp, Z.abs_eq by lia.
      split; [lia | intros ?; exfalso; lia].
Qed.

(** X7. [_preco_br] never raises.  It gives the not-found sentinel exactly
    when [float(v)] raises; otherwise "R$ " and the amount as it is
    written in Brazil, rounded to the cent: the three replacements swap
    the comma of the groups and the point of the decimals, and touch
    nothing else. *)
Theorem preco_br_spec {rt : Runtime} (v : json) :
  _preco_br v =
  Ret (match py_float v with
       | Ret x => u "R$ " ++ formato_br x
       | Raise _ => NAO_ENCONTRADO
       end).
Proof.
  unfold _preco_br. pose proof (ordinary_py_float v) as Hord.
  destruct (py_float v) as [x|e]; cbn [obind try_except].
  - fold (troca (Float.format_comma_2f x)). by rewrite troca_formato.
  - by rewrite (Hord e eq_refl).
Qed.

(** ** Cleaning of the cells *)

Lemma lstrip_by_head p s :
  lstrip_by p s = [] \/ exists c r, lstrip_by p s = c :: r /\ p c = false.
Proof.
  induction s as [|c s IH]; simpl; [by left|].
  destruct (p c) eqn:Hc; [exact IH|]. right. by exists c, s.
Qed.

Lemma lstrip_by_keep p c s : p c = false -> lstrip_by p (c :: s) = c :: s.
Proof. intros Hc. simpl. by rewrite Hc. Qed.

Lemma lstrip_by_idem p s : lstrip_by p (lstrip_by p s) = lstrip_by p s.
Proof.
  destruct (lstrip_by_head p s) as [->|(c & r & -> & Hc)]; [done|].
  by apply lstrip_by_keep.
Qed.

Lemma lstrip_by_snoc p s c :
  p c = false -> lstrip_by p (s ++ [c]) = lstrip_by p s ++ [c].
Proof.
  intros Hc. induction s as [|x s IH]; simpl; [by rewrite Hc|].
  by destruct (p x).
Qed.

Lemma rstrip_by_cons p c s : p c = false -> rstrip_by p (c :: s) = c :: rstrip_by p s.
Proof.
  intros Hc. unfold rstrip_by. simpl.
  by rewrite lstrip_by_snoc, rev_app_distr.
Qed.

Lemma rstrip_by_idem p s : rstrip_by p (rstrip_by p s) = rstrip_by p s.
Proof. unfold rstrip_by. by rewrite rev_involutive, lstrip_by_idem. Qed.

Lemma strip_by_idem p s : strip_by p (strip_by p s) = strip_by p s.
Proof.
  unfold strip_by.
  destruct (lstrip_by_head p s) as [->|(c & r & -> & Hc)]; [done|].
  rewrite (rstrip_by_cons p c r Hc), (lstrip_by_keep p c _ Hc).
  by rewrite (rstrip_by_cons p c _ Hc), rstrip_by_idem.
Qed.

(** X8. [_limpa] is a normalisation: cleaning what is clean changes
    nothing, the text it gives has no white space around it, and a text
    that is not empty is the cell's own text, stripped; [None], blank
    cells and the texts "nan" and "none", in any case, give the empty
    text. *)
Theorem limpa_normaliza {rt : Runtime} (v : cell) :
  _limpa (Some (_limpa v)) = _limpa v /\
  Str.strip (_limpa v) = _limpa v /\
  (_limpa v <> [] ->
   exists sv, v = Some sv /\ _limpa v = Str.strip sv /\
              uc_lower (Str.strip sv) ∉ [u "nan"; u "none"]).
Proof.
  assert (Hnil : _limpa (Some []) = []).
  { unfold _limpa. change (Str.strip []) with (@nil N). by case_bool_decide. }
  destruct v as [sv|]; cycle 1.
  { split; [exact Hnil|]. split; [reflexivity|]. intros H. by destruct H. }
  assert (Hv : _limpa (Some sv) =
               if bool_decide (uc_lower (Str.strip sv) ∈ [u "nan"; u "none"])
               then [] else Str.strip sv) by reflexivity.
  rewrite Hv. case_bool_decide as Hin.
  - split; [exact Hnil|]. split; [reflexivity|]. intros H. by destruct H.
  - assert (Hs : Str.strip (Str.strip sv) = Str.strip sv)
      by (unfold Str.strip; by rewrite strip_by_idem).
    split; [|split].
    + unfold _limpa. rewrite Hs. by rewrite bool_decide_eq_false_2.
    + exact Hs.
    + intros _. by exists sv.
Qed.

(** ** The classification *)

Section Classificacao.
Context {rt : Runtime}.

Lemma arvore_nomes nodes names :
  nos_com_nomes nodes names ->
  map node_name (List.filter (fun n => is_dict n && truthy (node_name n)) nodes) =
  map JStr (List.filter (fun n => negb (bool_decide (n = []))) names).
Proof.
  induction 1 as [|node n nodes names [Hd Hn] _ IH]; simpl; [done|].
  rewrite Hd, Hn. simpl.
  destruct n as [|c n]; simpl; [exact IH|]. by rewrite Hn, IH.
Qed.

Lemma omap_strip (f : pystr -> bool) (l : list pystr) :
  omap (fun n => let! s := str_method "strip" n in Ret (s, f s)) (map JStr l) =
  Ret (map (fun s => (s, f s)) l).
Proof. induction l as [|s l IH]; simpl; [done|]. by rewrite IH. Qed.

Lemma filter_by_snd (f : pystr -> bool) (l : list pystr) :
  map fst (List.filter snd (map (fun s => (s, f s)) l)) = List.filter f l.
Proof.
  induction l as [|s l IH]; simpl; [done|].
  destruct (f s); simpl; by rewrite IH.
Qed.

(** X9. The category tree comes first.  When the nodes of [categoryTree]
    bear names, the classification is made of the names that are not
    empty and are not the home segment (whatever its case and the blanks
    around it), as they are, joined with " > "; [categories] is not
    read. *)
Theorem breadcrumb_arvore p nodes names :
  py_get p (u "categoryTree") JNull = Ret (JArr nodes) ->
  nos_com_nomes nodes names ->
  List.filter (fun n => negb (Str.eqb (uc_lower (Str.strip n)) INICIO))
    (List.filter (fun n => negb (bool_decide (n = []))) names) <> [] ->
  _breadcrumb p =
  Ret (Str.join (u " > ")
         (List.filter (fun n => negb (Str.eqb (uc_lower (Str.strip n)) INICIO))
            (List.filter (fun n => negb (bool_decide (n = []))) names))).
Proof.
  intros Htree Hnodes Hkept. unfold _breadcrumb. rewrite Htree. cbn [obind].
  destruct nodes as [|node nodes].
  { inversion Hnodes; subst. by destruct Hkept. }
  cbv zeta. rewrite (arvore_nomes (node :: nodes) names Hnodes).
  rewrite (omap_strip
             (fun s => negb (Str.eqb (uc_lower (Str.strip s)) INICIO))).
  cbn [obind].
  rewrite (filter_by_snd
             (fun s => negb (Str.eqb (uc_lower (Str.strip s)) INICIO))).
  match type of Hkept with
  | ?kept <> [] => destruct kept as [|n ns]; [by destruct Hkept|]
  end.
  reflexivity.
Qed.

End Classificacao.

(** ** The addresses requested *)








Section Enderecos.
Context {W : Type} {C : Catalog W}.


End Enderecos.

(** ** A product without a name *)

Section NomeNulo.
Context {rt : Runtime} {W : Type} {C : Catalog W}.

Lemma score_nome_nulo tokens p : nome_nulo p -> score tokens p = Raise SEM_LEN.
Proof.
  intros (m & -> & Hm). unfold score, py_get. rewrite Hm.
  cbn [from_option id obind].
  change (py_or JNull (JStr [])) with (JStr []). cbn [str_method obind].
  rewrite omap_Ret. reflexivity.
Qed.

Lemma candidate_nome_nulo p : candidate p -> nome_nulo p -> False.
Proof.
  intros Hc (m & -> & Hm). unfold candidate, is_candidate in Hc.
  rewrite Hm in Hc. discriminate.
Qed.

Lemma scores_nome_nulo ref l :
  Forall (fun p => candidate p \/ nome_nulo p) l ->
  Exists nome_nulo l ->
  omap (score (tokens_of ref)) l = Raise SEM_LEN.
Proof.
  induction 1 as [|p l [Hc|Hn] _ IH]; intros Hex.
  - inversion Hex.
  - simpl. rewrite (score_candidate ref p Hc).
    inversion Hex as [? ? Hp|? ? Hl]; subst.
    + destruct (candidate_nome_nulo p Hc Hp).
    + by rewrite (IH Hl).
  - simpl. by rewrite (score_nome_nulo _ p Hn).
Qed.

(** X11. One product whose name is [null] among the candidates makes the
    scorer raise [TypeError], whatever the other candidates and the
    reference are: the product is not skipped.  The resolution does not
    contain the error: when the search by term answers with such a list,
    [_consultar] raises after that one search. *)
Theorem consultar_nome_nulo termo nome_ref (st : state W) (l : list json) :
  Forall (fun p => candidate p \/ nome_nulo p) l ->
  Exists nome_nulo l ->
  (forall ref, _best_match (JArr l) ref = Raise SEM_LEN) /\
  (fst (term_answer (Str.strip termo) 0 19 (fst st)) = Ret (JArr l) ->
   _consultar termo nome_ref st =
   (Raise SEM_LEN,
    (snd (term_answer (Str.strip termo) 0 19 (fst st)),
     snd st ++ [EvSearchTerm (Str.strip termo) 0 19 (Ret (JArr l))]))).
Proof.
  intros Hl Hex.
  assert (Hne : truthy (JArr l) = true).
  { destruct l; [inversion Hex|done]. }
  assert (Hbest : forall ref, _best_match (JArr l) ref = Raise SEM_LEN).
  { intros ref. unfold _best_match. rewrite Hne. cbn [negb py_iter obind].
    by rewrite (scores_nome_nulo ref l Hl Hex). }
  split; [exact Hbest|].
  intros Hans. destruct st as [w tr]. cbn [fst snd] in *.
  rewrite consultar_run. cbv zeta. rewrite Hans.
  unfold no_candidates, extrair. cbn [candidates].
  repeat (rewrite !Hne; cbn [negb andb]).
  rewrite Hbest. cbn [obind]. by rewrite app_nil_r.
Qed.

End NomeNulo.

(** ** Rows with a Code only, or a Name only *)

Section UmaTentativa.
Context {rt : Runtime} {W : Type} {C : Catalog W}.

Lemma contido_truthy termo nome_ref (st : state W) :
  dict_truthy (contido (fst (_consultar termo nome_ref st))) = true.
Proof.
  destruct (shape_is_dict4 _ (contido_consultar_shape termo nome_ref st))
    as (p & l & c & o & ->).
  apply dict4_truthy.
Qed.

(** X12. A row with a Code and no Name is resolved once, by the Code,
    the Code being the reference too; whatever comes of it, a product,
    a not-found result or an error, is the row, and the row's [NOME] is
    the Code.  A row with a Name and no Code is resolved once, by the
    Name, and its [EAN] is empty. *)
Theorem linha_uma_tentativa cols row (st : state W) :
  let ean := row_ean cols row in
  let nome := row_nome cols row in
  (ean <> [] -> nome = [] ->
   processar_linha cols row st =
   (Ret (contido (fst (_consultar ean ean st))
           ∪ dict [(u "EAN", ean); (u "NOME", ean)]),
    (fst (snd (_consultar ean ean st)),
     snd (snd (_consultar ean ean st)) ++ [EvSleep PAUSA]))) /\
  (ean = [] -> nome <> [] ->
   processar_linha cols row st =
   (Ret (contido (fst (_consultar nome nome st))
           ∪ dict [(u "EAN", []); (u "NOME", nome)]),
    (fst (snd (_consultar nome nome st)),
     snd (snd (_consultar nome nome st)) ++ [EvSleep PAUSA]))).
Proof.
  intros ean nome.
  assert (Hrun := linha_run cols row st). cbv zeta in Hrun.
  fold ean nome in Hrun. unfold pelo_ean in Hrun.
  split; intros He Hn.
  - rewrite Hn in Hrun. rewrite !str_or_nil_r, !str_or_nil_l in Hrun.
    rewrite (bool_decide_eq_false_2 (ean = [])) in Hrun by done.
    change (bool_decide (@nil N = [])) with true in Hrun.
    cbn [negb fst snd] in Hrun.
    rewrite contido_truthy in Hrun. cbn [negb] in Hrun.
    rewrite Hrun. by destruct (retenta _).
  - rewrite He in Hrun. rewrite !str_or_nil_l in Hrun.
    rewrite (bool_decide_eq_false_2 (nome = [])) in Hrun by done.
    change (bool_decide (@nil N = [])) with true in Hrun.
    cbn [negb fst snd] in Hrun.
    assert (Hnn : str_or nome nome = nome) by (unfold str_or; by case_bool_decide).
    rewrite Hnn in Hrun.
    change (retenta ∅) with true in Hrun. cbv iota in Hrun. exact Hrun.
Qed.

End UmaTentativa.

(** ** The web application *)

Section ResolverFacts.
Context {rt : Runtime} {O : Type} (callable : O -> bool).

Lemma por_nome_Some attrs nome f :
  por_nome callable attrs nome = Some f ->
  exists a, In (a, f) attrs /\ nomeia callable nome (a, f).
Proof.
  induction attrs as [|[a o] attrs IH]; simpl; [discriminate|].
  destruct (callable o) eqn:Hc; simpl.
  - destruct (Str.eqb (uc_lower a) (uc_lower nome)) eqn:He.
    + intros [= <-]. exists a. split; [by left|].
      split; [exact Hc|]. by apply bool_decide_eq_true in He.
    + intros H. destruct (IH H) as (a' & Hin & Hn). exists a'. split; [by right|done].
  - intros H. destruct (IH H) as (a' & Hin & Hn). exists a'. split; [by right|done].
Qed.

Lemma por_nome_None attrs nome :
  Forall (fun attr => ~ nomeia callable nome attr) attrs ->
  por_nome callable attrs nome = None.
Proof.
  induction 1 as [|[a o] attrs Hn _ IH]; simpl; [done|].
  destruct (callable o) eqn:Hc; simpl; [|exact IH].
  destruct (Str.eqb (uc_lower a) (uc_lower nome)) eqn:He; [|exact IH].
  apply bool_decide_eq_true in He. destruct Hn. by split.
Qed.

Lemma por_nome_first before a f after nome :
  nomeia callable nome (a, f) ->
  Forall (fun attr => ~ nomeia callable nome attr) before ->
  por_nome callable (before ++ (a, f) :: after) nome = Some f.
Proof.
  intros [Hc Hn]. simpl in Hc, Hn.
  induction 1 as [|[a' o] before Hno _ IH]; simpl.
  - rewrite Hc. simpl. unfold Str.eqb. by rewrite bool_decide_eq_true_2.
  - destruct (callable o) eqn:Hc'; simpl; [|exact IH].
    destruct (Str.eqb (uc_lower a') (uc_lower nome)) eqn:He; [|exact IH].
    apply bool_decide_eq_true in He. destruct Hno. by split.
Qed.

Lemma por_candidatos_Some attrs candidatos f :
  por_candidatos callable attrs candidatos = Some f ->
  exists a nome, In (a, f) attrs /\ In nome candidatos /\
                 nomeia callable nome (a, f).
Proof.
  induction candidatos as [|nome r IH]; simpl; [discriminate|].
  destruct (por_nome callable attrs nome) as [o|] eqn:Hn.
  - intros [= <-]. destruct (por_nome_Some _ _ _ Hn) as (a & Hin & Ha).
    exists a, nome. split; [done|]. split; [by left|done].
  - intros H. destruct (IH H) as (a & nome' & Hin & Hc & Ha).
    exists a, nome'. split; [done|]. split; [by right|done].
Qed.

Lemma por_candidatos_None attrs candidatos :
  por_candidatos callable attrs candidatos = None ->
  Forall (fun nome => Forall (fun attr => ~ nomeia callable nome attr) attrs)
         candidatos.
Proof.
  induction candidatos as [|nome r IH]; simpl; [constructor|].
  destruct (por_nome callable attrs nome) as [o|] eqn:Hn; [discriminate|].
  intros H. constructor; [|by apply IH].
  apply Forall_forall. intros [a o] Hin Hnom.
  apply list_elem_of_split in Hin as (before & after & ->).
  clear IH H. revert Hn. induction before as [|[a' o'] before IH]; simpl.
  - destruct Hnom as [Hc He]. simpl in Hc, He. rewrite Hc. simpl.
    unfold Str.eqb. by rewrite bool_decide_eq_true_2.
  - destruct (callable o'); simpl; [|exact IH].
    destruct (Str.eqb (uc_lower a') (uc_lower nome)); [discriminate|exact IH].
Qed.

Lemma por_heuristica_Some attrs subs f :
  por_heuristica callable attrs subs = Some f ->
  exists a, In (a, f) attrs /\ sugere callable subs (a, f).
Proof.
  induction attrs as [|[a o] attrs IH]; simpl; [discriminate|].
  destruct (callable o) eqn:Hc; simpl.
  - destruct (existsb _ subs) eqn:He.
    + intros [= <-]. exists a. split; [by left|].
      split; [exact Hc|]. apply existsb_exists in He. exact He.
    + intros H. destruct (IH H) as (a' & Hin & Hn). exists a'. split; [by right|done].
  - intros H. destruct (IH H) as (a' & Hin & Hn). exists a'. split; [by right|done].
Qed.

(** X13. The resolution of a function of the module by name.  What
    [_resolver_funcao] returns is a callable attribute of the module that
    a candidate names, case apart, or else one whose name contains a
    substring of the heuristic.  The candidates go first, in their own
    order: when a candidate names a callable attribute and none of the
    candidates before it does, the result is the first attribute it names,
    whatever the order of the module and whatever the heuristic.  It
    raises only when no candidate names a callable attribute, and the
    message lists the candidates. *)
Theorem resolver_funcao_spec (modulo : list (pystr * O))
    (candidatos : list pystr) (papel : pystr) (h : option (list pystr)) :
  (forall f,
     _resolver_funcao callable modulo candidatos papel h = Ret f ->
     exists a, In (a, f) modulo /\
       ((exists nome, In nome candidatos /\ nomeia callable nome (a, f)) \/
        (exists subs, h = Some subs /\ sugere callable subs (a, f)))) /\
  (forall pre nome pos before a f after,
     candidatos = pre ++ nome :: pos ->
     modulo = before ++ (a, f) :: after ->
     nomeia callable nome (a, f) ->
     Forall (fun c => Forall (fun attr => ~ nomeia callable c attr) modulo) pre ->
     Forall (fun attr => ~ nomeia callable nome attr) before ->
     _resolver_funcao callable modulo candidatos papel h = Ret f) /\
  (forall e,
     _resolver_funcao callable modulo candidatos papel h = Raise e ->
     Forall (fun c => Forall (fun attr => ~ nomeia callable c attr) modulo)
            candidatos /\
     exn_msg e = u "Não encontrei função para " ++ papel
                   ++ u " em rastrear_saojoao.py. Tentei: "
                   ++ Str.join (u ", ") candidatos).
Proof.
  unfold _resolver_funcao. split; [|split].
  - intros f.
    destruct (por_candidatos callable modulo candidatos) as [o|] eqn:Hc.
    + intros [= <-].
      destruct (por_candidatos_Some _ _ _ Hc) as (a & nome & Hin & Hn & Ha).
      exists a. split; [done|]. left. by exists nome.
    + destruct h as [[|sub subs]|]; [discriminate| |discriminate].
      destruct (por_heuristica callable modulo (sub :: subs)) as [o|] eqn:Hh;
        [|discriminate].
      intros [= <-]. destruct (por_heuristica_Some _ _ _ Hh) as (a & Hin & Ha).
      exists a. split; [done|]. right. by exists (sub :: subs).
  - intros pre nome pos before a f after -> -> Hn Hpre Hbefore.
    assert (Hc : por_candidatos callable (before ++ (a, f) :: after)
                   (pre ++ nome :: pos) = Some f).
    { induction Hpre as [|c pre Hcn _ IH]; simpl.
      - by rewrite (por_nome_first before a f after nome Hn Hbefore).
      - by rewrite (por_nome_None _ c Hcn). }
    by rewrite Hc.
  - intros e.
    destruct (por_candidatos callable modulo candidatos) as [o|] eqn:Hc;
      [discriminate|].
    intros He. split; [by apply por_candidatos_None|].
    destruct h as [[|sub subs]|]; [by injection He as <-| |by injection He as <-].
    destruct (por_heuristica callable modulo (sub :: subs)); [discriminate|].
    by injection He as <-.
Qed.

End ResolverFacts.

Section Respostas.
Context {rt : Runtime} {W : Type} {C : Catalog W}.

Lemma registro_records ean nome p l c o :
  list_to_map
    (zip COLUNAS
         (map (from_option id (JFloat S754_nan))
              (map (fun k => registro ean nome p l c o !! k) COLUNAS))) =
  registro ean nome p l c o.
Proof. vm_compute. reflexivity. Qed.

Lemma linhas_registros (cols : list pystr) (rs : list (list cell))
    (ds : list (gmap pystr json)) :
  Forall2 (fun row d => exists st0 st1 : state W,
             processar_linha cols row st0 = (Ret d, st1)) rs ds ->
  Forall (fun d => exists ean nome p l c o, d = registro ean nome p l c o) ds.
Proof.
  induction 1 as [|row d rs ds (st0 & st1 & Hrow) _ IH]; constructor; [|exact IH].
  destruct (linha_registro cols row st0) as (p & l & c & o & st' & Hreg).
  rewrite Hreg in Hrow. injection Hrow as <- _. by eexists _, _, _, _, _, _.
Qed.

Lemma records_registros (ds : list (gmap pystr json)) :
  Forall (fun d => exists ean nome p l c o, d = registro ean nome p l c o) ds ->
  to_dict_records (DataFrame ds COLUNAS) = map PDict ds.
Proof.
  unfold to_dict_records, DataFrame. cbn [out_rows out_columns].
  rewrite map_map.
  induction 1 as [|d ds (ean & nome & p & l & c & o & ->) _ IH]; [done|].
  rewrite !map_cons, IH, registro_records. reflexivity.
Qed.

(** X14. What the upload route answers.  The frame that
    [processar_dataframe] returns goes through [_normalize_result] without
    loss: the records it gives are the rows of the batch, one for each row
    of the spreadsheet and in its order, with their six fields. *)
Theorem normalize_result_lote df cols (st : state W) :
  colunas df = Ret cols ->
  exists ds st',
    processar_dataframe df st = (Ret (DataFrame ds COLUNAS), st') /\
    Forall2 (fun row d => exists st0 st1,
               processar_linha cols row st0 = (Ret d, st1)) (rows df) ds /\
    _normalize_result (PFrame (DataFrame ds COLUNAS)) = Ret (map PDict ds).
Proof.
  intros Hcols.
  destruct (processar_dataframe_run df cols st Hcols) as (ds & st' & Hrun & Hall).
  exists ds, st'. split; [exact Hrun|]. split; [exact Hall|].
  cbn [_normalize_result]. f_equal.
  apply records_registros. by eapply linhas_registros.
Qed.

Lemma linha_casos cols row (st st' : state W) d :
  processar_linha cols row st = (Ret d, st') ->
  exists d0 ean nome,
    d = d0 ∪ dict [(u "EAN", ean); (u "NOME", nome)] /\
    (achado d0 \/ exists obs, d0 = nao_encontrado obs).
Proof.
  rewrite linha_run. cbv zeta.
  set (ean := row_ean cols row). set (nome := row_nome cols row).
  assert (Hcont : forall t r (s : state W),
            achado (contido (fst (_consultar t r s))) \/
            exists obs, contido (fst (_consultar t r s)) = nao_encontrado obs).
  { intros t r s. destruct (fst (_consultar t r s)) as [d1|e] eqn:Er.
    - destruct (consultar_casos _ _ _ _ Er) as [->|[->|Ha]]; cbn [contido];
        [right; by eexists|right; by eexists|by left].
    - right. by eexists. }
  destruct (bool_decide (str_or ean nome = [])).
  { intros [= <- _]. exists (nao_encontrado (u "Linha vazia")), ean, nome.
    split; [|right; by eexists].
    unfold nao_encontrado. by rewrite registro_union. }
  intros [= <- _]. eexists _, ean, _. split; [reflexivity|].
  unfold pelo_ean. destruct (bool_decide (ean = [])); cbn [fst snd].
  - change (retenta ∅) with true. cbv iota.
    destruct (negb (bool_decide (nome = []))); cbn [fst]; [apply Hcont|].
    change (negb (dict_truthy ∅)) with true. cbv iota. cbn [fst].
    right. by eexists.
  - destruct (retenta _); cbn [fst]; [|apply Hcont].
    destruct (negb (bool_decide (nome = []))); cbn [fst]; [apply Hcont|].
    destruct (negb (dict_truthy _)); cbn [fst]; [right; by eexists|apply Hcont].
Qed.

Lemma mk_achado d ean nome :
  achado d ->
  exists valor slug,
    _mk (d ∪ dict [(u "EAN", ean); (u "NOME", nome)]) =
    HYPERLINK (BASE ++ u "/" ++ slug ++ u "/p") (u "R$ " ++ valor).
Proof.
  intros (valor & slug & cl & ->). exists valor, slug.
  vm_compute. reflexivity.
Qed.

Lemma mk_nao_encontrado obs ean nome :
  _mk (nao_encontrado obs ∪ dict [(u "EAN", ean); (u "NOME", nome)]) =
  NAO_ENCONTRADO.
Proof. vm_compute. reflexivity. Qed.

(** X15. The price cell of the spreadsheet.  For a row of the batch,
    and for the record of a single lookup, [_mk] gives either the plain
    text "Produto não encontrado", when nothing was found, or a
    [HYPERLINK] formula whose target is the product's page under the
    shop's address and whose label is the price in reais. *)
Theorem celula_preco (d : gmap pystr json) :
  (exists cols row (st st' : state W),
     processar_linha cols row st = (Ret d, st')) \/
  (exists q (st : state W), fst (buscar_item q st) = Ret [d]) ->
  _mk d = NAO_ENCONTRADO \/
  exists valor slug,
    _mk d =
    HYPERLINK (BASE ++ u "/" ++ slug ++ u "/p") (u "R$ " ++ valor).
Proof.
  intros [(cols & row & st & st' & Hrow)|(q & st & Hq)].
  - destruct (linha_casos _ _ _ _ _ Hrow) as (d0 & ean & nome & -> & [Ha|[obs ->]]).
    + right. by apply mk_achado.
    + left. apply mk_nao_encontrado.
  - unfold buscar_item, bind, ret in Hq.
    destruct (_consultar q q st) as [[d0|e] st'] eqn:Er; [|discriminate].
    cbn [fst] in Hq. injection Hq as <-.
    assert (Er' : fst (_consultar q q st) = Ret d0) by (by rewrite Er).
    destruct (consultar_casos _ _ _ _ Er') as [->|[->|(valor & slug & cl & ->)]].
    + left. vm_compute. reflexivity.
    + left. vm_compute. reflexivity.
    + right. exists valor, slug. vm_compute. reflexivity.
Qed.

End Respostas.

(** ** The simplified term *)

Lemma lstrip_by_app_keep p (l1 l2 : pystr) :
  lstrip_by p l1 <> [] -> lstrip_by p (l1 ++ l2) = lstrip_by p l1 ++ l2.
Proof.
  induction l1 as [|c l1 IH]; simpl; [done|].
  destruct (p c); [exact IH|done].
Qed.

Lemma lstrip_by_app_all p (l1 l2 : pystr) :
  forallb p l1 = true -> lstrip_by p (l1 ++ l2) = lstrip_by p l2.
Proof.
  induction l1 as [|c l1 IH]; simpl; [done|].
  destruct (p c); [exact IH|done].
Qed.

Lemma rstrip_by_app_keep p (a b : pystr) :
  rstrip_by p b <> [] -> rstrip_by p (a ++ b) = a ++ rstrip_by p b.
Proof.
  unfold rstrip_by. intros Hb. rewrite rev_app_distr.
  rewrite lstrip_by_app_keep.
  - by rewrite rev_app_distr, rev_involutive.
  - intros Hnil. apply Hb. by rewrite Hnil.
Qed.

Lemma forallb_rev_true {A} (p : A -> bool) (l : list A) :
  forallb p l = true -> forallb p (rev l) = true.
Proof.
  induction l as [|x l IH]; simpl; [done|].
  intros [Hx Hl]%andb_true_iff. by rewrite forallb_app, IH; simpl; rewrite ?Hx.
Qed.

Lemma rstrip_by_app_all p (a b : pystr) :
  forallb p b = true -> rstrip_by p (a ++ b) = rstrip_by p a.
Proof.
  unfold rstrip_by. intros Hb. rewrite rev_app_distr.
  rewrite lstrip_by_app_all; [done|]. by apply forallb_rev_true.
Qed.

Lemma rstrip_by_rev_keep p c (cur : pystr) :
  p c = false -> rstrip_by p (rev (c :: cur)) = rev (c :: cur).
Proof.
  intros Hc. unfold rstrip_by. rewrite rev_involutive.
  by rewrite lstrip_by_keep.
Qed.

Lemma lstrip_by_length p (s : pystr) : (length (lstrip_by p s) <= length s)%nat.
Proof.
  induction s as [|c s IH]; simpl; [lia|]. destruct (p c); simpl; lia.
Qed.

Lemma words_from_lstrip s :
  words_from [] s = words_from [] (lstrip_by isspace s).
Proof.
  induction s as [|c s IH]; simpl; [done|].
  destruct (isspace c) eqn:Hc; [exact IH|]. simpl. by rewrite Hc.
Qed.

Lemma words_from_cons c cur s : words_from (c :: cur) s <> [].
Proof.
  revert c cur. induction s as [|x s IH]; intros c cur; simpl; [done|].
  destruct (isspace x); [done|apply IH].
Qed.

Lemma join_cons sep (p : pystr) ps :
  ps <> [] -> join sep (p :: ps) = p ++ sep ++ join sep ps.
Proof. by destruct ps. Qed.

Section Simplificacao.
Context {rt : Runtime}.

(** A pattern that starts with [\b\d+] matches nowhere but before a
    decimal digit. *)
Lemma rmatch_digits_none {R} rest prev (s : pystr) (k : option N -> pystr -> option R) :
  match s with x :: _ => uc_isdecimal x = false | [] => True end ->
  rmatch (RSeq RWordB (RSeq (RPlus RDigit) rest)) prev s k = None.
Proof.
  intros Hs. cbn [rmatch]. destruct (xorb _ _); [|done].
  destruct s as [|x s]; [done|]. cbn [length]. by rewrite Hs.
Qed.

Lemma re_sub_from_digits rest repl fuel : forall prev (s : pystr),
  Forall (fun c => uc_isdecimal c = false) s ->
  re_sub_from (RSeq RWordB (RSeq (RPlus RDigit) rest)) repl fuel prev s = s.
Proof.
  induction fuel as [|f IH]; intros prev s Hs; [done|].
  cbn [re_sub_from]. rewrite rmatch_digits_none by (by destruct Hs).
  destruct Hs as [|c s Hc Hs]; [done|]. by rewrite IH.
Qed.

(** [\s+] takes the whole run of white space. *)
Lemma rplus_space_run (s : pystr) : forall prev x,
  isspace x = true ->
  exists p,
    rmatch (RPlus RSpace) prev (x :: s) (fun p s' => Some (p, s')) =
    Some (p, lstrip_by isspace s).
Proof.
  induction s as [|y s IH]; intros prev x Hx.
  - exists (Some x). cbn. by rewrite Hx.
  - assert (Hstep :
      rmatch (RPlus RSpace) prev (x :: y :: s) (fun p s' => Some (p, s')) =
      match rmatch (RPlus RSpace) (Some x) (y :: s) (fun p s' => Some (p, s')) with
      | Some r => Some r
      | None => Some (Some x, y :: s)
      end).
    { cbn [rmatch length]. by rewrite Hx. }
    rewrite Hstep. cbn [lstrip_by].
    destruct (isspace y) eqn:Hy.
    + destruct (IH (Some x) y Hy) as [p ->]. by exists p.
    + exists (Some x). cbn [rmatch length]. by rewrite Hy.
Qed.

Lemma rplus_space_none prev (s : pystr) :
  match s with x :: _ => isspace x = false | [] => True end ->
  rmatch (RPlus RSpace) prev s (fun p s' => Some (p, s')) = None.
Proof. destruct s as [|x s]; [done|]. intros Hx. cbn. by rewrite Hx. Qed.

(** The text after [re.sub(r"\s+", " ", ...)] and the removal of the white
    space at its end, [cur] being the word that is being read. *)
Lemma re_sub_ws_words n : forall fuel prev (s cur : pystr) c,
  (length s <= n)%nat -> (length s < fuel)%nat ->
  isspace c = false ->
  rstrip_by isspace
    (rev (c :: cur) ++ re_sub_from (RPlus RSpace) (u " ") fuel prev s) =
  join (u " ") (words_from (c :: cur) s).
Proof.
  induction n as [n IH] using lt_wf_ind.
  intros fuel prev s cur c Hn Hfuel Hc.
  destruct fuel as [|f]; [lia|]. cbn [re_sub_from].
  destruct s as [|x s].
  - rewrite rplus_space_none by done. rewrite app_nil_r.
    cbn [words_from join]. by apply rstrip_by_rev_keep.
  - destruct (isspace x) eqn:Hx.
    + destruct (rplus_space_run s prev x Hx) as [p ->].
      pose proof (lstrip_by_length isspace s) as Hlen.
      rewrite bool_decide_eq_true_2 by (simpl; lia).
      cbn [words_from]. rewrite Hx.
      rewrite (words_from_lstrip s).
      destruct (lstrip_by_head isspace s) as [Hs|(y & r & Hs & Hy)].
      * rewrite Hs. destruct f as [|f]; cbn [re_sub_from];
          rewrite ?rplus_space_none by done;
          rewrite rstrip_by_app_all by done;
          cbn [words_from join]; by apply rstrip_by_rev_keep.
      * rewrite Hs in *. simpl in Hlen, Hn, Hfuel.
        destruct f as [|f]; [lia|]. cbn [re_sub_from].
        rewrite rplus_space_none by done.
        assert (Hw : words_from [] (y :: r) = words_from [y] r)
          by (simpl; by rewrite Hy).
        rewrite Hw, join_cons by apply words_from_cons.
        assert (Hrec :
          rstrip_by isspace
            (rev [y] ++ re_sub_from (RPlus RSpace) (u " ") f (Some y) r) =
          join (u " ") (words_from [y] r)).
        { apply (IH (length r)); simpl; try lia; exact Hy. }
        change (rev [y] ++ ?l) with (y :: l) in Hrec.
        rewrite <- Hrec.
        rewrite (app_assoc _ (u " ")).
        rewrite rstrip_by_app_keep; [by rewrite <- app_assoc|].
        by rewrite (rstrip_by_cons isspace y _ Hy).
    + rewrite rplus_space_none by done.
      cbn [words_from]. rewrite Hx.
      change (rev (c :: cur) ++ x :: ?l) with (rev (c :: cur) ++ [x] ++ l).
      rewrite app_assoc.
      change (rev (c :: cur) ++ [x]) with (rev (x :: c :: cur)).
      apply (IH (length s)); simpl in *; try lia; exact Hx.
Qed.

(** The same text without the white space at its start. *)
Lemma re_sub_ws_lstrip fuel prev (t : pystr) :
  (length t < fuel)%nat ->
  match lstrip_by isspace t with
  | [] => forallb isspace (re_sub_from (RPlus RSpace) (u " ") fuel prev t) = true
  | y :: r =>
    exists fuel' prev',
      (length r < fuel')%nat /\
      lstrip_by isspace (re_sub_from (RPlus RSpace) (u " ") fuel prev t) =
      y :: re_sub_from (RPlus RSpace) (u " ") fuel' prev' r
  end.
Proof.
  intros Hfuel. destruct fuel as [|f]; [lia|]. cbn [re_sub_from].
  destruct t as [|x s].
  { by rewrite rplus_space_none. }
  cbn [lstrip_by]. destruct (isspace x) eqn:Hx.
  - destruct (rplus_space_run s prev x Hx) as [p ->].
    pose proof (lstrip_by_length isspace s) as Hlen.
    rewrite bool_decide_eq_true_2 by (simpl; lia).
    destruct (lstrip_by_head isspace s) as [Hs|(y & r & Hs & Hy)].
    + rewrite Hs. destruct f as [|f]; cbn [re_sub_from];
        rewrite ?rplus_space_none by done; reflexivity.
    + rewrite Hs in *. simpl in Hlen, Hfuel.
      destruct f as [|f]; [lia|]. cbn [re_sub_from].
      rewrite rplus_space_none by done.
      exists f, (Some y). split; [lia|].
      change (u " " ++ ?l) with (32%N :: l). cbn [lstrip_by].
      change (isspace 32) with true. cbv iota. by rewrite Hy.
  - rewrite rplus_space_none by done.
    exists f, (Some x). split; [simpl in Hfuel; lia|].
    cbn [lstrip_by]. by rewrite Hx.
Qed.

(** X16. The simplified term of a term without digits.  When the
    lower-cased term has no decimal digit, no dose and no pack size is
    removed: the simplified term is the words of the lower-cased term,
    joined with single spaces; a term without words is returned as it
    is. *)
Theorem term_simplify_sem_digitos (term : pystr) :
  Forall (fun c => uc_isdecimal c = false) (uc_lower term) ->
  _term_simplify term =
  match words_from [] (uc_lower term) with
  | [] => term
  | w :: ws => join (u " ") (w :: ws)
  end.
Proof.
  intros Hd.
  assert (H1 : re_sub re_dose (u " ") (uc_lower term) = uc_lower term)
    by (unfold re_sub, re_dose; by apply re_sub_from_digits).
  assert (H2 : re_sub re_forma (u " ") (uc_lower term) = uc_lower term)
    by (unfold re_sub, re_forma; by apply re_sub_from_digits).
  unfold _term_simplify. cbv zeta. rewrite H1, H2. clear H1 H2. unfold re_sub.
  set (t := uc_lower term). clearbody t. clear Hd.
  rewrite (words_from_lstrip t).
  unfold strip, strip_by.
  pose proof (re_sub_ws_lstrip (S (length t)) None t (Nat.lt_succ_diag_r _)) as Hl.
  destruct (lstrip_by isspace t) as [|y r] eqn:Ht.
  - replace (lstrip_by isspace (re_sub_from (RPlus RSpace) (u " ") (S (length t)) None t))
      with (@nil N); [done|].
    symmetry. rewrite <- (app_nil_r (re_sub_from _ _ _ _ _)).
    by rewrite lstrip_by_app_all.
  - destruct Hl as (fuel' & prev' & Hfuel & ->).
    assert (Hy : isspace y = false).
    { destruct (lstrip_by_head isspace t) as [Hs|(y' & r' & Hs & Hy')];
        rewrite Ht in Hs; [discriminate|]. by injection Hs as -> ->. }
    assert (Hw : words_from [] (y :: r) = words_from [y] r)
      by (simpl; by rewrite Hy).
    rewrite Hw.
    pose proof (re_sub_ws_words (length r) fuel' prev' r [] y (Nat.le_refl _) Hfuel)
      as Hrec.
    change (rev [y] ++ ?l) with (y :: l) in Hrec.
    specialize (Hrec Hy).
    rewrite (rstrip_by_cons isspace y _ Hy). cbv iota.
    rewrite <- (rstrip_by_cons isspace y _ Hy), Hrec.
    destruct (words_from [y] r) eqn:Hws; [by destruct (words_from_cons y [] r)|].
    reflexivity.
Qed.

End Simplificacao.

(** ** The link of a product *)

Section Ligacao.
Context {rt : Runtime} {L : Latin1 rt}.

Lemma replace1_nil old new : Str.replace1 old new [] = [].
Proof. reflexivity. Qed.


End Ligacao.

(** ** The term as it is typed, and answers that are not lists *)

Section Respostas2.
Context {rt : Runtime} {W : Type} {C : Catalog W}.

(** X18. The white space around the term does not count: [_consultar]
    does for a term what it does for the term stripped. *)
Theorem consultar_strip termo nome_ref (st : state W) :
  _consultar (Str.strip termo) nome_ref st = _consultar termo nome_ref st.
Proof.
  assert (Hs : Str.strip (Str.strip termo) = Str.strip termo)
    by (unfold Str.strip; apply strip_by_idem).
  unfold _consultar. cbv zeta. by rewrite !Hs.
Qed.

Lemma score_str tokens k :
  score tokens (JStr k) = Raise (no_attribute (JStr k) "get").
Proof. unfold score. by destruct tokens. Qed.

(** X19. An answer that is a JSON object and not a list, as the body of
    an error is: unless it is empty, the scorer takes its keys for the
    candidates and raises [AttributeError] at the first one, whatever
    the reference; and [_consultar], whose search by term got that
    answer, raises it after that one search. *)
Theorem consultar_resposta_objeto termo nome_ref (st : state W) k v m :
  (forall ref, _best_match (JObj ((k, v) :: m)) ref =
               Raise (no_attribute (JStr k) "get")) /\
  (fst (term_answer (Str.strip termo) 0 19 (fst st)) = Ret (JObj ((k, v) :: m)) ->
   _consultar termo nome_ref st =
   (Raise (no_attribute (JStr k) "get"),
    (snd (term_answer (Str.strip termo) 0 19 (fst st)),
     snd st ++ [EvSearchTerm (Str.strip termo) 0 19
                  (Ret (JObj ((k, v) :: m)))]))).
Proof.
  assert (Hbest : forall ref, _best_match (JObj ((k, v) :: m)) ref =
                              Raise (no_attribute (JStr k) "get")).
  { intros ref. unfold _best_match.
    change (truthy (JObj ((k, v) :: m))) with true.
    cbn [negb py_iter obind map fst omap]. by rewrite score_str. }
  split; [exact Hbest|].
  intros Hans. destruct st as [w tr]. cbn [fst snd] in *.
  rewrite consultar_run. cbv zeta. rewrite Hans.
  unfold no_candidates, extrair. cbn [candidates].
  change (truthy (JObj ((k, v) :: m))) with true. cbn [negb andb].
  rewrite Hbest. cbn [obind]. by rewrite app_nil_r.
Qed.

End Respostas2.

Section SemCategorias.
Context {rt : Runtime}.

(** X20. A product without categories.  When [categoryTree] is absent,
    null, not a list or an empty list, and [categories] is absent, null
    or empty, the classification is the dash. *)
Theorem breadcrumb_sem_categorias (p tree cats : json) :
  py_get p (u "categoryTree") JNull = Ret tree ->
  (forall node nodes, tree <> JArr (node :: nodes)) ->
  py_get p (u "categories") JNull = Ret cats ->
  truthy cats = false ->
  _breadcrumb p = Ret TRAVESSAO.
Proof.
  intros Htree Hnot Hcats Hfalsy. unfold _breadcrumb.
  rewrite Htree. cbn [obind].
  assert (Hor : py_or cats (JArr []) = JArr [])
    by (unfold py_or; by rewrite Hfalsy).
  destruct tree as [| | | | |[|node nodes]|]; cbn [obind];
    try (rewrite Hcats; cbn [obind]; rewrite Hor; reflexivity).
  by destruct (Hnot node nodes).
Qed.

End SemCategorias.

(** ** The further properties on concrete runs *)

Lemma consultar_resultados_witness :
  fst (_consultar (rt:=latin1_runtime) (C:=scripted) CODIGO CODIGO
         acha_pelo_codigo) =
    Ret (dict [(u "Preco", u "R$ 16,31"); (u "Link", LINK_ANALGESICO);
               (u "Classificacao", u "Medicamentos > Analgésicos");
               (u "Observacao", u "—")]) /\
  get_is (dict [(u "Preco", u "R$ 16,31"); (u "Link", LINK_ANALGESICO);
                (u "Classificacao", u "Medicamentos > Analgésicos");
                (u "Observacao", u "—")]) (u "Link") [] =
  get_is (dict [(u "Preco", u "R$ 16,31"); (u "Link", LINK_ANALGESICO);
                (u "Classificacao", u "Medicamentos > Analgésicos");
                (u "Observacao", u "—")]) (u "Preco") NAO_ENCONTRADO.
Proof.
  assert (Hr :
    fst (_consultar (rt:=latin1_runtime) (C:=scripted) CODIGO CODIGO
           acha_pelo_codigo) =
      Ret (dict [(u "Preco", u "R$ 16,31"); (u "Link", LINK_ANALGESICO);
                 (u "Classificacao", u "Medicamentos > Analgésicos");
                 (u "Observacao", u "—")]))
    by (vm_compute; reflexivity).
  split; [exact Hr|].
  exact (proj2 (consultar_resultados (rt:=latin1_runtime) (C:=scripted)
                  CODIGO CODIGO acha_pelo_codigo _ Hr)).
Defined.

(** The Code attempt raises on a record without a name; the row is what
    the Name attempt finds. *)
Lemma linha_segunda_tentativa_witness :
  row_ean (rt:=latin1_runtime) planilha_ean_nome
    [Some (u "123"); Some (u "dipirona")] <> [] /\
  row_nome (rt:=latin1_runtime) planilha_ean_nome
    [Some (u "123"); Some (u "dipirona")] <> [] /\
  fst (processar_linha (rt:=latin1_runtime) (C:=scripted) planilha_ean_nome
         [Some (u "123"); Some (u "dipirona")] responde_sem_nome) =
    Ret (registro (u "123") (u "dipirona") (u "R$ 16,31") LINK_ANALGESICO
                  (u "Medicamentos > Analgésicos") (u "—")).
Proof.
  assert (He : row_ean (rt:=latin1_runtime) planilha_ean_nome
                 [Some (u "123"); Some (u "dipirona")] = u "123")
    by (vm_compute; reflexivity).
  assert (Hn : row_nome (rt:=latin1_runtime) planilha_ean_nome
                 [Some (u "123"); Some (u "dipirona")] = u "dipirona")
    by (vm_compute; reflexivity).
  assert (He' : row_ean (rt:=latin1_runtime) planilha_ean_nome
                  [Some (u "123"); Some (u "dipirona")] <> [])
    by (rewrite He; discriminate).
  assert (Hn' : row_nome (rt:=latin1_runtime) planilha_ean_nome
                  [Some (u "123"); Some (u "dipirona")] <> [])
    by (rewrite Hn; discriminate).
  split; [exact He'|]. split; [exact Hn'|].
  rewrite (proj2 (linha_segunda_tentativa (rt:=latin1_runtime) (C:=scripted)
                    planilha_ean_nome [Some (u "123"); Some (u "dipirona")]
                    responde_sem_nome He' Hn')).
  - vm_compute. reflexivity.
  - left. exists SEM_LEN. vm_compute. reflexivity.
Defined.

(** Two rows, the second one empty: one pause. *)
Lemma ritmo_do_lote_witness :
  colunas (rt:=latin1_runtime) planilha_codigos = Ret planilha_ean_nome /\
  List.filter is_sleep
    (added (processar_dataframe (rt:=latin1_runtime) (C:=scripted)
              planilha_codigos) acha_pelo_codigo) = [EvSleep PAUSA].
Proof.
  assert (Hc : colunas (rt:=latin1_runtime) planilha_codigos =
               Ret planilha_ean_nome) by (vm_compute; reflexivity).
  split; [exact Hc|].
  rewrite (proj1 (ritmo_do_lote (rt:=latin1_runtime) (C:=scripted)
                    planilha_codigos planilha_ean_nome acha_pelo_codigo Hc)).
  vm_compute. reflexivity.
Defined.

Lemma breadcrumb_arvore_witness :
  _breadcrumb (rt:=latin1_runtime) analgesico =
  Ret (u "Medicamentos > Analgésicos").
Proof.
  refine (breadcrumb_arvore (rt:=latin1_runtime) analgesico
            [no "Início"; no "Medicamentos"; no "Analgésicos"]
            [u "Início"; u "Medicamentos"; u "Analgésicos"] _ _ _).
  - vm_compute. reflexivity.
  - repeat constructor.
  - vm_compute. discriminate.
Defined.


Lemma consultar_nome_nulo_witness :
  Forall (fun p => candidate p \/ nome_nulo p) [analgesico; sem_nome] /\
  Exists nome_nulo [analgesico; sem_nome] /\
  _best_match (rt:=latin1_runtime) (JArr [analgesico; sem_nome])
    (u "dipirona") = Raise SEM_LEN.
Proof.
  assert (Hl : Forall (fun p => candidate p \/ nome_nulo p)
                 [analgesico; sem_nome]).
  { constructor; [by left|]. constructor; [|constructor].
    right. by eexists. }
  assert (Hex : Exists nome_nulo [analgesico; sem_nome]).
  { apply Exists_cons_tl. constructor. by eexists. }
  split; [exact Hl|]. split; [exact Hex|].
  exact (proj1 (consultar_nome_nulo (rt:=latin1_runtime) (C:=scripted)
                  (u "dipirona") [] acha_pelo_nome [analgesico; sem_nome]
                  Hl Hex) (u "dipirona")).
Defined.

(** The functions that [main.py] resolves in the module: [buscar_item],
    though [_consultar], [_search_term] and [_search_ean] are defined
    before it, and [processar_dataframe]. *)
Lemma resolver_funcao_spec_witness :
  _resolver_funcao (rt:=latin1_runtime) chamavel MODULO CANDIDATOS_BUSCA
    (u "BUSCA (por EAN/NOME)") (Some HEURISTICA_BUSCA) =
    Ret (Chamavel (u "buscar_item")) /\
  _resolver_funcao (rt:=latin1_runtime) chamavel MODULO
    [u "processar_dataframe"] (u "PROCESSAMENTO DA PLANILHA")
    (Some HEURISTICA_PLANILHA) =
    Ret (Chamavel (u "processar_dataframe")).
Proof.
  split.
  - refine (proj1 (proj2 (resolver_funcao_spec (rt:=latin1_runtime) chamavel
              MODULO CANDIDATOS_BUSCA (u "BUSCA (por EAN/NOME)")
              (Some HEURISTICA_BUSCA)))
              [] (u "buscar_item")
              [u "_consultar"; u "_search_term"; u "_search_ean"]
              (take 30 MODULO) (u "buscar_item") (Chamavel (u "buscar_item"))
              (drop 31 MODULO) _ _ _ _ _).
    + reflexivity.
    + vm_compute. reflexivity.
    + split; reflexivity.
    + constructor.
    + apply List.Forall_forall. intros [a o] Hin [Hc He].
      vm_compute in Hin.
      repeat (destruct Hin as [[= <- <-]|Hin]; [vm_compute in Hc, He; discriminate|]).
      destruct Hin.
  - refine (proj1 (proj2 (resolver_funcao_spec (rt:=latin1_runtime) chamavel
              MODULO [u "processar_dataframe"] (u "PROCESSAMENTO DA PLANILHA")
              (Some HEURISTICA_PLANILHA)))
              [] (u "processar_dataframe") []
              (take 31 MODULO) (u "processar_dataframe")
              (Chamavel (u "processar_dataframe")) (drop 32 MODULO) _ _ _ _ _).
    + reflexivity.
    + vm_compute. reflexivity.
    + split; reflexivity.
    + constructor.
    + apply List.Forall_forall. intros [a o] Hin [Hc He].
      vm_compute in Hin.
      repeat (destruct Hin as [[= <- <-]|Hin]; [vm_compute in Hc, He; discriminate|]).
      destruct Hin.
Defined.

Lemma normalize_result_lote_witness :
  colunas (rt:=latin1_runtime) planilha_codigos = Ret planilha_ean_nome /\
  exists ds st',
    processar_dataframe (rt:=latin1_runtime) (C:=scripted) planilha_codigos
      acha_pelo_codigo = (Ret (DataFrame ds COLUNAS), st') /\
    length ds = 2%nat /\
    _normalize_result (PFrame (DataFrame ds COLUNAS)) = Ret (map PDict ds).
Proof.
  assert (Hc : colunas (rt:=latin1_runtime) planilha_codigos =
               Ret planilha_ean_nome) by (vm_compute; reflexivity).
  split; [exact Hc|].
  destruct (normalize_result_lote (rt:=latin1_runtime) (C:=scripted)
              planilha_codigos planilha_ean_nome acha_pelo_codigo Hc)
    as (ds & st' & Hrun & Hall & Hnorm).
  exists ds, st'. split; [exact Hrun|]. split; [|exact Hnorm].
  symmetry. exact (Forall2_length _ _ _ Hall).
Defined.

(** The row of the product found by its Code: a formula. *)
Lemma celula_preco_witness :
  fst (processar_linha (rt:=latin1_runtime) (C:=scripted) planilha_ean_nome
         [Some CODIGO; None] acha_pelo_codigo) =
    Ret (registro CODIGO CODIGO (u "R$ 16,31") LINK_ANALGESICO
                  (u "Medicamentos > Analgésicos") (u "—")) /\
  (_mk (rt:=latin1_runtime)
     (registro CODIGO CODIGO (u "R$ 16,31") LINK_ANALGESICO
               (u "Medicamentos > Analgésicos") (u "—")) = NAO_ENCONTRADO \/
   exists valor slug,
     _mk (rt:=latin1_runtime)
       (registro CODIGO CODIGO (u "R$ 16,31") LINK_ANALGESICO
                 (u "Medicamentos > Analgésicos") (u "—")) =
     HYPERLINK (BASE ++ u "/" ++ slug ++ u "/p") (u "R$ " ++ valor)).
Proof.
  assert (Hrow :
    fst (processar_linha (rt:=latin1_runtime) (C:=scripted) planilha_ean_nome
           [Some CODIGO; None] acha_pelo_codigo) =
      Ret (registro CODIGO CODIGO (u "R$ 16,31") LINK_ANALGESICO
                    (u "Medicamentos > Analgésicos") (u "—")))
    by (vm_compute; reflexivity).
  split; [exact Hrow|].
  apply (celula_preco (rt:=latin1_runtime) (C:=scripted)).
  left. exists planilha_ean_nome, [Some CODIGO; None], acha_pelo_codigo,
    (snd (processar_linha (rt:=latin1_runtime) (C:=scripted) planilha_ean_nome
            [Some CODIGO; None] acha_pelo_codigo)).
  rewrite <- Hrow. apply surjective_pairing.
Defined.

Lemma term_simplify_sem_digitos_witness :
  Forall (fun c => uc_isdecimal (Runtime:=latin1_runtime) c = false)
         (uc_lower (Runtime:=latin1_runtime) (u "  Dipirona   Gotas ")) /\
  _term_simplify (rt:=latin1_runtime) (u "  Dipirona   Gotas ") =
    u "dipirona gotas".
Proof.
  assert (Hd : Forall (fun c => uc_isdecimal (Runtime:=latin1_runtime) c = false)
                 (uc_lower (Runtime:=latin1_runtime) (u "  Dipirona   Gotas ")))
    by (apply (bool_decide_unpack _); vm_compute; reflexivity).
  split; [exact Hd|].
  rewrite (term_simplify_sem_digitos (rt:=latin1_runtime) _ Hd).
  vm_compute. reflexivity.
Defined.


Lemma breadcrumb_sem_categorias_witness :
  py_get (named "Dipirona") (u "categoryTree") JNull = Ret JNull /\
  py_get (named "Dipirona") (u "categories") JNull = Ret JNull /\
  _breadcrumb (rt:=latin1_runtime) (named "Dipirona") = Ret (u "—").
Proof.
  split; [reflexivity|]. split; [reflexivity|].
  refine (breadcrumb_sem_categorias (rt:=latin1_runtime) (named "Dipirona")
            JNull JNull _ _ _ _).
  - reflexivity.
  - discriminate.
  - reflexivity.
  - reflexivity.
Defined.
